(** * Usage accounting, quota admission and billing webhook of the
      canva-reve backend ([backend/server.ts])

    A shallow embedding of the backend's usage/billing core, and the
    properties of it that the specification states.

    Conventions of the embedding.
    - A JavaScript string is the sequence of its UTF-8 bytes ([string]), and
      lengths are counted in bytes; a [Buffer] is a list of bytes
      ([list Z], each in 0..255).
    - A JavaScript [number] that holds a counter is an integer ([Z]).
    - A value of a TypeScript type is modelled by that type: [UsageRecord],
      [DbUsageRow], the typed bodies the three HTTP collaborators answer
      with.  A value the code treats as [unknown] (webhook payload,
      request body) is a [JSON] value.
    - An object used as a dictionary (the [users] of the usage file, a
      parsed JSON object) is a finite map of its own properties.  A lookup
      in [users] also finds what every object inherits from
      [Object.prototype]; [Lookup] models that lookup, shows that it is the
      map's on every user id that names no inherited property, and what
      the code does on one that does.  The properties of the store that
      are stated for every user id are about the former ids.
    - The Supabase table is a finite map from its primary key [user_id] to
      the other columns, and returns a row as it was written.
    - An [async] function is a computation over the [World] (usage file,
      remote table, counters of remote requests and clock reads, log of
      calls to the image provider) that returns or throws; what the network
      answers and what the clock shows is read from the environment [Env];
      the file system does not fail.
    - Properties of several requests take them one after the other
      ([serve]): a handler has answered before the next request starts, and
      what two overlapping requests do to the store is outside the model.
    - [crypto] and [JSON.parse] are modelled executably, after FIPS 180-4,
      RFC 2104 and ECMA-404; the reader of JSON texts recurses on fuel, and
      the fuel [JSONText.parse] gives it is shown to be enough
      ([JSONTextFacts.parse_complete]). *)

From Stdlib Require Import ZArith String Ascii List Bool Lia DecimalString.
From stdpp Require Import gmap strings.
Import ListNotations.

Local Open Scope string_scope.
Local Open Scope Z_scope.
Local Open Scope list_scope.

(* ===================================================================== *)
(** ** JavaScript strings *)
(* ===================================================================== *)

Module JSString.

Definition bytes (l : list nat) : string :=
  string_of_list_ascii (map ascii_of_nat l).

(** [!s] is true exactly for the empty string. *)
Definition truthy (s : string) : bool :=
  match s with EmptyString => false | String _ _ => true end.

(** WhiteSpace and LineTerminator code points of ECMA-262, in UTF-8. *)
Definition whiteSpace : list string :=
  map bytes
    [ [9]; [10]; [11]; [12]; [13]; [32]; [194; 160]; [225; 154; 128];
      [226; 128; 128]; [226; 128; 129]; [226; 128; 130]; [226; 128; 131];
      [226; 128; 132]; [226; 128; 133]; [226; 128; 134]; [226; 128; 135];
      [226; 128; 136]; [226; 128; 137]; [226; 128; 138]; [226; 128; 168];
      [226; 128; 169]; [226; 128; 175]; [226; 129; 159]; [227; 128; 128];
      [239; 187; 191] ]%nat.

Fixpoint dropPrefix (p s : string) : option string :=
  match p, s with
  | EmptyString, _ => Some s
  | String a p', String b s' => if Ascii.eqb a b then dropPrefix p' s' else None
  | String _ _, EmptyString => None
  end.

Fixpoint dropOneOf (ps : list string) (s : string) : option string :=
  match ps with
  | [] => None
  | p :: ps' =>
      match dropPrefix p s with
      | Some r => Some r
      | None => dropOneOf ps' s
      end
  end.

Fixpoint dropAll (ps : list string) (fuel : nat) (s : string) : string :=
  match fuel with
  | O => s
  | S fuel' =>
      match dropOneOf ps s with
      | Some r => dropAll ps fuel' r
      | None => s
      end
  end.

Definition reverse (s : string) : string :=
  string_of_list_ascii (rev (list_ascii_of_string s)).

Definition trimStart (s : string) : string :=
  dropAll whiteSpace (String.length s) s.

Definition trimEnd (s : string) : string :=
  reverse (dropAll (map reverse whiteSpace) (String.length s) (reverse s)).

(** [s.trim()] *)
Definition trim (s : string) : string := trimEnd (trimStart s).

(** [s.slice(0, n)] *)
Definition slice0 (n : nat) (s : string) : string := substring 0 n s.

(** [s.startsWith(p)] *)
Definition startsWith (p s : string) : bool :=
  match dropPrefix p s with Some _ => true | None => false end.

(** [s.substring(i + 1)] for the first index [i] of [c] in [s], when any. *)
Fixpoint afterFirst (c : ascii) (s : string) : option string :=
  match s with
  | EmptyString => None
  | String a s' => if Ascii.eqb a c then Some s' else afterFirst c s'
  end.

(** The decimal numeral of a natural number, as [String(i)] prints an index. *)
Definition decimal (n : nat) : string := NilZero.string_of_uint (Nat.to_uint n).

End JSString.

(* ===================================================================== *)
(** ** JSON values and property access *)
(* ===================================================================== *)

(** A number literal [m * 10^e] is kept exactly. *)
#[warnings="-register-all"]
Inductive JSON : Type :=
| JNull
| JBool (b : bool)
| JNum (mantissa exponent : Z)
| JStr (s : string)
| JArr (items : list JSON)
| JObj (members : list (string * JSON)).

Module JS.

(** A repeated key keeps its last value, as [JSON.parse] does. *)
Fixpoint member (k : string) (ms : list (string * JSON)) : option JSON :=
  match ms with
  | [] => None
  | (k', v) :: ms' =>
      match member k ms' with
      | Some v' => Some v'
      | None => if String.eqb k k' then Some v else None
      end
  end.

Definition arrayIndex (k : string) (n : nat) : option nat :=
  List.find (fun i => String.eqb (JSString.decimal i) k) (seq 0 n).

(** [v[k]] for an object or array [v]; [None] is [undefined]. *)
Definition get (v : JSON) (k : string) : option JSON :=
  match v with
  | JObj ms => member k ms
  | JArr items =>
      if String.eqb k "length" then Some (JNum (Z.of_nat (length items)) 0)
      else match arrayIndex k (length items) with
           | Some i => nth_error items i
           | None => None
           end
  | _ => None
  end.

(** [k in v] for an object or array [v]. *)
Definition has (v : JSON) (k : string) : bool :=
  match v with
  | JObj ms => match member k ms with Some _ => true | None => false end
  | JArr items =>
      String.eqb k "length"
      || match arrayIndex k (length items) with Some _ => true | None => false end
  | _ => false
  end.

End JS.

(* ===================================================================== *)
(** ** Data model *)
(* ===================================================================== *)

Inductive BillingStatus : Type := free | active.

Record UsageRecord : Type := mkUsageRecord {
  userId : string;
  generatedCount : Z;
  billingStatus : BillingStatus;
  lemonCustomerId : option string;
  lemonSubscriptionId : option string;
  updatedAt : string
}.

Record DbUsageRow : Type := mkDbUsageRow {
  user_id : string;
  generated_count : Z;
  billing_status : BillingStatus;
  lemon_customer_id : option string;
  lemon_subscription_id : option string;
  updated_at : string
}.

(** A row of [public.app_usage] without its primary key [user_id]: the
    table is a map from the key to the other columns. *)
Record AppUsageColumns : Type := mkAppUsageColumns {
  col_generated_count : Z;
  col_billing_status : BillingStatus;
  col_lemon_customer_id : option string;
  col_lemon_subscription_id : option string;
  col_updated_at : string
}.

Definition rowOf (key : string) (c : AppUsageColumns) : DbUsageRow :=
  {| user_id := key;
     generated_count := col_generated_count c;
     billing_status := col_billing_status c;
     lemon_customer_id := col_lemon_customer_id c;
     lemon_subscription_id := col_lemon_subscription_id c;
     updated_at := col_updated_at c |}.

Definition columnsOf (row : DbUsageRow) : AppUsageColumns :=
  {| col_generated_count := generated_count row;
     col_billing_status := billing_status row;
     col_lemon_customer_id := lemon_customer_id row;
     col_lemon_subscription_id := lemon_subscription_id row;
     col_updated_at := updated_at row |}.

(** What [buildUsageView] returns. *)
Record UsageView : Type := mkUsageView {
  view_userId : string;
  view_generatedCount : Z;
  freeLimit : Z;
  remainingFree : Z;
  view_billingStatus : BillingStatus;
  hasActiveSubscription : bool;
  canGenerate : bool
}.

Definition FREE_IMAGE_LIMIT : Z := 1.

Definition BillingStatus_eqb (a b : BillingStatus) : bool :=
  match a, b with
  | free, free | active, active => true
  | _, _ => false
  end.

Definition buildUsageView (record : UsageRecord) : UsageView :=
  let remainingFree := Z.max 0 (FREE_IMAGE_LIMIT - generatedCount record) in
  let hasActiveSubscription := BillingStatus_eqb (billingStatus record) active in
  let canGenerate := hasActiveSubscription || (remainingFree >? 0) in
  {| view_userId := userId record;
     view_generatedCount := generatedCount record;
     freeLimit := FREE_IMAGE_LIMIT;
     remainingFree := remainingFree;
     view_billingStatus := billingStatus record;
     hasActiveSubscription := hasActiveSubscription;
     canGenerate := canGenerate |}.

Definition mapDbUsageRowToUsageRecord (row : DbUsageRow) : UsageRecord :=
  {| userId := user_id row;
     generatedCount := generated_count row;
     billingStatus := billing_status row;
     lemonCustomerId := lemon_customer_id row;
     lemonSubscriptionId := lemon_subscription_id row;
     updatedAt := updated_at row |}.

(* ===================================================================== *)
(** ** [JSON.parse] *)
(* ===================================================================== *)

Module JSONText.

Definition code (c : ascii) : Z := Z.of_N (N_of_ascii c).
Definition chr (n : Z) : ascii := ascii_of_N (Z.to_N n).

Definition isWs (c : ascii) : bool :=
  let n := code c in (n =? 32) || (n =? 9) || (n =? 10) || (n =? 13).

Fixpoint skipWs (s : string) : string :=
  match s with
  | String c s' => if isWs c then skipWs s' else s
  | EmptyString => s
  end.

Definition digitVal (c : ascii) : option Z :=
  let n := code c in
  if (48 <=? n) && (n <=? 57) then Some (n - 48) else None.

Definition hexVal (c : ascii) : option Z :=
  let n := code c in
  if (48 <=? n) && (n <=? 57) then Some (n - 48)
  else if (65 <=? n) && (n <=? 70) then Some (n - 55)
  else if (97 <=? n) && (n <=? 102) then Some (n - 87)
  else None.

(** Reads a run of decimal digits: the value accumulated on [acc], the
    number of digits read, the rest of the text. *)
Fixpoint digits (s : string) (acc count : Z) : Z * Z * string :=
  match s with
  | String c s' =>
      match digitVal c with
      | Some d => digits s' (acc * 10 + d) (count + 1)
      | None => (acc, count, s)
      end
  | EmptyString => (acc, count, s)
  end.

Definition parseExponent (s : string) : option (Z * string) :=
  match s with
  | String c r =>
      if (code c =? 101) || (code c =? 69) then
        let '(sgn, r1) :=
          match r with
          | String d r' =>
              if code d =? 43 then (1, r')
              else if code d =? 45 then (-1, r')
              else (1, r)
          | EmptyString => (1, r)
          end in
        let '(a, n, r2) := digits r1 0 0 in
        if n =? 0 then None else Some (sgn * a, r2)
      else Some (0, s)
  | EmptyString => Some (0, s)
  end.

Definition parseFraction (ip : Z) (s : string) : option (Z * Z * string) :=
  match s with
  | String c r =>
      if code c =? 46 then
        let '(a, n, r') := digits r ip 0 in
        if n =? 0 then None else Some (a, n, r')
      else Some (ip, 0, s)
  | EmptyString => Some (ip, 0, s)
  end.

(** A JSON number: optional minus, an integer part with no leading
    zero, an optional fraction, an optional exponent. *)
Definition parseNumber (s : string) : option (JSON * string) :=
  let '(neg, s1) :=
    match s with
    | String c r => if code c =? 45 then (true, r) else (false, s)
    | EmptyString => (false, s)
    end in
  match s1 with
  | String c r =>
      match digitVal c with
      | None => None
      | Some d =>
          let '(ip, s2) :=
            if d =? 0 then (0, r)
            else let '(a, _, r') := digits r d 1 in (a, r') in
          match parseFraction ip s2 with
          | None => None
          | Some (m, fd, s3) =>
              match parseExponent s3 with
              | None => None
              | Some (e, s4) => Some (JNum (if neg then - m else m) (e - fd), s4)
              end
          end
      end
  | EmptyString => None
  end.

Definition hex4 (s : string) : option (Z * string) :=
  match s with
  | String a (String b (String c (String d r))) =>
      match hexVal a, hexVal b, hexVal c, hexVal d with
      | Some x, Some y, Some z, Some w => Some (((x * 16 + y) * 16 + z) * 16 + w, r)
      | _, _, _, _ => None
      end
  | _ => None
  end.

(** The UTF-8 encoding of a code point. *)
Definition utf8 (cp : Z) : list ascii :=
  map chr
    (if cp <? 128 then [cp]
     else if cp <? 2048 then [192 + cp / 64; 128 + cp mod 64]
     else if cp <? 65536 then
       [224 + cp / 4096; 128 + (cp / 64) mod 64; 128 + cp mod 64]
     else
       [240 + cp / 262144; 128 + (cp / 4096) mod 64;
        128 + (cp / 64) mod 64; 128 + cp mod 64]).

Definition simpleEscape (e : ascii) : option ascii :=
  let n := code e in
  if (n =? 34) || (n =? 92) || (n =? 47) then Some e
  else if n =? 98 then Some (chr 8)
  else if n =? 102 then Some (chr 12)
  else if n =? 110 then Some (chr 10)
  else if n =? 114 then Some (chr 13)
  else if n =? 116 then Some (chr 9)
  else None.

(** The low half of a surrogate pair that follows a high half [u1]. *)
Definition lowSurrogate (u1 : Z) (s : string) : option (Z * string) :=
  if (55296 <=? u1) && (u1 <=? 56319) then
    match s with
    | String b (String u r) =>
        if (code b =? 92) && (code u =? 117) then
          match hex4 r with
          | Some (u2, r') =>
              if (56320 <=? u2) && (u2 <=? 57343)
              then Some (65536 + (u1 - 55296) * 1024 + (u2 - 56320), r')
              else None
          | None => None
          end
        else None
    | _ => None
    end
  else None.

Definition prepend (cs : list ascii) (r : option (string * string)) :
  option (string * string) :=
  match r with
  | Some (s, rest) => Some (fold_right String s cs, rest)
  | None => None
  end.

(** The characters of a string literal after its opening quote. *)
Fixpoint parseChars (fuel : nat) (s : string) : option (string * string) :=
  match fuel with
  | O => None
  | S fuel' =>
      match s with
      | EmptyString => None
      | String c r =>
          if code c =? 34 then Some (EmptyString, r)
          else if code c =? 92 then
            match r with
            | EmptyString => None
            | String e r' =>
                if code e =? 117 then
                  match hex4 r' with
                  | None => None
                  | Some (u1, r1) =>
                      match lowSurrogate u1 r1 with
                      | Some (cp, r2) => prepend (utf8 cp) (parseChars fuel' r2)
                      | None => prepend (utf8 u1) (parseChars fuel' r1)
                      end
                  end
                else
                  match simpleEscape e with
                  | Some ch => prepend [ch] (parseChars fuel' r')
                  | None => None
                  end
            end
          else if code c <? 32 then None
          else prepend [c] (parseChars fuel' r)
      end
  end.

Definition literal (word : string) (v : JSON) (s : string) : option (JSON * string) :=
  match JSString.dropPrefix word s with
  | Some r => Some (v, r)
  | None => None
  end.

Fixpoint parseValue (fuel : nat) (s : string) : option (JSON * string) :=
  match fuel with
  | O => None
  | S fuel' =>
      match skipWs s with
      | EmptyString => None
      | String c r as s0 =>
          let n := code c in
          if n =? 110 then literal "null" JNull s0
          else if n =? 116 then literal "true" (JBool true) s0
          else if n =? 102 then literal "false" (JBool false) s0
          else if n =? 34 then
            match parseChars (S (String.length r)) r with
            | Some (str, r') => Some (JStr str, r')
            | None => None
            end
          else if n =? 91 then
            match skipWs r with
            | String d r' =>
                if code d =? 93 then Some (JArr [], r')
                else match parseElements fuel' r with
                     | Some (vs, r'') => Some (JArr vs, r'')
                     | None => None
                     end
            | EmptyString => None
            end
          else if n =? 123 then
            match skipWs r with
            | String d r' =>
                if code d =? 125 then Some (JObj [], r')
                else match parseMembers fuel' r with
                     | Some (ms, r'') => Some (JObj ms, r'')
                     | None => None
                     end
            | EmptyString => None
            end
          else parseNumber s0
      end
  end
with parseElements (fuel : nat) (s : string) : option (list JSON * string) :=
  match fuel with
  | O => None
  | S fuel' =>
      match parseValue fuel' s with
      | None => None
      | Some (v, r) =>
          match skipWs r with
          | String c r' =>
              if code c =? 44 then
                match parseElements fuel' r' with
                | Some (vs, r'') => Some (v :: vs, r'')
                | None => None
                end
              else if code c =? 93 then Some ([v], r')
              else None
          | EmptyString => None
          end
      end
  end
with parseMembers (fuel : nat) (s : string) : option (list (string * JSON) * string) :=
  match fuel with
  | O => None
  | S fuel' =>
      match skipWs s with
      | String q r =>
          if code q =? 34 then
            match parseChars (S (String.length r)) r with
            | None => None
            | Some (k, r1) =>
                match skipWs r1 with
                | String c r2 =>
                    if code c =? 58 then
                      match parseValue fuel' r2 with
                      | None => None
                      | Some (v, r3) =>
                          match skipWs r3 with
                          | String d r4 =>
                              if code d =? 44 then
                                match parseMembers fuel' r4 with
                                | Some (ms, r5) => Some ((k, v) :: ms, r5)
                                | None => None
                                end
                              else if code d =? 125 then Some ([(k, v)], r4)
                              else None
                          | EmptyString => None
                          end
                      end
                    else None
                | EmptyString => None
                end
            end
          else None
      | EmptyString => None
      end
  end.

(** [JSON.parse(text)]; [None] when it throws a [SyntaxError]. *)
Definition parse (text : string) : option JSON :=
  match parseValue (2 * String.length text + 2) text with
  | Some (v, r) =>
      match skipWs r with
      | EmptyString => Some v
      | String _ _ => None
      end
  | None => None
  end.

(** Test texts are written with an apostrophe where JSON has a double
    quote. *)
Fixpoint dq (s : string) : string :=
  match s with
  | EmptyString => EmptyString
  | String c s' => String (if code c =? 39 then chr 34 else c) (dq s')
  end.

End JSONText.


(* ===================================================================== *)
(** ** Node's [Buffer] and [crypto]: HMAC-SHA256 (FIPS 180-4, RFC 2104) *)
(* ===================================================================== *)

Module Crypto.

(** [Buffer.from(s)] *)
Definition bufferFrom (s : string) : list Z :=
  map JSONText.code (list_ascii_of_string s).

(** [buf.toString("utf8")] *)
Definition bufferToString (b : list Z) : string :=
  string_of_list_ascii (map JSONText.chr b).

Definition w32 (x : Z) : Z := Z.land x 0xffffffff.

Definition rotr (n x : Z) : Z :=
  Z.lor (Z.shiftr x n) (w32 (Z.shiftl x (32 - n))).

Definition xor3 (a b c : Z) : Z := Z.lxor (Z.lxor a b) c.

Definition Ch (x y z : Z) : Z :=
  Z.lxor (Z.land x y) (Z.land (Z.lxor x 0xffffffff) z).

Definition Maj (x y z : Z) : Z :=
  xor3 (Z.land x y) (Z.land x z) (Z.land y z).

Definition bigSigma0 (x : Z) : Z := xor3 (rotr 2 x) (rotr 13 x) (rotr 22 x).
Definition bigSigma1 (x : Z) : Z := xor3 (rotr 6 x) (rotr 11 x) (rotr 25 x).
Definition smallSigma0 (x : Z) : Z := xor3 (rotr 7 x) (rotr 18 x) (Z.shiftr x 3).
Definition smallSigma1 (x : Z) : Z := xor3 (rotr 17 x) (rotr 19 x) (Z.shiftr x 10).

(** The constants of FIPS 180-4 are the first 32 bits of the fractional
    parts of the cube roots (round constants) and square roots (initial
    hash) of the first primes. *)
Definition isPrime (n : Z) : bool :=
  (1 <? n)
  && forallb (fun d => (n <? d * d) || negb (n mod d =? 0))
             (map Z.of_nat (seq 2 (Z.to_nat n - 2))).

Definition firstPrimes (count : nat) : list Z :=
  firstn count (filter isPrime (map Z.of_nat (seq 2 400))).

(** The integer cube root, bit by bit from the top. *)
Definition cubeRoot (n : Z) : Z :=
  fold_left (fun x bit => let y := x + 2 ^ Z.of_nat bit in
                           if y * y * y <=? n then y else x)
            (rev (seq 0 40)) 0.

Definition K256 : list Z :=
  Eval vm_compute in map (fun p => w32 (cubeRoot (p * 2 ^ 96))) (firstPrimes 64).

Record Hash : Type := mkHash { ha : Z; hb : Z; hc : Z; hd : Z; he : Z; hf : Z; hg : Z; hh : Z }.

Definition fraction32 (p : Z) : Z := w32 (Z.sqrt (p * 2 ^ 64)).

Definition H0 : Hash :=
  Eval vm_compute in
    mkHash (fraction32 2) (fraction32 3) (fraction32 5) (fraction32 7)
           (fraction32 11) (fraction32 13) (fraction32 17) (fraction32 19).

Definition be32 (w : Z) : list Z :=
  [ (w / 16777216) mod 256; (w / 65536) mod 256; (w / 256) mod 256; w mod 256 ].

Definition be64 (n : Z) : list Z := be32 (n / 4294967296) ++ be32 (n mod 4294967296).

Fixpoint words (bs : list Z) : list Z :=
  match bs with
  | a :: b :: c :: d :: r => (((a * 256 + b) * 256 + c) * 256 + d) :: words r
  | _ => []
  end.

Fixpoint blocks (fuel : nat) (ws : list Z) : list (list Z) :=
  match fuel with
  | O => []
  | S fuel' =>
      match ws with
      | [] => []
      | _ :: _ => firstn 16 ws :: blocks fuel' (skipn 16 ws)
      end
  end.

(** The message, a byte 0x80, zeros up to 56 mod 64, the bit length. *)
Definition pad (msg : list Z) : list Z :=
  let len := Z.of_nat (length msg) in
  msg ++ [128] ++ repeat 0 (Z.to_nat ((55 - len) mod 64)) ++ be64 (8 * len).

(** The 64 words of the message schedule, most recent first while built. *)
Definition schedule (block : list Z) : list Z :=
  rev (fold_left
         (fun rw (_ : nat) =>
            w32 (smallSigma1 (nth 1 rw 0) + nth 6 rw 0
                 + smallSigma0 (nth 14 rw 0) + nth 15 rw 0) :: rw)
         (seq 16 48) (rev block)).

Definition round (s : Hash) (kw : Z * Z) : Hash :=
  let t1 := hh s + bigSigma1 (he s) + Ch (he s) (hf s) (hg s) + fst kw + snd kw in
  let t2 := bigSigma0 (ha s) + Maj (ha s) (hb s) (hc s) in
  mkHash (w32 (t1 + t2)) (ha s) (hb s) (hc s) (w32 (hd s + t1)) (he s) (hf s) (hg s).

Definition compress (h : Hash) (block : list Z) : Hash :=
  let s := fold_left round (combine K256 (schedule block)) h in
  mkHash (w32 (ha h + ha s)) (w32 (hb h + hb s)) (w32 (hc h + hc s))
         (w32 (hd h + hd s)) (w32 (he h + he s)) (w32 (hf h + hf s))
         (w32 (hg h + hg s)) (w32 (hh h + hh s)).

Definition hashBytes (h : Hash) : list Z :=
  be32 (ha h) ++ be32 (hb h) ++ be32 (hc h) ++ be32 (hd h)
  ++ be32 (he h) ++ be32 (hf h) ++ be32 (hg h) ++ be32 (hh h).

Definition sha256 (msg : list Z) : list Z :=
  let ws := words (pad msg) in
  hashBytes (fold_left compress (blocks (length ws) ws) H0).

Definition hmacSha256 (key msg : list Z) : list Z :=
  let k0 := if (64 <? length key)%nat then sha256 key else key in
  let k := k0 ++ repeat 0 (64 - length k0)%nat in
  sha256 (map (Z.lxor 92) k ++ sha256 (map (Z.lxor 54) k ++ msg)).

Definition hexDigit (n : Z) : ascii :=
  JSONText.chr (if n <? 10 then 48 + n else 87 + n).

(** [digest("hex")]: two lower-case digits per byte. *)
Fixpoint hex (bs : list Z) : string :=
  match bs with
  | [] => EmptyString
  | b :: r => String (hexDigit (b / 16)) (String (hexDigit (b mod 16)) (hex r))
  end.

(** [crypto.createHmac("sha256", secret).update(rawBody).digest("hex")] *)
Definition hmacSha256Hex (secret : string) (rawBody : list Z) : string :=
  hex (hmacSha256 (bufferFrom secret) rawBody).

(** The comparison of [crypto.timingSafeEqual]: every byte pair is read,
    the differences are accumulated, and the result depends on the
    accumulator alone. *)
Definition constantTimeCompare (a b : list Z) : bool :=
  fold_left (fun acc xy => Z.lor acc (Z.lxor (fst xy) (snd xy))) (combine a b) 0 =? 0.

End Crypto.

(* ===================================================================== *)
(** ** Environment, world and computations *)
(* ===================================================================== *)

(** The variables of [process.env] the backend core reads. *)
Record ProcessEnv : Type := mkProcessEnv {
  REVE_API_KEY : option string;
  LONGCAT_API_KEY : option string;
  LEMON_SQUEEZY_API_KEY : option string;
  LEMON_SQUEEZY_STORE_ID : option string;
  LEMON_SQUEEZY_VARIANT_ID : option string;
  LEMON_SQUEEZY_WEBHOOK_SECRET : option string
}.

(** [type ReveApiResponse] *)
Record ReveApiResponse : Type := mkReveApiResponse {
  image : string;
  version : string;
  content_violation : bool;
  request_id : string;
  credits_used : Z;
  credits_remaining : Z
}.

(** What [fetch] to the image provider does: it rejects (or the body is
    not JSON), or answers not-ok with [{ error_code?, message? }], or
    answers ok with a [ReveApiResponse]. *)
Inductive ReveReply : Type :=
| ReveRejected (message : string)
| ReveNotOk (message error_code : option string)
| ReveOk (data : ReveApiResponse).

(** What [fetch] to the checkout provider does; [url] is
    [json.data?.attributes?.url] of [LemonCheckoutResponse]. *)
Inductive LemonReply : Type :=
| LemonRejected (message : string)
| LemonNotOk (status : Z)
| LemonOk (url : option string).

(** What [fetch] to the prompt optimizer does; [content] is
    [json.choices?.[0]?.message?.content] of [LongCatChatResponse]. *)
Inductive LongcatReply : Type :=
| LongcatRejected
| LongcatNotOk
| LongcatOk (content : option string).

Record Env : Type := mkEnv {
  processEnv : ProcessEnv;
  (** the module-level [supabase] client is not [null] *)
  supabase : bool;
  (** whether the n-th request sent to Supabase answers with an error *)
  supabaseError : nat -> bool;
  (** what the n-th [new Date().toISOString()] returns *)
  isoTime : nat -> string;
  reveReply : ReveReply;
  lemonReply : LemonReply;
  longcatReply : LongcatReply
}.

(** [backend/data/usage.json]: absent, present without a readable
    [users] object (invalid JSON included), or a [UsageStore]. *)
Inductive UsageFile : Type :=
| FileMissing
| FileUnreadable
| FileStore (users : gmap string UsageRecord).

Inductive PostProcess : Type :=
| remove_background
| upscale (upscale_factor : Z).

Inductive ReveEndpoint : Type := create | edit.

(** One request sent to [https://api.reve.com/v1/image/<endpoint>]. *)
Record ReveCall : Type := mkReveCall {
  endpoint : ReveEndpoint;
  instruction : string;
  reference_image : option string;
  postprocessing : list PostProcess
}.

Record World : Type := mkWorld {
  usageFile : UsageFile;
  app_usage : gmap string AppUsageColumns;
  supabaseRequests : nat;
  clockReads : nat;
  reveCalls : list ReveCall
}.

Inductive JSError : Type :=
| Error (message : string)
| PostgrestError.

Inductive Completion (A : Type) : Type :=
| Return (a : A)
| Throw (e : JSError).

Arguments Return {A} a.
Arguments Throw {A} e.

(** An [async] function's body: from the world it starts in to its
    completion and the world it leaves. *)
Definition Async (A : Type) : Type := World -> Completion A * World.

Definition ret {A} (a : A) : Async A := fun w => (Return a, w).

Definition throw {A} (e : JSError) : Async A := fun w => (Throw e, w).

Definition bind {A B} (m : Async A) (k : A -> Async B) : Async B :=
  fun w =>
    match m w with
    | (Return a, w') => k a w'
    | (Throw e, w') => (Throw e, w')
    end.

(** [try { m } catch (error) { handler(error) }] *)
Definition tryCatch {A} (m : Async A) (handler : JSError -> Async A) : Async A :=
  fun w =>
    match m w with
    | (Return a, w') => (Return a, w')
    | (Throw e, w') => handler e w'
    end.

Definition lift {A} (c : Completion A) : Async A := fun w => (c, w).

Notation "x <- m ;; k" := (bind m (fun x => k))
  (at level 100, m at next level, right associativity).
Notation "m ;;; k" := (bind m (fun _ => k))
  (at level 100, right associativity).

Definition setUsageFile (f : UsageFile) (w : World) : World :=
  mkWorld f (app_usage w) (supabaseRequests w) (clockReads w) (reveCalls w).

(** [new Date().toISOString()] *)
Definition isoNow (env : Env) : Async string :=
  fun w =>
    (Return (isoTime env (clockReads w)),
     mkWorld (usageFile w) (app_usage w) (supabaseRequests w)
             (S (clockReads w)) (reveCalls w)).

(** One awaited Supabase query: [None] is [{ error }], [Some a] is
    [{ data: a }].  A query the table itself refuses ([q] gives [None])
    answers with an error too. *)
Definition supabaseQuery {A} (env : Env)
    (q : gmap string AppUsageColumns -> option (A * gmap string AppUsageColumns)) :
    Async (option A) :=
  fun w =>
    let n := supabaseRequests w in
    let sent t := mkWorld (usageFile w) t (S n) (clockReads w) (reveCalls w) in
    if supabaseError env n then (Return None, sent (app_usage w))
    else match q (app_usage w) with
         | Some (a, t') => (Return (Some a), sent t')
         | None => (Return None, sent (app_usage w))
         end.

Definition logReveCall (c : ReveCall) : Async unit :=
  fun w =>
    (Return tt,
     mkWorld (usageFile w) (app_usage w) (supabaseRequests w) (clockReads w)
             (reveCalls w ++ [c])).

(* ===================================================================== *)
(** ** Configuration getters *)
(* ===================================================================== *)

(** [if (!value || value.trim() === "") return null; return value;] *)
Definition nonBlank (value : option string) : option string :=
  match value with
  | Some s =>
      if negb (JSString.truthy s) || String.eqb (JSString.trim s) "" then None
      else Some s
  | None => None
  end.

Definition getReveKey (p : ProcessEnv) : Completion string :=
  match nonBlank (REVE_API_KEY p) with
  | Some k => Return k
  | None => Throw (Error "Missing REVE_API_KEY in .env")
  end.

Definition getLongcatKey (p : ProcessEnv) : option string := nonBlank (LONGCAT_API_KEY p).
Definition getLemonApiKey (p : ProcessEnv) : option string := nonBlank (LEMON_SQUEEZY_API_KEY p).
Definition getLemonStoreId (p : ProcessEnv) : option string := nonBlank (LEMON_SQUEEZY_STORE_ID p).
Definition getLemonVariantId (p : ProcessEnv) : option string := nonBlank (LEMON_SQUEEZY_VARIANT_ID p).
Definition getLemonWebhookSecret (p : ProcessEnv) : option string :=
  nonBlank (LEMON_SQUEEZY_WEBHOOK_SECRET p).

(* ===================================================================== *)
(** ** The usage store: local file and Supabase table *)
(* ===================================================================== *)

Definition ensureUsageStore : Async (gmap string UsageRecord) :=
  fun w =>
    match usageFile w with
    | FileMissing => (Return ∅, setUsageFile (FileStore ∅) w)
    | FileUnreadable => (Return ∅, w)
    | FileStore users => (Return users, w)
    end.

Definition saveUsageStore (store : gmap string UsageRecord) : Async unit :=
  fun w => (Return tt, setUsageFile (FileStore store) w).

Definition defaultUsageRecord (userId now : string) : UsageRecord :=
  {| userId := userId;
     generatedCount := 0;
     billingStatus := free;
     lemonCustomerId := None;
     lemonSubscriptionId := None;
     updatedAt := now |}.

(** The lookup is among the keys of the file; what [store.users[userId]]
    finds besides them is in [Lookup], below. *)
Definition getOrCreateLocalUsageRecord (env : Env) (userId : string) : Async UsageRecord :=
  store <- ensureUsageStore ;;
  match store !! userId with
  | Some existing => ret existing
  | None =>
      now <- isoNow env ;;
      let created := defaultUsageRecord userId now in
      saveUsageStore (<[userId := created]> store) ;;;
      ret created
  end.

(** [next.updatedAt = now] *)
Definition stampUpdatedAt (now : string) (next : UsageRecord) : UsageRecord :=
  {| userId := userId next;
     generatedCount := generatedCount next;
     billingStatus := billingStatus next;
     lemonCustomerId := lemonCustomerId next;
     lemonSubscriptionId := lemonSubscriptionId next;
     updatedAt := now |}.

(** The same lookup, among the keys of the file.  Under a name that
    [users] inherits, the source takes the inherited value for the current
    record and what it writes is no [UsageRecord]; under ["__proto__"] the
    assignment sets the prototype and nothing is persisted. *)
Definition updateLocalUsageRecord (env : Env) (userId : string)
    (updater : UsageRecord -> UsageRecord) : Async UsageRecord :=
  store <- ensureUsageStore ;;
  current <- match store !! userId with
             | Some existing => ret existing
             | None => now <- isoNow env ;; ret (defaultUsageRecord userId now)
             end ;;
  let next := updater current in
  now <- isoNow env ;;
  let next := stampUpdatedAt now next in
  saveUsageStore (<[userId := next]> store) ;;;
  ret next.

(** The row [insert] sends: the two provider ids take the column default. *)
Definition newDbUsageRow (userId now : string) : DbUsageRow :=
  {| user_id := userId;
     generated_count := 0;
     billing_status := free;
     lemon_customer_id := None;
     lemon_subscription_id := None;
     updated_at := now |}.

(** The row [upsert] sends for [next]. *)
Definition dbUsageRowOf (userId : string) (next : UsageRecord) : DbUsageRow :=
  {| user_id := userId;
     generated_count := generatedCount next;
     billing_status := billingStatus next;
     lemon_customer_id := lemonCustomerId next;
     lemon_subscription_id := lemonSubscriptionId next;
     updated_at := updatedAt next |}.

(** [.select(...).eq("user_id", userId).maybeSingle()] *)
Definition selectUsageRow (userId : string) (t : gmap string AppUsageColumns) :
    option (option DbUsageRow * gmap string AppUsageColumns) :=
  Some (rowOf userId <$> t !! userId, t).

(** [.insert(row).select(...).single()]: the primary key refuses a second
    row of the same user. *)
Definition insertUsageRow (row : DbUsageRow) (t : gmap string AppUsageColumns) :
    option (DbUsageRow * gmap string AppUsageColumns) :=
  match t !! user_id row with
  | Some _ => None
  | None => Some (row, <[user_id row := columnsOf row]> t)
  end.

(** [.upsert(row, { onConflict: "user_id" }).select(...).single()] *)
Definition upsertUsageRow (row : DbUsageRow) (t : gmap string AppUsageColumns) :
    option (DbUsageRow * gmap string AppUsageColumns) :=
  Some (row, <[user_id row := columnsOf row]> t).

Definition getOrCreateSupabaseUsageRecord (env : Env) (userId : string) :
    Async (option UsageRecord) :=
  if negb (supabase env) then ret None
  else
    fetched <- supabaseQuery env (selectUsageRow userId) ;;
    match fetched with
    | None => throw PostgrestError
    | Some (Some existing) => ret (Some (mapDbUsageRowToUsageRecord existing))
    | Some None =>
        now <- isoNow env ;;
        inserted <- supabaseQuery env (insertUsageRow (newDbUsageRow userId now)) ;;
        match inserted with
        | None => throw PostgrestError
        | Some row => ret (Some (mapDbUsageRowToUsageRecord row))
        end
    end.

Definition getUsageRecord (env : Env) (userId : string) : Async UsageRecord :=
  if negb (supabase env) then getOrCreateLocalUsageRecord env userId
  else
    remote <- tryCatch (getOrCreateSupabaseUsageRecord env userId)
                       (fun _ => ret None) ;;
    match remote with
    | Some record => ret record
    | None => getOrCreateLocalUsageRecord env userId
    end.

Definition updateUsageRecord (env : Env) (userId : string)
    (updater : UsageRecord -> UsageRecord) : Async UsageRecord :=
  if negb (supabase env) then updateLocalUsageRecord env userId updater
  else
    tryCatch
      (current <- getUsageRecord env userId ;;
       let next := updater current in
       now <- isoNow env ;;
       let next := stampUpdatedAt now next in
       updated <- supabaseQuery env (upsertUsageRow (dbUsageRowOf userId next)) ;;
       match updated with
       | None => throw PostgrestError
       | Some row => ret (mapDbUsageRowToUsageRecord row)
       end)
      (fun _ => updateLocalUsageRecord env userId updater).

Definition getUsageView (env : Env) (userId : string) : Async UsageView :=
  record <- getUsageRecord env userId ;;
  ret (buildUsageView record).

(** [(record) => ({ ...record, generatedCount: record.generatedCount + 1 })] *)
Definition incrementGenerated (record : UsageRecord) : UsageRecord :=
  {| userId := userId record;
     generatedCount := generatedCount record + 1;
     billingStatus := billingStatus record;
     lemonCustomerId := lemonCustomerId record;
     lemonSubscriptionId := lemonSubscriptionId record;
     updatedAt := updatedAt record |}.

(** [(record) => ({ ...record, billingStatus })] *)
Definition withBillingStatus (status : BillingStatus) (record : UsageRecord) : UsageRecord :=
  {| userId := userId record;
     generatedCount := generatedCount record;
     billingStatus := status;
     lemonCustomerId := lemonCustomerId record;
     lemonSubscriptionId := lemonSubscriptionId record;
     updatedAt := updatedAt record |}.

Definition markGenerationUsage (env : Env) (userId : string) : Async UsageRecord :=
  updateUsageRecord env userId incrementGenerated.

Definition setBillingStatus (env : Env) (userId : string) (status : BillingStatus) :
    Async UsageRecord :=
  updateUsageRecord env userId (withBillingStatus status).

(** *** What [store.users[userId]] finds

    [users] is an ordinary object, so a lookup finds the keys of the file
    and, under any other name, what every object inherits from
    [Object.prototype].  The functions above look among the keys of the
    file; the ones below are the reads of the store with the lookup that
    JavaScript performs. *)

Module Lookup.

(** The properties of [Object.prototype] (ECMA-262, 20.1.3 and B.2.2). *)
Definition objectPrototypeKeys : list string :=
  [ "constructor"; "hasOwnProperty"; "isPrototypeOf"; "propertyIsEnumerable";
    "toLocaleString"; "toString"; "valueOf"; "__proto__";
    "__defineGetter__"; "__defineSetter__"; "__lookupGetter__"; "__lookupSetter__" ].

Definition namesInherited (key : string) : bool :=
  existsb (String.eqb key) objectPrototypeKeys.

(** What a lookup evaluates to when it is not [undefined]: a record of
    the file, or the value inherited under that name, a function or, for
    ["__proto__"], the prototype itself.  An inherited value is truthy and
    has none of the fields of a [UsageRecord]. *)
Inductive Found : Type :=
| IsRecord (record : UsageRecord)
| IsInherited (key : string).

(** [store.users[userId]] *)
Definition usersAt (store : gmap string UsageRecord) (userId : string) : option Found :=
  match store !! userId with
  | Some record => Some (IsRecord record)
  | None => if namesInherited userId then Some (IsInherited userId) else None
  end.

Definition getOrCreateLocalUsageRecord (env : Env) (userId : string) : Async Found :=
  store <- ensureUsageStore ;;
  match usersAt store userId with
  | Some existing => ret existing
  | None =>
      now <- isoNow env ;;
      let created := defaultUsageRecord userId now in
      saveUsageStore (<[userId := created]> store) ;;;
      ret (IsRecord created)
  end.

Definition getUsageRecord (env : Env) (userId : string) : Async Found :=
  if negb (supabase env) then getOrCreateLocalUsageRecord env userId
  else
    remote <- tryCatch (getOrCreateSupabaseUsageRecord env userId)
                       (fun _ => ret None) ;;
    match remote with
    | Some record => ret (IsRecord record)
    | None => getOrCreateLocalUsageRecord env userId
    end.

End Lookup.

(* ===================================================================== *)
(** ** Billing webhook: payload access and signature *)
(* ===================================================================== *)

(** [value != null && typeof value === "object"] *)
Definition isObject (value : JSON) : bool :=
  match value with
  | JObj _ | JArr _ => true
  | _ => false
  end.

Fixpoint readNestedString (current : JSON) (pathParts : list string) : option string :=
  match pathParts with
  | [] => match current with JStr s => Some s | _ => None end
  | part :: rest =>
      if negb (isObject current) || negb (JS.has current part) then None
      else match JS.get current part with
           | Some next => readNestedString next rest
           | None => None
           end
  end.

(** [if (value)] on a [string | null]. *)
Definition present (value : option string) : bool :=
  match value with
  | Some s => JSString.truthy s
  | None => false
  end.

Definition extractLemonUserId (payload : JSON) : option string :=
  let fromMetaCustom := readNestedString payload ["meta"; "custom_data"; "user_id"] in
  if present fromMetaCustom then fromMetaCustom
  else
    let fromDataCustom :=
      readNestedString payload ["data"; "attributes"; "custom_data"; "user_id"] in
    if present fromDataCustom then fromDataCustom
    else readNestedString payload ["data"; "attributes"; "user_id"].

(** [crypto.timingSafeEqual(a, b)]: a [RangeError] on buffers of different
    lengths. *)
Definition timingSafeEqual (a b : list Z) : Completion bool :=
  if negb (length a =? length b)%nat
  then Throw (Error "Input buffers must have the same byte length")
  else Return (Crypto.constantTimeCompare a b).

Definition verifyLemonSignature (p : ProcessEnv) (rawBody : list Z)
    (signatureHeader : option string) : Completion bool :=
  match getLemonWebhookSecret p with
  | None => Return true
  | Some secret =>
      match signatureHeader with
      | None => Return false
      | Some header =>
          if negb (JSString.truthy header) then Return false
          else
            let computed := Crypto.hmacSha256Hex secret rawBody in
            let a := Crypto.bufferFrom computed in
            let b := Crypto.bufferFrom header in
            if negb (length a =? length b)%nat then Return false
            else timingSafeEqual a b
      end
  end.

(* ===================================================================== *)
(** ** Collaborators: checkout, prompt optimization, image generation *)
(* ===================================================================== *)

(** [type LemonCheckoutResult] *)
Inductive LemonCheckoutResult : Type :=
| CheckoutOk (checkoutUrl : string)
| CheckoutFailed (message : string) (status : option Z).

Definition createLemonCheckoutUrl (env : Env) (userId : string) (email : option string) :
    Async LemonCheckoutResult :=
  match getLemonApiKey (processEnv env), getLemonStoreId (processEnv env),
        getLemonVariantId (processEnv env) with
  | Some _, Some _, Some _ =>
      match lemonReply env with
      | LemonRejected message => throw (Error message)
      | LemonNotOk status =>
          ret (CheckoutFailed
                 "Lemon checkout creation failed. Verify API key permissions and that store/variant IDs are correct."
                 (Some status))
      | LemonOk url =>
          match url with
          | Some (String c u) => ret (CheckoutOk (String c u))
          | _ =>
              ret (CheckoutFailed
                     "Lemon checkout URL was empty. Check your product variant configuration."
                     None)
          end
      end
  | _, _, _ =>
      ret (CheckoutFailed
             "Missing Lemon configuration. Set LEMON_SQUEEZY_API_KEY, LEMON_SQUEEZY_STORE_ID, and LEMON_SQUEEZY_VARIANT_ID."
             None)
  end.

(** [value || fallback] on a [string | undefined]. *)
Definition orElse (value : option string) (fallback : string) : string :=
  match value with
  | Some (String c s) => String c s
  | _ => fallback
  end.

Definition clampPrompt (value : string) : string :=
  JSString.slice0 2560 (JSString.trim value).

Inductive PromptSource : Type := original | longcat.

(** What [optimizePromptWithLongcat] returns: [{ prompt, optimized, source }]. *)
Record PromptResult : Type := mkPromptResult {
  result_prompt : string;
  result_optimized : bool;
  result_source : PromptSource
}.

Inductive Workflow : Type := workflow_create | workflow_enhance.

Inductive Operation : Type := op_upscale | op_remove_background.

(** Every failure inside the [try] ends in the original prompt. *)
Definition optimizePromptWithLongcat (env : Env) (prompt : string)
    (workflow : Workflow) (operation : option Operation) : Async PromptResult :=
  let longcatKey := getLongcatKey (processEnv env) in
  let originalPrompt := clampPrompt prompt in
  let unchanged := mkPromptResult originalPrompt false original in
  match longcatKey with
  | None => ret unchanged
  | Some _ =>
      if negb (JSString.truthy originalPrompt) then ret unchanged
      else
        match longcatReply env with
        | LongcatRejected => ret unchanged
        | LongcatNotOk => ret unchanged
        | LongcatOk content =>
            let optimized := clampPrompt (orElse content originalPrompt) in
            ret (mkPromptResult
                   (if JSString.truthy optimized then optimized else originalPrompt)
                   (JSString.truthy optimized && negb (String.eqb optimized originalPrompt))
                   longcat)
        end
  end.

Definition callReve (env : Env) (call : ReveCall) : Async ReveApiResponse :=
  _ <- lift (getReveKey (processEnv env)) ;;
  logReveCall call ;;;
  match reveReply env with
  | ReveRejected message => throw (Error message)
  | ReveNotOk message error_code =>
      let message := orElse message "Reve API call failed" in
      let code := match error_code with
                  | Some (String c s) =>
                      String.append " (" (String.append (String c s) ")")
                  | _ => ""
                  end in
      throw (Error (String.append message code))
  | ReveOk data => ret data
  end.

Definition normalizeBase64 (base64OrDataUrl : string) : string :=
  let value := JSString.trim base64OrDataUrl in
  match JSString.afterFirst ","%char value with
  | Some rest => if JSString.startsWith "data:" value then rest else value
  | None => value
  end.

(** *** [Number(value)]

    [Number] first converts its argument to a primitive, which throws a
    [TypeError] on an object whose [toString] is no function: every
    [toString] property that a JSON text gives an object.  The primitive
    is then read as a numeral.  The real value [m * 10^e] of the numeral is
    kept exactly, and [roundsTo] tells whether the double nearest to it,
    which is what [Number] returns, is 3 or 4. *)

(** [ToPrimitive(value)] returns.  An object with no [toString] of its own
    is printed by [Object.prototype.toString]; an array is printed by
    [join], which prints each of its elements, [null] apart. *)
Fixpoint toPrimitiveReturns (value : JSON) : bool :=
  match value with
  | JObj members =>
      match JS.member "toString" members with Some _ => false | None => true end
  | JArr items => forallb toPrimitiveReturns items
  | _ => true
  end.

(** The double nearest to [m * 10^e] is [n], for [n] 3 or 4 (ties to even,
    as Node reads a numeral).  The doubles next to 3 are [2^-51] away, so
    what lies within [2^-52] of 3 rounds to 3; those next to 4 are [2^-51]
    below and [2^-50] above.  Both 3 and 4 have an even mantissa and win
    their ties.  The bounds are counted in units of [2^-52]. *)
Definition roundsTo (n m e : Z) : bool :=
  let low := n * 2 ^ 52 - 1 in
  let high := n * 2 ^ 52 + (if n =? 4 then 2 else 1) in
  if 0 <=? e
  then (low <=? m * 10 ^ e * 2 ^ 52) && (m * 10 ^ e * 2 ^ 52 <=? high)
  else (low * 10 ^ (- e) <=? m * 2 ^ 52) && (m * 2 ^ 52 <=? high * 10 ^ (- e)).

Fixpoint radixDigits (radix : Z) (s : string) (acc : Z) : option Z :=
  match s with
  | EmptyString => Some acc
  | String c s' =>
      match JSONText.hexVal c with
      | Some d => if d <? radix then radixDigits radix s' (acc * radix + d) else None
      | None => None
      end
  end.

(** The value [(m, e)], read [m * 10^e], of a [StrDecimalLiteral] without
    its sign; [None] where the text is no such literal, or is [Infinity]. *)
Definition unsignedDecimal (s : string) : option (Z * Z) :=
  let '(ip, ni, s1) := JSONText.digits s 0 0 in
  let '(m, nf, s2) :=
    match s1 with
    | String c r =>
        if JSONText.code c =? 46
        then let '(a, k, r') := JSONText.digits r ip 0 in (a, k, r')
        else (ip, 0, s1)
    | EmptyString => (ip, 0, s1)
    end in
  if (ni + nf =? 0) then None
  else match JSONText.parseExponent s2 with
       | Some (e, EmptyString) => Some (m, e - nf)
       | _ => None
       end.

(** [StringToNumber(s)]: white space around the numeral is dropped, the
    empty text is 0, a sign goes with a decimal literal only, [0x], [0o]
    and [0b] start an integer in that radix.  [None] is [NaN] or an
    infinity. *)
Definition stringToNumber (s : string) : option (Z * Z) :=
  match JSString.trim s with
  | EmptyString => Some (0, 0)
  | String c r as t =>
      let k := JSONText.code c in
      if k =? 43 then unsignedDecimal r
      else if k =? 45
      then match unsignedDecimal r with
           | Some (m, e) => Some (- m, e)
           | None => None
           end
      else
        match t with
        | String _ (String x (String d ds)) =>
            let radix :=
              if negb (k =? 48) then 0
              else let y := JSONText.code x in
                   if (y =? 120) || (y =? 88) then 16
                   else if (y =? 111) || (y =? 79) then 8
                   else if (y =? 98) || (y =? 66) then 2
                   else 0 in
            if radix =? 0 then unsignedDecimal t
            else match radixDigits radix (String d ds) 0 with
                 | Some v => Some (v, 0)
                 | None => None
                 end
        | _ => unsignedDecimal t
        end
  end.

(** The real value that [Number(value)] rounds, for a [value] that
    [ToPrimitive] accepts; [None] is [NaN] or an infinity.  An array is
    printed first: no element gives the empty text, one element gives its
    own text ([null] the empty one, a number the numeral that reads back
    as the same double), and two or more give a text with a comma, which
    is no numeral. *)
Fixpoint toNumber (value : JSON) : option (Z * Z) :=
  match value with
  | JNull => Some (0, 0)
  | JBool b => Some (if b then 1 else 0, 0)
  | JNum m e => Some (m, e)
  | JStr s => stringToNumber s
  | JArr [] => Some (0, 0)
  | JArr [x] =>
      match x with
      | JNull => Some (0, 0)
      | JBool _ => None
      | _ => toNumber x
      end
  | JArr (_ :: _ :: _) => None
  | JObj _ => None
  end.

(** [Number(value) === n], for [n] 3 or 4. *)
Definition numberIs (n : Z) (value : JSON) : bool :=
  match toNumber value with
  | Some (m, e) => roundsTo n m e
  | None => false
  end.

(** [value] is [undefined] when the property is absent, and
    [Number(undefined)] is [NaN]. *)
Definition sanitizeUpscaleFactor (value : option JSON) : Completion Z :=
  match value with
  | Some v =>
      if negb (toPrimitiveReturns v)
      then Throw (Error "Cannot convert object to primitive value")
      else if numberIs 3 v then Return 3
      else if numberIs 4 v then Return 4
      else Return 2
  | None => Return 2
  end.

(** What [toClientResponse] returns. *)
Record ClientResponse : Type := mkClientResponse {
  imageDataUrl : string;
  client_version : string;
  requestId : string;
  creditsUsed : Z;
  creditsRemaining : Z;
  contentViolation : bool
}.

Definition toClientResponse (data : ReveApiResponse) : ClientResponse :=
  {| imageDataUrl := String.append "data:image/png;base64," (image data);
     client_version := version data;
     requestId := request_id data;
     creditsUsed := credits_used data;
     creditsRemaining := credits_remaining data;
     contentViolation := content_violation data |}.

(* ===================================================================== *)
(** ** HTTP handlers *)
(* ===================================================================== *)

Inductive ResponseBody : Type :=
| MessageBody (message : string)
| UsageBody (usage : UsageView)
| CheckoutBody (checkoutUrl : string)
| BillingNotReadyBody (message code : string) (lemonStatus : option Z)
| WebhookBody (ignored : bool)
| UpgradeBody (message code : string) (checkoutUrl billingMessage : option string)
              (usage : UsageView)
| GeneratedBody (result : ClientResponse) (originalPrompt optimizedPrompt : string)
                (promptOptimized : bool) (promptOptimizationSource : PromptSource)
                (usage : UsageView).

Record Response : Type := mkResponse {
  status : Z;
  body : ResponseBody
}.

(** [error instanceof Error ? error.message : fallback] *)
Definition errorMessage (error : JSError) (fallback : string) : string :=
  match error with
  | Error message => message
  | PostgrestError => fallback
  end.

Definition getClientUserId (payload : JSON) : option string :=
  if negb (isObject payload) then None
  else
    match JS.get payload "clientUserId" with
    | Some (JStr maybeUserId) =>
        let userId := JSString.trim maybeUserId in
        if JSString.truthy userId then Some userId else None
    | _ => None
    end.

(** [GET /api/billing/status]; [userIdParam] is [req.query.userId] when it
    is a string. *)
Definition billingStatusHandler (env : Env) (userIdParam : option string) : Async Response :=
  tryCatch
    (let userId := match userIdParam with
                   | Some s => JSString.trim s
                   | None => ""
                   end in
     if negb (JSString.truthy userId)
     then ret (mkResponse 400 (MessageBody "userId is required."))
     else
       usage <- getUsageView env userId ;;
       ret (mkResponse 200 (UsageBody usage)))
    (fun error =>
       ret (mkResponse 500 (MessageBody (errorMessage error "Unable to load billing usage.")))).

(** [POST /api/billing/create-checkout] *)
Definition createCheckoutHandler (env : Env) (reqBody : JSON) : Async Response :=
  tryCatch
    (match getClientUserId reqBody with
     | None => ret (mkResponse 400 (MessageBody "clientUserId is required."))
     | Some userId =>
         let email :=
           match JS.get reqBody "email" with
           | Some (JStr e) =>
               if JSString.truthy (JSString.trim e) then Some (JSString.trim e) else None
           | _ => None
           end in
         checkoutResult <- createLemonCheckoutUrl env userId email ;;
         match checkoutResult with
         | CheckoutFailed message lemonStatus =>
             ret (mkResponse 503 (BillingNotReadyBody message "billing_not_ready" lemonStatus))
         | CheckoutOk checkoutUrl => ret (mkResponse 200 (CheckoutBody checkoutUrl))
         end
     end)
    (fun error =>
       ret (mkResponse 500
              (MessageBody (errorMessage error "Unable to create checkout session.")))).

Record WebhookRequest : Type := mkWebhookRequest {
  (** [req.body] when it is a [Buffer] *)
  rawBody : option (list Z);
  (** [req.header("X-Signature")] *)
  xSignature : option string
}.

Definition activationEvents : list string :=
  [ "order_created"; "subscription_created"; "subscription_resumed";
    "subscription_unpaused"; "subscription_payment_success" ].

Definition deactivationEvents : list string :=
  [ "subscription_cancelled"; "subscription_expired"; "subscription_paused";
    "subscription_payment_failed" ].

(** [set.has(name)] *)
Definition setHas (set : list string) (name : string) : bool :=
  existsb (String.eqb name) set.

(** [POST /api/billing/lemon/webhook] *)
Definition lemonWebhookHandler (env : Env) (req : WebhookRequest) : Async Response :=
  match rawBody req with
  | None => ret (mkResponse 400 (MessageBody "Invalid webhook body."))
  | Some rawBody =>
      let signature := if present (xSignature req) then xSignature req else None in
      verified <- lift (verifyLemonSignature (processEnv env) rawBody signature) ;;
      if negb verified
      then ret (mkResponse 401 (MessageBody "Invalid webhook signature."))
      else
        match JSONText.parse (Crypto.bufferToString rawBody) with
        | None => ret (mkResponse 400 (MessageBody "Webhook payload is not valid JSON."))
        | Some payload =>
            if negb (isObject payload)
            then ret (mkResponse 400 (MessageBody "Webhook payload format is invalid."))
            else
              let eventName := readNestedString payload ["meta"; "event_name"] in
              let userId := extractLemonUserId payload in
              match eventName, userId with
              | Some eventName, Some userId =>
                  if negb (JSString.truthy eventName) || negb (JSString.truthy userId)
                  then ret (mkResponse 200 (WebhookBody true))
                  else
                    (if setHas activationEvents eventName
                     then _ <- setBillingStatus env userId active ;; ret tt
                     else ret tt) ;;;
                    (if setHas deactivationEvents eventName
                     then _ <- setBillingStatus env userId free ;; ret tt
                     else ret tt) ;;;
                    ret (mkResponse 200 (WebhookBody false))
              | _, _ => ret (mkResponse 200 (WebhookBody true))
              end
        end
  end.

Definition upgradeRequired (checkoutResult : LemonCheckoutResult) (usage : UsageView) :
    Response :=
  mkResponse 402
    (UpgradeBody
       "Free plan limit reached (1 image). Upgrade to continue generating."
       "upgrade_required"
       (match checkoutResult with CheckoutOk url => Some url | CheckoutFailed _ _ => None end)
       (match checkoutResult with CheckoutOk _ => None | CheckoutFailed m _ => Some m end)
       usage).

(** [POST /api/reve/create-remove-bg] *)
Definition createRemoveBgHandler (env : Env) (reqBody : JSON) : Async Response :=
  tryCatch
    (match getClientUserId reqBody with
     | None => ret (mkResponse 400 (MessageBody "clientUserId is required."))
     | Some userId =>
         usage <- getUsageView env userId ;;
         if negb (canGenerate usage) then
           checkoutResult <- createLemonCheckoutUrl env userId None ;;
           ret (upgradeRequired checkoutResult usage)
         else
           let prompt := match JS.get reqBody "prompt" with
                         | Some (JStr p) => JSString.trim p
                         | _ => ""
                         end in
           if negb (JSString.truthy prompt)
           then ret (mkResponse 400 (MessageBody "Prompt is required."))
           else
             let postprocessing := [remove_background] in
             promptResult <- optimizePromptWithLongcat env prompt workflow_create
                               (Some op_remove_background) ;;
             data <- callReve env (mkReveCall create (result_prompt promptResult) None postprocessing) ;;
             _ <- markGenerationUsage env userId ;;
             usageAfter <- getUsageView env userId ;;
             ret (mkResponse 200
                    (GeneratedBody (toClientResponse data) prompt (result_prompt promptResult)
                       (result_optimized promptResult) (result_source promptResult) usageAfter))
     end)
    (fun error =>
       ret (mkResponse 500
              (MessageBody (errorMessage error "Unexpected error while creating image.")))).

(** [POST /api/reve/enhance] *)
Definition enhanceHandler (env : Env) (reqBody : JSON) : Async Response :=
  tryCatch
    (match getClientUserId reqBody with
     | None => ret (mkResponse 400 (MessageBody "clientUserId is required."))
     | Some userId =>
         usage <- getUsageView env userId ;;
         if negb (canGenerate usage) then
           checkoutResult <- createLemonCheckoutUrl env userId None ;;
           ret (upgradeRequired checkoutResult usage)
         else
           let referenceImageRaw := match JS.get reqBody "referenceImageBase64" with
                                    | Some (JStr r) => r
                                    | _ => ""
                                    end in
           if negb (JSString.truthy (JSString.trim referenceImageRaw))
           then ret (mkResponse 400 (MessageBody "referenceImageBase64 is required."))
           else
             let operation := match JS.get reqBody "operation" with
                              | Some (JStr o) =>
                                  if String.eqb o "remove_background"
                                  then op_remove_background else op_upscale
                              | _ => op_upscale
                              end in
             upscaleFactor <- lift (sanitizeUpscaleFactor (JS.get reqBody "upscaleFactor")) ;;
             let postprocessing := match operation with
                                   | op_remove_background => [remove_background]
                                   | op_upscale => [upscale upscaleFactor]
                                   end in
             let prompt :=
               match JS.get reqBody "prompt" with
               | Some (JStr p) =>
                   if JSString.truthy (JSString.trim p) then JSString.trim p
                   else "Enhance this image quality while preserving natural details."
               | _ => "Enhance this image quality while preserving natural details."
               end in
             promptResult <- optimizePromptWithLongcat env prompt workflow_enhance
                               (Some operation) ;;
             data <- callReve env (mkReveCall edit (result_prompt promptResult)
                                     (Some (normalizeBase64 referenceImageRaw))
                                     postprocessing) ;;
             _ <- markGenerationUsage env userId ;;
             usageAfter <- getUsageView env userId ;;
             ret (mkResponse 200
                    (GeneratedBody (toClientResponse data) prompt (result_prompt promptResult)
                       (result_optimized promptResult) (result_source promptResult)
                       usageAfter))
     end)
    (fun error =>
       ret (mkResponse 500
              (MessageBody (errorMessage error "Unexpected error while enhancing image.")))).

(* ===================================================================== *)
(** ** Observations of a world, used to state the properties *)
(* ===================================================================== *)

(** The records the usage file holds. *)
Definition localUsers (w : World) : gmap string UsageRecord :=
  match usageFile w with
  | FileStore users => users
  | FileMissing | FileUnreadable => ∅
  end.

(** The record the remote table holds for a user, as the backend reads it. *)
Definition remoteRecord (w : World) (u : string) : option UsageRecord :=
  (fun c => mapDbUsageRowToUsageRecord (rowOf u c)) <$> app_usage w !! u.

(** A user's stored [generatedCount] in each backend; a user with no
    record has generated nothing. *)
Definition localCount (w : World) (u : string) : Z :=
  match localUsers w !! u with
  | Some r => generatedCount r
  | None => 0
  end.

Definition remoteCount (w : World) (u : string) : Z :=
  match app_usage w !! u with
  | Some c => col_generated_count c
  | None => 0
  end.

(** Three ways the store can behave over a period: no Supabase client;
    a client whose every request succeeds; a client whose every request
    fails. *)
Inductive Backend : Type := LocalOnly | RemoteHealthy | RemoteFailing.

Definition backendMode (env : Env) (b : Backend) : Prop :=
  match b with
  | LocalOnly => supabase env = false
  | RemoteHealthy => supabase env = true /\ forall n, supabaseError env n = false
  | RemoteFailing => supabase env = true /\ forall n, supabaseError env n = true
  end.

(** The record of a user in the backend that serves the period. *)
Definition storedRecord (b : Backend) (w : World) (u : string) : option UsageRecord :=
  match b with
  | RemoteHealthy => remoteRecord w u
  | LocalOnly | RemoteFailing => localUsers w !! u
  end.

(** The record a read or an update starts from: the stored one, or the
    default record stamped with the clock read that creates it. *)
Definition currentOrDefault (env : Env) (b : Backend) (w : World) (u : string) :
    UsageRecord :=
  match storedRecord b w u with
  | Some r => r
  | None => defaultUsageRecord u (isoTime env (clockReads w))
  end.

Definition storedCount (b : Backend) (w : World) (u : string) : Z :=
  match storedRecord b w u with
  | Some r => generatedCount r
  | None => 0
  end.

(** The record an update returns for the [next] it wrote: the remote
    backend returns the row as written, keyed by the user id asked for. *)
Definition returned (b : Backend) (u : string) (next : UsageRecord) : UsageRecord :=
  match b with
  | RemoteHealthy => mapDbUsageRowToUsageRecord (dbUsageRowOf u next)
  | LocalOnly | RemoteFailing => next
  end.

(** Nothing was sent to the image provider and no stored [generatedCount]
    moved, in either backend. *)
Definition quiet (w w' : World) : Prop :=
  reveCalls w' = reveCalls w
  /\ (forall u, localCount w' u = localCount w u)
  /\ (forall u, remoteCount w' u = remoteCount w u).


(** The two generation endpoints. *)
Inductive Route : Type := CreateRemoveBg | Enhance.

Definition generationHandler (route : Route) : Env -> JSON -> Async Response :=
  match route with
  | CreateRemoveBg => createRemoveBgHandler
  | Enhance => enhanceHandler
  end.

(** The field a route validates after admission is present: [prompt] for
    create, [referenceImageBase64] for enhance. *)
Definition requiredFieldPresent (route : Route) (reqBody : JSON) : bool :=
  match route with
  | CreateRemoveBg =>
      match JS.get reqBody "prompt" with
      | Some (JStr p) => JSString.truthy (JSString.trim p)
      | _ => false
      end
  | Enhance =>
      match JS.get reqBody "referenceImageBase64" with
      | Some (JStr r) => JSString.truthy (JSString.trim r)
      | _ => false
      end
  end.

(** The [upscaleFactor] of an enhance request converts to a number:
    [sanitizeUpscaleFactor] returns.  The create route reads no factor. *)
Definition factorConverts (route : Route) (reqBody : JSON) : bool :=
  match route with
  | CreateRemoveBg => true
  | Enhance =>
      match sanitizeUpscaleFactor (JS.get reqBody "upscaleFactor") with
      | Return _ => true
      | Throw _ => false
      end
  end.

(** What the catch-all of a generation route answers when the thrown
    value is no [Error]. *)
Definition unexpectedMessage (route : Route) : string :=
  match route with
  | CreateRemoveBg => "Unexpected error while creating image."
  | Enhance => "Unexpected error while enhancing image."
  end.

(** [callReve] throws: the key is missing, or [fetch] rejects, or the
    provider answers not-ok. *)
Definition providerFails (env : Env) : Prop :=
  match getReveKey (processEnv env), reveReply env with
  | Return _, ReveOk _ => False
  | _, _ => True
  end.

(** [callReve] returns [data]. *)
Definition providerReturns (env : Env) (data : ReveApiResponse) : Prop :=
  (exists key, getReveKey (processEnv env) = Return key) /\ reveReply env = ReveOk data.

(** The status a recognized billing event sets. *)
Definition eventTarget (eventName : string) : option BillingStatus :=
  if setHas deactivationEvents eventName then Some free
  else if setHas activationEvents eventName then Some active
  else None.

(** Following the claim's words: the first of the three locations that
    holds a string, whatever the string. *)
Definition firstHeldString (payload : JSON) : option string :=
  match readNestedString payload ["meta"; "custom_data"; "user_id"] with
  | Some s => Some s
  | None =>
      match readNestedString payload ["data"; "attributes"; "custom_data"; "user_id"] with
      | Some s => Some s
      | None => readNestedString payload ["data"; "attributes"; "user_id"]
      end
  end.

(** Following the claim's words: the value a nested location of a payload
    holds.  The location [path] of [v] holds [r] when the keys of [path],
    followed from [v] through objects (a repeated key read as [JSON.parse]
    reads it) and arrays, lead to [r]. *)
Inductive holdsAt : JSON -> list string -> JSON -> Prop :=
| holds_here (v : JSON) : holdsAt v [] v
| holds_below (v next r : JSON) (key : string) (rest : list string) :
    JS.get v key = Some next -> holdsAt next rest r -> holdsAt v (key :: rest) r.

(** The three locations of a user id, in the order the claim gives. *)
Definition metaCustomUserId : list string := ["meta"; "custom_data"; "user_id"].
Definition dataCustomUserId : list string :=
  ["data"; "attributes"; "custom_data"; "user_id"].
Definition dataUserId : list string := ["data"; "attributes"; "user_id"].

(** The location holds the string [s], and [s] is not empty. *)
Definition holdsId (payload : JSON) (path : list string) (s : string) : Prop :=
  holdsAt payload path (JStr s) /\ s <> "".

(** The location holds no string, or the empty one. *)
Definition holdsNoId (payload : JSON) (path : list string) : Prop :=
  forall s, holdsAt payload path (JStr s) -> s = "".

(** The payload Lemon Squeezy sends for [eventName], with the values
    [first], [second] and [third] at the three locations; [None] is a
    location whose key is absent. *)
Definition payloadWithIds (eventName : string) (first second third : option JSON) : JSON :=
  let entry (v : option JSON) : list (string * JSON) :=
    match v with Some x => [("user_id", x)] | None => [] end in
  JObj [ ("meta", JObj [("event_name", JStr eventName);
                        ("custom_data", JObj (entry first))]);
         ("data", JObj [("attributes",
                         JObj (("custom_data", JObj (entry second)) :: entry third))]) ].

(** The string that a value is, and the non-empty string that it is. *)
Definition asString (v : option JSON) : option string :=
  match v with Some (JStr s) => Some s | _ => None end.

Definition asNonEmptyString (v : option JSON) : option string :=
  match v with Some (JStr (String c s)) => Some (String c s) | _ => None end.

(** The world after [callReve] sent [call]. *)
Definition sentTo (call : ReveCall) (w : World) : World :=
  mkWorld (usageFile w) (app_usage w) (supabaseRequests w) (clockReads w)
          (reveCalls w ++ [call]).

(** The two ways an update lands: in the usage file or in the table. *)
Definition landsLocally (u : string) (w w' : World) (result : UsageRecord) : Prop :=
  localUsers w' !! u = Some result
  /\ (forall u', u' <> u -> localCount w' u' = localCount w u')
  /\ (forall u', remoteCount w' u' = remoteCount w u').

Definition landsRemotely (u : string) (w w' : World) (result : UsageRecord) : Prop :=
  remoteRecord w' u = Some result
  /\ (forall u', u' <> u -> remoteCount w' u' = remoteCount w u')
  /\ (forall u', localCount w' u' = localCount w u').



(** *** Requests, and what they may touch *)

(** The requests the backend routes to a handler that reads or writes
    usage or billing ([app.get] and [app.post]). *)
Inductive Request : Type :=
| GetBillingStatus (userIdParam : option string)
| PostCreateCheckout (reqBody : JSON)
| PostLemonWebhook (req : WebhookRequest)
| PostCreateRemoveBg (reqBody : JSON)
| PostEnhance (reqBody : JSON).

Definition handle (env : Env) (request : Request) : Async Response :=
  match request with
  | GetBillingStatus userIdParam => billingStatusHandler env userIdParam
  | PostCreateCheckout reqBody => createCheckoutHandler env reqBody
  | PostLemonWebhook req => lemonWebhookHandler env req
  | PostCreateRemoveBg reqBody => createRemoveBgHandler env reqBody
  | PostEnhance reqBody => enhanceHandler env reqBody
  end.

(** The user and the status a delivery names: its body parses to a
    recognized event for a user (the signature aside). *)
Definition billingEvent (req : WebhookRequest) : option (string * BillingStatus) :=
  match rawBody req with
  | Some raw =>
      match JSONText.parse (Crypto.bufferToString raw) with
      | Some payload =>
          match readNestedString payload ["meta"; "event_name"],
                extractLemonUserId payload with
          | Some eventName, Some userId =>
              if JSString.truthy userId
              then match eventTarget eventName with
                   | Some st => Some (userId, st)
                   | None => None
                   end
              else None
          | _, _ => None
          end
      | None => None
      end
  | None => None
  end.

(** The user whose records a request reads or writes, when it names one;
    a checkout request reads and writes none. *)
Definition subject (request : Request) : option string :=
  match request with
  | GetBillingStatus userIdParam =>
      let userId := match userIdParam with
                    | Some s => JSString.trim s
                    | None => ""
                    end in
      if JSString.truthy userId then Some userId else None
  | PostCreateCheckout _ => None
  | PostLemonWebhook req => fst <$> billingEvent req
  | PostCreateRemoveBg reqBody | PostEnhance reqBody => getClientUserId reqBody
  end.

(** The usage view a response carries. *)
Definition responseUsage (response : Response) : option UsageView :=
  match body response with
  | UsageBody usage => Some usage
  | UpgradeBody _ _ _ _ usage => Some usage
  | GeneratedBody _ _ _ _ _ usage => Some usage
  | _ => None
  end.

(** The records of every user but [u] are what they were, in the file
    and in the table. *)
Definition untouched (u : option string) (w w' : World) : Prop :=
  forall u', u <> Some u' ->
    localUsers w' !! u' = localUsers w !! u'
    /\ app_usage w' !! u' = app_usage w !! u'.

(** Every record of the usage file is stored under its own [userId], and
    no stored [generatedCount] is negative. *)
Definition wellFormedStore (w : World) : Prop :=
  (forall k r, localUsers w !! k = Some r -> userId r = k /\ 0 <= generatedCount r)
  /\ (forall k c, app_usage w !! k = Some c -> 0 <= col_generated_count c).

(** A mutator that keeps the [userId] and does not make a count negative. *)
Definition keepsShape (updater : UsageRecord -> UsageRecord) : Prop :=
  forall r, userId (updater r) = userId r
            /\ (0 <= generatedCount r -> 0 <= generatedCount (updater r)).

(** Requests served one after the other, each under the environment it
    meets: the completions in order, and the world left. *)
Fixpoint serve (steps : list (Env * Request)) (w : World) :
    list (Request * Completion Response) * World :=
  match steps with
  | [] => ([], w)
  | (env, request) :: rest =>
      let '(c, w1) := handle env request w in
      let '(log, w2) := serve rest w1 in
      ((request, c) :: log, w2)
  end.

(** The request is a generation request of user [u]. *)
Definition generationOf (u : string) (request : Request) : bool :=
  match request with
  | PostCreateRemoveBg reqBody | PostEnhance reqBody =>
      match getClientUserId reqBody with
      | Some v => String.eqb v u
      | None => false
      end
  | _ => false
  end.

Definition answered (code : Z) (c : Completion Response) : bool :=
  match c with
  | Return response => status response =? code
  | Throw _ => false
  end.

(** The generation requests of user [u] that were answered [code]. *)
Definition generationsAnswered (code : Z) (u : string)
    (log : list (Request * Completion Response)) : list (Request * Completion Response) :=
  List.filter (fun entry => generationOf u (fst entry) && answered code (snd entry)) log.

(** The request is a delivery that names user [u] and status [st]. *)
Definition namesStatus (u : string) (st : BillingStatus) (request : Request) : Prop :=
  match request with
  | PostLemonWebhook req => billingEvent req = Some (u, st)
  | _ => False
  end.

(** The billing status of a user in the backend that serves the period;
    a user with no record is on the free plan. *)
Definition storedStatus (b : Backend) (w : World) (u : string) : BillingStatus :=
  match storedRecord b w u with
  | Some r => billingStatus r
  | None => free
  end.

(** What holds of a record read or written for [u], and of the world
    left, given a well-formed store. *)
Definition sound (u : string) (r : UsageRecord) (w' : World) : Prop :=
  wellFormedStore w' /\ userId r = u /\ 0 <= generatedCount r.

(** The view of a sound record carries the user's id and sane numbers. *)
Definition soundView (u : string) (usage : UsageView) : Prop :=
  view_userId usage = u
  /\ 0 <= view_generatedCount usage
  /\ 0 <= remainingFree usage <= freeLimit usage
  /\ remainingFree usage = Z.max 0 (freeLimit usage - view_generatedCount usage).

(** What a route sends to the image provider: an instruction that is not
    empty; for create, no reference image and the background removed; for
    enhance, a reference image and either the background removed or an
    upscale by 2, 3 or 4. *)
Definition wellFormedCall (route : Route) (call : ReveCall) : Prop :=
  JSString.truthy (instruction call) = true
  /\ match route with
     | CreateRemoveBg =>
         endpoint call = create
         /\ reference_image call = None
         /\ postprocessing call = [remove_background]
     | Enhance =>
         endpoint call = edit
         /\ (exists image, reference_image call = Some image)
         /\ (postprocessing call = [remove_background]
             \/ exists factor,
                  postprocessing call = [upscale factor] /\ 2 <= factor <= 4)
     end.

(** Whether the stored record admits a generation: an active
    subscription, or a count below the free limit. *)
Definition admitted (b : Backend) (w : World) (u : string) : bool :=
  BillingStatus_eqb (storedStatus b w u) active
  || (storedCount b w u <? FREE_IMAGE_LIMIT).

(** No user's stored count or status differs between the two worlds. *)
Definition keeps (b : Backend) (w w' : World) : Prop :=
  forall u, storedCount b w' u = storedCount b w u
            /\ storedStatus b w' u = storedStatus b w u.

(** User [v]'s stored count is one more, and nothing else differs. *)
Definition bumps (b : Backend) (v : string) (w w' : World) : Prop :=
  storedCount b w' v = storedCount b w v + 1
  /\ storedStatus b w' v = storedStatus b w v
  /\ forall u, u <> v ->
       storedCount b w' u = storedCount b w u
       /\ storedStatus b w' u = storedStatus b w u.

(** User [v]'s stored status is [st], and nothing else differs. *)
Definition restates (b : Backend) (v : string) (st : BillingStatus) (w w' : World) : Prop :=
  storedCount b w' v = storedCount b w v
  /\ storedStatus b w' v = st
  /\ forall u, u <> v ->
       storedCount b w' u = storedCount b w u
       /\ storedStatus b w' u = storedStatus b w u.

(** Both stores hold a record of [u] with the property [P] of status and
    count: the usage file, and the table when the deployment has a
    Supabase client. *)
Definition bothHold (P : BillingStatus -> Z -> Prop) (remote : bool) (w : World)
    (u : string) : Prop :=
  (exists r, localUsers w !! u = Some r /\ P (billingStatus r) (generatedCount r))
  /\ (remote = true ->
      exists c, app_usage w !! u = Some c
                /\ P (col_billing_status c) (col_generated_count c)).

(** On the free plan, with the free generations used. *)
Definition exhaustedPlan (st : BillingStatus) (count : Z) : Prop :=
  st = free /\ FREE_IMAGE_LIMIT <= count.

(* ===================================================================== *)
(** ** Proof steps *)
(* ===================================================================== *)

(** Unfolds the operations of [Async]. *)
Ltac async :=
  unfold bind, ret, throw, tryCatch, lift, isoNow, ensureUsageStore,
    saveUsageStore, setUsageFile, supabaseQuery, logReveCall.

(** Projects the fields of the worlds built along a computation. *)
Ltac world :=
  cbn [usageFile app_usage supabaseRequests clockReads reveCalls];
  repeat match goal with
    | |- context [localUsers (mkWorld (usageFile ?w) ?t ?n ?c ?l)] =>
        change (localUsers (mkWorld (usageFile w) t n c l)) with (localUsers w)
    | |- context [localUsers (mkWorld (FileStore ?m) ?t ?n ?c ?l)] =>
        change (localUsers (mkWorld (FileStore m) t n c l)) with m
    end.

(* ===================================================================== *)
(** ** Sample environments, worlds and requests *)
(* ===================================================================== *)

Module Sample.

(** Every key set, webhook secret included. *)
Definition configured : ProcessEnv :=
  mkProcessEnv (Some "reve-key") (Some "longcat-key") (Some "lemon-key")
               (Some "store-1") (Some "variant-1") (Some "whsec").

(** Every key set, no webhook secret. *)
Definition unsigned : ProcessEnv :=
  mkProcessEnv (Some "reve-key") (Some "longcat-key") (Some "lemon-key")
               (Some "store-1") (Some "variant-1") None.

Definition picture : ReveApiResponse :=
  mkReveApiResponse "iVBORw0KGgo=" "latest" false "req-1" 1 9.

(** The n-th clock read returns the numeral of n. *)
Definition ticks (n : nat) : string := JSString.decimal n.

(** No Supabase client; every collaborator answers. *)
Definition localEnv (p : ProcessEnv) : Env :=
  mkEnv p false (fun _ => false) ticks (ReveOk picture)
        (LemonOk (Some "https://pay.example/checkout")) (LongcatOk (Some "a cat, studio light")).

(** A Supabase client whose requests fail exactly when [fails] says so. *)
Definition remoteEnv (p : ProcessEnv) (fails : nat -> bool) : Env :=
  mkEnv p true fails ticks (ReveOk picture)
        (LemonOk (Some "https://pay.example/checkout")) (LongcatOk (Some "a cat, studio light")).

Definition withReve (r : ReveReply) (env : Env) : Env :=
  mkEnv (processEnv env) (supabase env) (supabaseError env) (isoTime env) r
        (lemonReply env) (longcatReply env).

Definition withLemon (r : LemonReply) (env : Env) : Env :=
  mkEnv (processEnv env) (supabase env) (supabaseError env) (isoTime env)
        (reveReply env) r (longcatReply env).

Definition fresh : World := mkWorld FileMissing ∅ 0 0 [].

(** A user who has used the free generation. *)
Definition spent (u : string) : UsageRecord :=
  mkUsageRecord u 1 free None None "2026-01-01T00:00:00.000Z".

Definition exhausted : World :=
  mkWorld (FileStore {[ "u1" := spent "u1" ]}) ∅ 0 0 [].

Definition createBody : JSON :=
  JObj [("clientUserId", JStr "u1"); ("prompt", JStr "a cat")].

(** A create request without its prompt. *)
Definition createBodyNoPrompt : JSON := JObj [("clientUserId", JStr "u1")].

Definition enhanceBody : JSON :=
  JObj [("clientUserId", JStr "u1");
        ("referenceImageBase64", JStr "data:image/png;base64,AAAA");
        ("operation", JStr "upscale"); ("upscaleFactor", JNum 7 0)].

(** An enhance request without its reference image. *)
Definition enhanceBodyNoImage : JSON := JObj [("clientUserId", JStr "u1")].

Definition webhook (text : string) (signature : option string) : WebhookRequest :=
  mkWebhookRequest (Some (Crypto.bufferFrom (JSONText.dq text))) signature.

(** The signature Lemon Squeezy sends for [text] under [secret]. *)
Definition signed (secret text : string) : WebhookRequest :=
  webhook text
    (Some (Crypto.hmacSha256Hex secret (Crypto.bufferFrom (JSONText.dq text)))).

Definition subscriptionCreated : string :=
  "{'meta':{'event_name':'subscription_created','custom_data':{'user_id':'u1'}}}".

(** An empty string at the first location, a user id at the third. *)
Definition emptyFirstLocation : string :=
  "{'meta':{'event_name':'subscription_created','custom_data':{'user_id':''}},'data':{'attributes':{'user_id':'u2'}}}".

(** A subscriber well over the free limit. *)
Definition subscriber (u : string) : UsageRecord :=
  mkUsageRecord u 5 active (Some "cus_1") (Some "sub_1") "2026-01-01T00:00:00.000Z".

Definition subscribed : World :=
  mkWorld (FileStore {[ "u1" := subscriber "u1" ]}) ∅ 0 0 [].



Definition threeIds : string :=
  "{'meta':{'event_name':'subscription_created','custom_data':{'user_id':'first'}},'data':{'attributes':{'custom_data':{'user_id':'second'},'user_id':'third'}}}".

Definition emptyThenIds : string :=
  "{'meta':{'event_name':'subscription_created','custom_data':{'user_id':''}},'data':{'attributes':{'custom_data':{'user_id':'second'},'user_id':'third'}}}".

Definition numberThenThird : string :=
  "{'meta':{'event_name':'subscription_created','custom_data':{'user_id':7}},'data':{'attributes':{'custom_data':{},'user_id':'third'}}}".

(** Both stores know user u1 as having used the free generation. *)
Definition exhaustedInBoth : World :=
  mkWorld (FileStore {[ "u1" := spent "u1" ]})
          {[ "u1" := mkAppUsageColumns 1 free None None "2026-01-01T00:00:00.000Z" ]}
          0 0 [].

(** The usage file holds another user, u2, and nobody else. *)
Definition neighbour : World :=
  mkWorld (FileStore {[ "u2" := spent "u2" ]}) ∅ 0 0 [].

(** A first generation, a look at the status, and a second attempt, all
    by user u1 on the local backend. *)
Definition visit : list (Env * Request) :=
  let env := localEnv configured in
  [ (env, PostCreateRemoveBg createBody);
    (env, GetBillingStatus (Some " u1 "));
    (env, PostEnhance enhanceBody) ].

(** The same visit in a deployment with a Supabase client, every other
    request to which fails, the first one included. *)
Definition flakyVisit : list (Env * Request) :=
  let env := remoteEnv configured Nat.even in
  [ (env, PostCreateRemoveBg createBody);
    (env, GetBillingStatus (Some " u1 "));
    (env, PostEnhance enhanceBody) ].

End Sample.

(* ===================================================================== *)
(** ** Properties *)
(* ===================================================================== *)

(** *** The usage view *)

(** C1.  [buildUsageView] is a function of the record alone, and of its
    [userId], [generatedCount] and [billingStatus] only: [remainingFree]
    is [max(0, FREE_IMAGE_LIMIT - generatedCount)], [hasActiveSubscription]
    holds exactly for an active record, [canGenerate] holds exactly when
    the subscription is active or a free generation remains.  Hence a
    record below the limit or active can generate, and a free record at or
    over the limit cannot. *)
Theorem buildUsageView_quota (record : UsageRecord) :
  remainingFree (buildUsageView record)
    = Z.max 0 (FREE_IMAGE_LIMIT - generatedCount record)
  /\ (hasActiveSubscription (buildUsageView record) = true
      <-> billingStatus record = active)
  /\ (canGenerate (buildUsageView record) = true
      <-> hasActiveSubscription (buildUsageView record) = true
          \/ remainingFree (buildUsageView record) > 0)
  /\ (generatedCount record < FREE_IMAGE_LIMIT \/ billingStatus record = active ->
      canGenerate (buildUsageView record) = true)
  /\ (generatedCount record >= FREE_IMAGE_LIMIT /\ billingStatus record = free ->
      canGenerate (buildUsageView record) = false)
  /\ (forall other : UsageRecord,
        userId other = userId record ->
        generatedCount other = generatedCount record ->
        billingStatus other = billingStatus record ->
        buildUsageView other = buildUsageView record).
Proof.
  destruct record as [u n st c s t]; unfold buildUsageView, FREE_IMAGE_LIMIT; simpl.
  repeat split.
  - destruct st; simpl; congruence.
  - destruct st; simpl; congruence.
  - destruct st; simpl; intros H; [right | left; reflexivity].
    apply Z.gtb_lt in H. lia.
  - intros [H | H]; [rewrite H; reflexivity |].
    destruct st; simpl; [apply Z.gtb_lt; lia | reflexivity].
  - intros [H | ->]; [| reflexivity].
    destruct st; simpl; [| reflexivity].
    apply Z.gtb_lt. lia.
  - intros [H ->]; simpl.
    destruct (Z.max 0 (1 - n) >? 0) eqn:E; [| reflexivity].
    apply Z.gtb_lt in E. lia.
  - intros [u' n' st' c' s' t']; simpl; intros -> -> ->; reflexivity.
Qed.

(** *** Webhook signature *)

Lemma hex_length (bs : list Z) :
  String.length (Crypto.hex bs) = (2 * length bs)%nat.
Proof. induction bs as [| b r IH]; simpl; [reflexivity | rewrite IH; lia]. Qed.

Lemma sha256_length (msg : list Z) : length (Crypto.sha256 msg) = 32%nat.
Proof. reflexivity. Qed.

Lemma hmacSha256Hex_length (secret : string) (rawBody : list Z) :
  String.length (Crypto.hmacSha256Hex secret rawBody) = 64%nat.
Proof.
  unfold Crypto.hmacSha256Hex, Crypto.hmacSha256.
  rewrite hex_length, sha256_length. reflexivity.
Qed.

Lemma bufferFrom_length (s : string) :
  length (Crypto.bufferFrom s) = String.length s.
Proof.
  unfold Crypto.bufferFrom. rewrite length_map.
  induction s as [| c s IH]; simpl; congruence.
Qed.

Lemma code_inj (c d : ascii) : JSONText.code c = JSONText.code d -> c = d.
Proof.
  unfold JSONText.code. intros H. apply N2Z.inj in H.
  rewrite <- (ascii_N_embedding c), <- (ascii_N_embedding d). congruence.
Qed.

Lemma bufferFrom_inj (s t : string) :
  Crypto.bufferFrom s = Crypto.bufferFrom t -> s = t.
Proof.
  unfold Crypto.bufferFrom. revert t.
  induction s as [| c s IH]; intros [| d t]; simpl; try discriminate; [reflexivity |].
  intros H. injection H as Hc Hs. apply code_inj in Hc. f_equal; auto.
Qed.

Lemma compare_fold_zero (a b : list Z) (acc : Z) :
  length a = length b ->
  (fold_left (fun acc xy => Z.lor acc (Z.lxor (fst xy) (snd xy))) (combine a b) acc = 0
   <-> acc = 0 /\ a = b).
Proof.
  revert b acc. induction a as [| x a IH]; intros [| y b] acc; simpl; try discriminate.
  - intros _. split; [intros ->; split; reflexivity | intros [H _]; exact H].
  - intros H. injection H as H. rewrite (IH b _ H).
    rewrite Z.lor_eq_0_iff, Z.lxor_eq_0_iff. split.
    + intros [[-> ->] ->]. split; reflexivity.
    + intros [-> E]. injection E as -> ->. repeat split; reflexivity.
Qed.

Lemma constantTimeCompare_true (a b : list Z) :
  length a = length b -> (Crypto.constantTimeCompare a b = true <-> a = b).
Proof.
  intros H. unfold Crypto.constantTimeCompare.
  rewrite Z.eqb_eq, (compare_fold_zero a b 0 H). tauto.
Qed.

Lemma verify_with_header (p : ProcessEnv) (rawBody : list Z) (secret header : string) :
  getLemonWebhookSecret p = Some secret ->
  (verifyLemonSignature p rawBody (Some header) = Return true
   /\ Crypto.bufferFrom header = Crypto.bufferFrom (Crypto.hmacSha256Hex secret rawBody))
  \/ (verifyLemonSignature p rawBody (Some header) = Return false
      /\ Crypto.bufferFrom header <> Crypto.bufferFrom (Crypto.hmacSha256Hex secret rawBody)).
Proof.
  intros H. unfold verifyLemonSignature. rewrite H.
  set (a := Crypto.bufferFrom (Crypto.hmacSha256Hex secret rawBody)).
  assert (L : length a = 64%nat).
  { unfold a. rewrite bufferFrom_length. apply hmacSha256Hex_length. }
  destruct header as [| c header'].
  { right. split; [reflexivity |]. intros E. rewrite <- E in L. discriminate L. }
  cbn [JSString.truthy negb].
  set (b := Crypto.bufferFrom (String c header')).
  destruct (length a =? length b)%nat eqn:El; cbn [negb].
  - unfold timingSafeEqual. rewrite El. cbn [negb].
    apply Nat.eqb_eq in El.
    pose proof (constantTimeCompare_true a b El) as Hc.
    destruct (Crypto.constantTimeCompare a b).
    + left. split; [reflexivity |]. symmetry. apply Hc. reflexivity.
    + right. split; [reflexivity |]. intros E. symmetry in E.
      apply Hc in E. discriminate E.
  - right. split; [reflexivity |]. intros E. rewrite E in El.
    rewrite Nat.eqb_refl in El. discriminate El.
Qed.

(** C5.  Without a configured secret every request verifies.  With a
    secret, verification succeeds exactly when the header is present, its
    bytes are as many as those of the hex HMAC-SHA256 of the raw body
    under the secret, and equal to them; a missing header, a length
    mismatch and a content mismatch each give [false]; the comparison
    never throws. *)
Theorem verifyLemonSignature_spec (p : ProcessEnv) (rawBody : list Z)
    (signatureHeader : option string) :
  (getLemonWebhookSecret p = None ->
   verifyLemonSignature p rawBody signatureHeader = Return true)
  /\ (forall secret : string,
        getLemonWebhookSecret p = Some secret ->
        let computed := Crypto.bufferFrom (Crypto.hmacSha256Hex secret rawBody) in
        (verifyLemonSignature p rawBody signatureHeader = Return true
         <-> exists header : string,
               signatureHeader = Some header
               /\ length (Crypto.bufferFrom header) = length computed
               /\ Crypto.bufferFrom header = computed)
        /\ (signatureHeader = None ->
            verifyLemonSignature p rawBody signatureHeader = Return false)
        /\ (forall header : string,
              signatureHeader = Some header ->
              length (Crypto.bufferFrom header) <> length computed
              \/ Crypto.bufferFrom header <> computed ->
              verifyLemonSignature p rawBody signatureHeader = Return false)).
Proof.
  split.
  - intros H. unfold verifyLemonSignature. rewrite H. reflexivity.
  - intros secret H computed.
    assert (N : verifyLemonSignature p rawBody None = Return false).
    { unfold verifyLemonSignature. rewrite H. reflexivity. }
    split; [| split].
    + split.
      * destruct signatureHeader as [header |]; [| rewrite N; discriminate].
        intros Ht. exists header.
        destruct (verify_with_header p rawBody secret header H) as [[_ E] | [Hf _]].
        -- fold computed in E. rewrite E. repeat split; reflexivity.
        -- rewrite Hf in Ht. discriminate Ht.
      * intros (header & -> & _ & E).
        destruct (verify_with_header p rawBody secret header H) as [[Ht _] | [_ Hn]].
        -- exact Ht.
        -- contradiction.
    + intros ->. exact N.
    + intros header -> Hm.
      destruct (verify_with_header p rawBody secret header H) as [[_ E] | [Hf _]].
      * fold computed in E. destruct Hm as [Hm | Hm]; [rewrite E in Hm |]; contradiction.
      * exact Hf.
Qed.

(** *** The JSON reader: the fuel of [parse] is enough *)

Module JSONTextFacts.
Import JSONText.

(** One unfolding of each reader. *)
Lemma parseValue_S (f : nat) (s : string) :
  parseValue (S f) s =
      match skipWs s with
      | EmptyString => None
      | String c r as s0 =>
          let n := code c in
          if n =? 110 then literal "null" JNull s0
          else if n =? 116 then literal "true" (JBool true) s0
          else if n =? 102 then literal "false" (JBool false) s0
          else if n =? 34 then
            match parseChars (S (String.length r)) r with
            | Some (str, r') => Some (JStr str, r')
            | None => None
            end
          else if n =? 91 then
            match skipWs r with
            | String d r' =>
                if code d =? 93 then Some (JArr [], r')
                else match parseElements f r with
                     | Some (vs, r'') => Some (JArr vs, r'')
                     | None => None
                     end
            | EmptyString => None
            end
          else if n =? 123 then
            match skipWs r with
            | String d r' =>
                if code d =? 125 then Some (JObj [], r')
                else match parseMembers f r with
                     | Some (ms, r'') => Some (JObj ms, r'')
                     | None => None
                     end
            | EmptyString => None
            end
          else parseNumber s0
      end.
Proof. reflexivity. Qed.

Lemma parseElements_S (f : nat) (s : string) :
  parseElements (S f) s =
      match parseValue f s with
      | None => None
      | Some (v, r) =>
          match skipWs r with
          | String c r' =>
              if code c =? 44 then
                match parseElements f r' with
                | Some (vs, r'') => Some (v :: vs, r'')
                | None => None
                end
              else if code c =? 93 then Some ([v], r')
              else None
          | EmptyString => None
          end
      end.
Proof. reflexivity. Qed.

Lemma parseMembers_S (f : nat) (s : string) :
  parseMembers (S f) s =
      match skipWs s with
      | String q r =>
          if code q =? 34 then
            match parseChars (S (String.length r)) r with
            | None => None
            | Some (k, r1) =>
                match skipWs r1 with
                | String c r2 =>
                    if code c =? 58 then
                      match parseValue f r2 with
                      | None => None
                      | Some (v, r3) =>
                          match skipWs r3 with
                          | String d r4 =>
                              if code d =? 44 then
                                match parseMembers f r4 with
                                | Some (ms, r5) => Some ((k, v) :: ms, r5)
                                | None => None
                                end
                              else if code d =? 125 then Some ([(k, v)], r4)
                              else None
                          | EmptyString => None
                          end
                      end
                    else None
                | EmptyString => None
                end
            end
          else None
      | EmptyString => None
      end.
Proof. reflexivity. Qed.

(** Case analysis along the matches of a hypothesis. *)
Ltac split_match H :=
  match type of H with
  | context [match ?x with _ => _ end] =>
      let E := fresh "E" in
      destruct x eqn:E; try discriminate H; cbv beta match in H |- *
  end.



(** Every reader returns a rest no longer than its text, and a reader
    that returns a value a strictly shorter one. *)
Lemma skipWs_length (s : string) : (String.length (skipWs s) <= String.length s)%nat.
Proof.
  induction s as [| c s IH]; cbn [skipWs]; [lia |].
  destruct (isWs c); cbn [String.length]; lia.
Qed.

Lemma dropPrefix_length (p s r : string) :
  JSString.dropPrefix p s = Some r -> (String.length r + String.length p = String.length s)%nat.
Proof.
  revert s; induction p as [| a p IH]; intros s H; cbn [JSString.dropPrefix] in H.
  - injection H as <-. cbn [String.length]. lia.
  - destruct s as [| b s]; [discriminate |].
    destruct (Ascii.eqb a b); [| discriminate].
    apply IH in H. cbn [String.length]. lia.
Qed.

Lemma literal_length (word : string) (v v' : JSON) (s r : string) :
  literal word v s = Some (v', r) -> (String.length r + String.length word = String.length s)%nat.
Proof.
  unfold literal. destruct (JSString.dropPrefix word s) eqn:E; [| discriminate].
  intros H; injection H as _ <-. now apply dropPrefix_length.
Qed.

Lemma digits_length (s : string) (acc count a n : Z) (r : string) :
  digits s acc count = (a, n, r) -> (String.length r <= String.length s)%nat.
Proof.
  revert acc count; induction s as [| c s IH]; intros acc count H; cbn [digits] in H.
  - injection H as _ _ <-. lia.
  - destruct (digitVal c).
    + apply IH in H. cbn [String.length]. lia.
    + injection H as _ _ <-. lia.
Qed.

Lemma parseExponent_length (s : string) (e : Z) (r : string) :
  parseExponent s = Some (e, r) -> (String.length r <= String.length s)%nat.
Proof.
  unfold parseExponent. destruct s as [| c s]; [intros H; injection H as _ <-; lia |].
  destruct ((code c =? 101) || (code c =? 69)); [| intros H; injection H as _ <-; lia].
  destruct s as [| d s'].
  - cbn [digits]. cbn. discriminate.
  - destruct (code d =? 43); [| destruct (code d =? 45)].
    all: match goal with
         | |- context [digits ?x ?y ?z] =>
             destruct (digits x y z) as [[a n] r2] eqn:E
         end;
         apply digits_length in E;
         destruct (n =? 0); [discriminate |];
         intros H; injection H as _ <-; cbn [String.length] in *; lia.
Qed.

Lemma parseFraction_length (ip : Z) (s : string) (m fd : Z) (r : string) :
  parseFraction ip s = Some (m, fd, r) -> (String.length r <= String.length s)%nat.
Proof.
  unfold parseFraction. destruct s as [| c s]; [intros H; injection H as _ _ <-; lia |].
  destruct (code c =? 46); [| intros H; injection H as _ _ <-; lia].
  destruct (digits s ip 0) as [[a n] r'] eqn:E. apply digits_length in E.
  destruct (n =? 0); [discriminate |].
  intros H; injection H as _ _ <-. cbn [String.length]. lia.
Qed.

Lemma parseNumber_length (s : string) (v : JSON) (r : string) :
  parseNumber s = Some (v, r) -> (String.length r < String.length s)%nat.
Proof.
  unfold parseNumber.
  set (start := match s with
                | String c r => if code c =? 45 then (true, r) else (false, s)
                | EmptyString => (false, s)
                end).
  assert (Hs : (String.length (snd start) <= String.length s)%nat).
  { subst start. destruct s as [| c s]; [cbn; lia |].
    destruct (code c =? 45); cbn [snd String.length]; lia. }
  destruct start as [neg s1]. cbn [snd] in Hs.
  destruct s1 as [| c r1]; [discriminate |].
  destruct (digitVal c) as [d |]; [| discriminate].
  set (int := if d =? 0 then (0, r1)
              else let '(a, _, r') := digits r1 d 1 in (a, r')).
  assert (Hi : (String.length (snd int) <= String.length r1)%nat).
  { subst int. destruct (d =? 0); [cbn; lia |].
    destruct (digits r1 d 1) as [[a n] r'] eqn:E. apply digits_length in E.
    exact E. }
  destruct int as [ip s2]. cbn [snd] in Hi.
  destruct (parseFraction ip s2) as [[[m fd] s3] |] eqn:EF; [| discriminate].
  apply parseFraction_length in EF.
  destruct (parseExponent s3) as [[e s4] |] eqn:EE; [| discriminate].
  apply parseExponent_length in EE.
  intros H; injection H as _ <-. cbn [String.length] in Hs. lia.
Qed.

Lemma hex4_length (s : string) (u : Z) (r : string) :
  hex4 s = Some (u, r) -> (String.length r <= String.length s)%nat.
Proof.
  unfold hex4.
  destruct s as [| a [| b [| c [| d s]]]]; try discriminate.
  destruct (hexVal a), (hexVal b), (hexVal c), (hexVal d); try discriminate.
  intros H; injection H as _ <-. cbn [String.length]. lia.
Qed.

Lemma lowSurrogate_length (u1 : Z) (s : string) (cp : Z) (r : string) :
  lowSurrogate u1 s = Some (cp, r) -> (String.length r <= String.length s)%nat.
Proof.
  unfold lowSurrogate.
  destruct ((55296 <=? u1) && (u1 <=? 56319)); [| discriminate].
  destruct s as [| b [| u s]]; try discriminate.
  destruct ((code b =? 92) && (code u =? 117)); [| discriminate].
  destruct (hex4 s) as [[u2 r'] |] eqn:E; [| discriminate].
  apply hex4_length in E.
  destruct ((56320 <=? u2) && (u2 <=? 57343)); [| discriminate].
  intros H; injection H as _ <-. cbn [String.length]. lia.
Qed.

Lemma prepend_rest (cs : list ascii) (x : option (string * string))
    (k r : string) :
  prepend cs x = Some (k, r) -> exists k', x = Some (k', r).
Proof.
  destruct x as [[k' r'] |]; [| discriminate].
  cbn [prepend]. intros H; injection H as _ <-. now exists k'.
Qed.

Lemma parseChars_length (fuel : nat) (s k r : string) :
  parseChars fuel s = Some (k, r) -> (String.length r < String.length s)%nat.
Proof.
  revert s k; induction fuel as [| fuel IH]; intros s k H; [discriminate |].
  cbn [parseChars] in H.
  destruct s as [| c s]; [discriminate |]. cbn [String.length].
  destruct (code c =? 34); [injection H as _ <-; lia |].
  destruct (code c =? 92).
  - destruct s as [| e s']; [discriminate |]. cbn [String.length].
    destruct (code e =? 117).
    + destruct (hex4 s') as [[u1 r1] |] eqn:E4; [| discriminate].
      apply hex4_length in E4.
      destruct (lowSurrogate u1 r1) as [[cp r2] |] eqn:EL.
      * apply lowSurrogate_length in EL.
        apply prepend_rest in H as [k' H]. apply IH in H. lia.
      * apply prepend_rest in H as [k' H]. apply IH in H. lia.
    + destruct (simpleEscape e); [| discriminate].
      apply prepend_rest in H as [k' H]. apply IH in H. lia.
  - destruct (code c <? 32); [discriminate |].
    apply prepend_rest in H as [k' H]. apply IH in H. lia.
Qed.

(** What the text shrinks by at each step, collected from the equations
    in the context. *)
Ltac lengths :=
  repeat match goal with
         | E : skipWs ?s = String _ _ |- _ =>
             let L := fresh "L" in
             pose proof (skipWs_length s) as L; rewrite E in L;
             cbn [String.length] in L; revert E
         | E : parseChars _ _ = Some _ |- _ =>
             apply parseChars_length in E
         | E : literal _ _ _ = Some _ |- _ =>
             apply literal_length in E; cbn [String.length] in E
         | E : parseNumber _ = Some _ |- _ =>
             apply parseNumber_length in E; cbn [String.length] in E
         end;
  intros.

(** A value, a list of elements, a list of members: each takes at least
    one character. *)
Lemma parse_consumes (f : nat) :
  (forall s v r, parseValue f s = Some (v, r) -> (String.length r < String.length s)%nat)
  /\ (forall s vs r, parseElements f s = Some (vs, r) -> (String.length r < String.length s)%nat)
  /\ (forall s ms r, parseMembers f s = Some (ms, r) -> (String.length r < String.length s)%nat).
Proof.
  induction f as [| f (IV & IE & IM)]; [repeat split; intros; discriminate |].
  split; [| split].
  - intros s v r H. rewrite parseValue_S in H. cbv zeta in H.
    repeat (split_match H);
      repeat match goal with
             | E : parseElements f _ = Some _ |- _ => apply IE in E
             | E : parseMembers f _ = Some _ |- _ => apply IM in E
             end;
      try (injection H as _ <-); lengths; lia.
  - intros s vs r H. rewrite parseElements_S in H.
    repeat (split_match H);
      repeat match goal with
             | E : parseValue f _ = Some _ |- _ => apply IV in E
             | E : parseElements f _ = Some _ |- _ => apply IE in E
             end;
      try (injection H as _ <-); lengths; lia.
  - intros s ms r H. rewrite parseMembers_S in H.
    repeat (split_match H);
      repeat match goal with
             | E : parseValue f _ = Some _ |- _ => apply IV in E
             | E : parseMembers f _ = Some _ |- _ => apply IM in E
             end;
      try (injection H as _ <-); lengths; lia.
Qed.

(** A recursive call that returned with the fuel of the hypothesis returns
    with the fuel of the goal. *)
Ltac refuel :=
  match goal with
  | IH : (forall s x, ?P ?f s = Some x -> _), E : ?P ?f ?s = Some _
    |- context [?P ?f' ?s] =>
      rewrite (IH _ _ E f'); [cbv beta match | clear IH; lengths; lia]
  end.

(** Twice the length of the text is fuel enough: a value read with some
    fuel is read with any fuel above that bound. *)
Lemma parse_fuel_enough (f : nat) :
  (forall s x, parseValue f s = Some x ->
     forall f', (2 * String.length s <= f')%nat -> parseValue f' s = Some x)
  /\ (forall s x, parseElements f s = Some x ->
        forall f', (2 * String.length s + 1 <= f')%nat -> parseElements f' s = Some x)
  /\ (forall s x, parseMembers f s = Some x ->
        forall f', (2 * String.length s + 1 <= f')%nat -> parseMembers f' s = Some x).
Proof.
  induction f as [| f (IV & IE & IM)]; [repeat split; intros; discriminate |].
  destruct (parse_consumes f) as (CV & CE & CM).
  split; [| split].
  - intros s x H f' Hf.
    assert (Hpos : (0 < String.length s)%nat).
    { destruct x as [v r]. apply (proj1 (parse_consumes (S f))) in H. lia. }
    destruct f' as [| f']; [lia |].
    rewrite parseValue_S in H. rewrite parseValue_S. cbv zeta in H |- *.
    repeat (split_match H); try exact H; refuel; exact H.
  - intros s x H f' Hf.
    destruct f' as [| f']; [lia |].
    rewrite parseElements_S in H. rewrite parseElements_S.
    destruct (parseValue f s) as [[v r] |] eqn:EV; [| discriminate].
    refuel. apply CV in EV.
    repeat (split_match H); try exact H; refuel; exact H.
  - intros s x H f' Hf.
    destruct f' as [| f']; [lia |].
    rewrite parseMembers_S in H. rewrite parseMembers_S.
    destruct (skipWs s) as [| q r] eqn:Es; [discriminate |].
    destruct (code q =? 34); [| discriminate].
    destruct (parseChars (S (String.length r)) r) as [[k r1] |] eqn:Ek; [| discriminate].
    destruct (skipWs r1) as [| c r2] eqn:E1; [discriminate |].
    destruct (code c =? 58); [| discriminate].
    destruct (parseValue f r2) as [[v r3] |] eqn:EV; [| discriminate].
    assert (L2 : (String.length r2 < String.length s)%nat) by (clear EV; lengths; lia).
    refuel. apply CV in EV.
    repeat (split_match H); try exact H; refuel; exact H.
Qed.

(** The fuel [parse] hands to [parseValue] is never what refuses a text:
    a value read with any fuel is read by [parse]. *)
Lemma parse_complete (text : string) (fuel : nat) (v : JSON) (r : string) :
  parseValue fuel text = Some (v, r) -> skipWs r = EmptyString ->
  parse text = Some v.
Proof.
  intros H Hr. unfold parse.
  rewrite (proj1 (parse_fuel_enough fuel) _ _ H) by lia.
  now rewrite Hr.
Qed.

End JSONTextFacts.

(** *** Webhook payloads *)

Lemma decimal_not_word (i : nat) (c : ascii) (rest : string) :
  (JSONText.code c <? 48) || (57 <? JSONText.code c) = true ->
  String.eqb (JSString.decimal i) (String c rest) = false.
Proof.
  intros Hc. unfold JSString.decimal.
  assert (D : forall d : ascii, (48 <=? JSONText.code d) && (JSONText.code d <=? 57) = true ->
              forall s, String.eqb (String d s) (String c rest) = false).
  { intros d Hd s. simpl. destruct (Ascii.eqb d c) eqn:E; [| reflexivity].
    apply Ascii.eqb_eq in E. subst d. exfalso.
    apply andb_true_iff in Hd as [H1 H2]. apply Z.leb_le in H1, H2.
    apply orb_true_iff in Hc as [H | H]; apply Z.ltb_lt in H; lia. }
  destruct (Nat.to_uint i);
    cbn [NilZero.string_of_uint NilEmpty.string_of_uint]; apply D; reflexivity.
Qed.

Lemma array_has_no_word (items : list JSON) (c : ascii) (rest : string) :
  (JSONText.code c <? 48) || (57 <? JSONText.code c) = true ->
  String.eqb (String c rest) "length" = false ->
  JS.has (JArr items) (String c rest) = false.
Proof.
  intros Hc Hl. unfold JS.has. rewrite Hl. simpl.
  unfold JS.arrayIndex.
  destruct (find _ _) as [i |] eqn:E; [| reflexivity].
  apply find_some in E as [_ E]. rewrite (decimal_not_word i c rest Hc) in E.
  discriminate E.
Qed.

Lemma webhook_steps (env : Env) (req : WebhookRequest) (w : World)
    (raw : list Z) (payload : JSON) :
  rawBody req = Some raw ->
  verifyLemonSignature (processEnv env) raw
    (if present (xSignature req) then xSignature req else None) = Return true ->
  JSONText.parse (Crypto.bufferToString raw) = Some payload ->
  lemonWebhookHandler env req w =
    if negb (isObject payload)
    then (Return (mkResponse 400 (MessageBody "Webhook payload format is invalid.")), w)
    else
      match readNestedString payload ["meta"; "event_name"], extractLemonUserId payload with
      | Some eventName, Some userId =>
          if negb (JSString.truthy eventName) || negb (JSString.truthy userId)
          then (Return (mkResponse 200 (WebhookBody true)), w)
          else
            ((if setHas activationEvents eventName
              then _ <- setBillingStatus env userId active ;; ret tt
              else ret tt) ;;;
             (if setHas deactivationEvents eventName
              then _ <- setBillingStatus env userId free ;; ret tt
              else ret tt) ;;;
             ret (mkResponse 200 (WebhookBody false))) w
      | _, _ => (Return (mkResponse 200 (WebhookBody true)), w)
      end.
Proof.
  intros Hb Hv Hp. unfold lemonWebhookHandler. rewrite Hb.
  unfold bind at 1. unfold lift. rewrite Hv. cbn [negb]. rewrite Hp.
  destruct (isObject payload); cbn [negb]; [| reflexivity].
  destruct (readNestedString payload ["meta"; "event_name"]) as [e |];
    destruct (extractLemonUserId payload) as [u |]; try reflexivity.
  destruct (negb (JSString.truthy e) || negb (JSString.truthy u)); reflexivity.
Qed.

Lemma get_has (v : JSON) (key : string) (next : JSON) :
  JS.get v key = Some next -> isObject v = true /\ JS.has v key = true.
Proof.
  destruct v as [| b | m e | s | items | ms]; cbn [JS.get JS.has isObject];
    try discriminate.
  - destruct (String.eqb key "length"); [auto |].
    destruct (JS.arrayIndex key (length items)); [auto | discriminate].
  - intros ->. auto.
Qed.

(** [readNestedString] returns the string a location holds, and [null]
    where the location holds none. *)
Lemma readNestedString_holds (path : list string) (current : JSON) (s : string) :
  readNestedString current path = Some s <-> holdsAt current path (JStr s).
Proof.
  revert current. induction path as [| part rest IH]; intros current.
  - cbn [readNestedString]. split.
    + destruct current; try discriminate. intros [= ->]. constructor.
    + intros H. inversion H; subst. reflexivity.
  - cbn [readNestedString]. split.
    + destruct (negb (isObject current) || negb (JS.has current part)); [discriminate |].
      destruct (JS.get current part) as [next |] eqn:G; [| discriminate].
      intros H. apply IH in H. econstructor; eassumption.
    + intros H. inversion H as [| v next r key rest' G Hn]; subst.
      destruct (get_has current part next G) as [-> ->]. cbn [negb orb].
      rewrite G. apply IH, Hn.
Qed.

Lemma present_holdsId (payload : JSON) (path : list string) (s : string) :
  holdsId payload path s ->
  readNestedString payload path = Some s /\ present (Some s) = true.
Proof.
  intros [H Hne]. split; [apply readNestedString_holds, H |].
  destruct s; [contradiction | reflexivity].
Qed.

Lemma absent_holdsNoId (payload : JSON) (path : list string) :
  holdsNoId payload path -> present (readNestedString payload path) = false.
Proof.
  intros H. destruct (readNestedString payload path) as [s |] eqn:E; [| reflexivity].
  apply readNestedString_holds in E. rewrite (H s E). reflexivity.
Qed.

(** C6 (as amended).  The user id is the non-empty string that
    [meta.custom_data.user_id] holds; when that location holds no string
    or the empty one, the non-empty string that
    [data.attributes.custom_data.user_id] holds; when that one holds none
    either, whatever string [data.attributes.user_id] holds, the empty
    one included, and [null] when it holds no string.  So it is on the
    payload that holds three given values at the three locations.  A
    verified webhook whose user id is [null] or empty is answered 200 as
    ignored, and the world is left as it was. *)
Theorem extractLemonUserId_priority (env : Env) (req : WebhookRequest) (w : World)
    (raw : list Z) (payload : JSON) :
  rawBody req = Some raw ->
  verifyLemonSignature (processEnv env) raw
    (if present (xSignature req) then xSignature req else None) = Return true ->
  JSONText.parse (Crypto.bufferToString raw) = Some payload ->
  isObject payload = true ->
  (forall s, holdsId payload metaCustomUserId s -> extractLemonUserId payload = Some s)
  /\ (forall s,
        holdsNoId payload metaCustomUserId ->
        holdsId payload dataCustomUserId s ->
        extractLemonUserId payload = Some s)
  /\ (forall s,
        holdsNoId payload metaCustomUserId ->
        holdsNoId payload dataCustomUserId ->
        holdsAt payload dataUserId (JStr s) ->
        extractLemonUserId payload = Some s)
  /\ (holdsNoId payload metaCustomUserId ->
      holdsNoId payload dataCustomUserId ->
      (forall s, ~ holdsAt payload dataUserId (JStr s)) ->
      extractLemonUserId payload = None)
  /\ (forall (eventName : string) (first second third : option JSON),
        payload = payloadWithIds eventName first second third ->
        extractLemonUserId payload
        = match asNonEmptyString first, asNonEmptyString second with
          | Some s, _ => Some s
          | None, Some s => Some s
          | None, None => asString third
          end)
  /\ (extractLemonUserId payload = None \/ extractLemonUserId payload = Some "" ->
      lemonWebhookHandler env req w = (Return (mkResponse 200 (WebhookBody true)), w)).
Proof.
  intros Hb Hv Hp Ho.
  unfold extractLemonUserId.
  fold metaCustomUserId. fold dataCustomUserId. fold dataUserId.
  split; [| split; [| split; [| split; [| split]]]].
  - intros s H. destruct (present_holdsId _ _ _ H) as [-> ->]. reflexivity.
  - intros s H1 H2. rewrite (absent_holdsNoId _ _ H1).
    destruct (present_holdsId _ _ _ H2) as [-> ->]. reflexivity.
  - intros s H1 H2 H3. rewrite (absent_holdsNoId _ _ H1), (absent_holdsNoId _ _ H2).
    apply readNestedString_holds, H3.
  - intros H1 H2 H3. rewrite (absent_holdsNoId _ _ H1), (absent_holdsNoId _ _ H2).
    destruct (readNestedString payload dataUserId) as [s |] eqn:E; [| reflexivity].
    apply readNestedString_holds in E. destruct (H3 s E).
  - intros eventName first second third ->.
    destruct first as [[| b1 | m1 e1 | [| c1 s1] | l1 | o1] |];
      destruct second as [[| b2 | m2 e2 | [| c2 s2] | l2 | o2] |];
      destruct third as [[| b3 | m3 e3 | s3 | l3 | o3] |]; reflexivity.
  - intros Hn. rewrite (webhook_steps env req w raw payload Hb Hv Hp), Ho.
    cbn [negb]. unfold extractLemonUserId.
    fold metaCustomUserId. fold dataCustomUserId. fold dataUserId.
    destruct (readNestedString payload ["meta"; "event_name"]) as [e |];
      [| reflexivity].
    destruct Hn as [-> | ->]; [reflexivity |].
    cbn [JSString.truthy negb]. rewrite orb_true_r. reflexivity.
Qed.

(** Three signed deliveries.  The first has a user id at each location,
    and the first location wins; the second has an empty string at the
    first location, and the second location wins over the third; the
    third has a number at the first location and nothing at the second,
    and the third location is taken. *)
Lemma extractLemonUserId_priority_witness :
  let payload := payloadWithIds "subscription_created" in
  let first := Some (JStr "first") in
  let second := Some (JStr "second") in
  let third := Some (JStr "third") in
  extractLemonUserId (payload first second third) = Some "first"
  /\ extractLemonUserId (payload (Some (JStr "")) second third) = Some "second"
  /\ extractLemonUserId (payload (Some (JNum 7 0)) None third) = Some "third".
Proof.
  intros payload first second third.
  pose (env := Sample.localEnv Sample.configured).
  pose (raw := fun text : string => Crypto.bufferFrom (JSONText.dq text)).
  assert (held : forall (v x : JSON) (a b c : string),
            JS.get v a = Some x ->
            forall (y z : JSON), JS.get x b = Some y -> JS.get y c = Some z ->
            holdsAt v [a; b; c] z).
  { intros v x a b c Ha y z Hb Hc.
    exact (holds_below _ _ _ _ _ Ha
             (holds_below _ _ _ _ _ Hb (holds_below _ _ _ _ _ Hc (holds_here z)))). }
  assert (none : forall (v : JSON) (path : list string),
            readNestedString v path = None \/ readNestedString v path = Some "" ->
            holdsNoId v path).
  { intros v path H s Hs. apply readNestedString_holds in Hs.
    destruct H as [H | H]; rewrite H in Hs; [discriminate | congruence]. }
  split; [| split].
  - refine (proj1 (extractLemonUserId_priority env
                     (Sample.signed "whsec" Sample.threeIds) Sample.fresh
                     (raw Sample.threeIds) (payload first second third)
                     eq_refl _ _ eq_refl) "first" _).
    + vm_compute. reflexivity.
    + vm_compute. reflexivity.
    + split; [| discriminate]. eapply held; reflexivity.
  - refine (proj1 (proj2 (extractLemonUserId_priority env
                     (Sample.signed "whsec" Sample.emptyThenIds) Sample.fresh
                     (raw Sample.emptyThenIds) (payload (Some (JStr "")) second third)
                     eq_refl _ _ eq_refl)) "second" _ _).
    + vm_compute. reflexivity.
    + vm_compute. reflexivity.
    + apply none. right. reflexivity.
    + split; [| discriminate].
      eapply holds_below; [reflexivity |]. eapply held; reflexivity.
  - refine (proj1 (proj2 (proj2 (extractLemonUserId_priority env
                     (Sample.signed "whsec" Sample.numberThenThird) Sample.fresh
                     (raw Sample.numberThenThird) (payload (Some (JNum 7 0)) None third)
                     eq_refl _ _ eq_refl))) "third" _ _ _).
    + vm_compute. reflexivity.
    + vm_compute. reflexivity.
    + apply none. left. reflexivity.
    + apply none. left. reflexivity.
    + eapply held; reflexivity.
Defined.

(** C6, counterexample.  The first location holds a string, the empty
    one; the user id the backend extracts is the third location's, and the
    delivery sets that user's billing status instead of being ignored. *)
Lemma extractLemonUserId_skips_empty_string :
  exists payload : JSON,
    JSONText.parse (JSONText.dq Sample.emptyFirstLocation) = Some payload
    /\ readNestedString payload ["meta"; "custom_data"; "user_id"] = Some ""
    /\ firstHeldString payload = Some ""
    /\ extractLemonUserId payload = Some "u2"
    /\ extractLemonUserId payload <> firstHeldString payload
    /\ fst (lemonWebhookHandler (Sample.localEnv Sample.configured)
              (Sample.signed "whsec" Sample.emptyFirstLocation) Sample.fresh)
       = Return (mkResponse 200 (WebhookBody false))
    /\ billingStatus
         <$> localUsers (snd (lemonWebhookHandler (Sample.localEnv Sample.configured)
                                (Sample.signed "whsec" Sample.emptyFirstLocation)
                                Sample.fresh)) !! "u2"
       = Some active.
Proof.
  eexists. split; [vm_compute; reflexivity |].
  repeat split; try (vm_compute; reflexivity).
  vm_compute. discriminate.
Qed.

(** C9 (as amended).  A verified webhook whose body parses to a JSON
    string, number, boolean or [null] is answered 400 with the format
    message; one whose body parses to an array passes the object test, has
    no event name, and is answered 200 as ignored.  Neither changes the
    world. *)
Theorem webhook_non_object_payload (env : Env) (req : WebhookRequest) (w : World)
    (raw : list Z) (payload : JSON) :
  rawBody req = Some raw ->
  verifyLemonSignature (processEnv env) raw
    (if present (xSignature req) then xSignature req else None) = Return true ->
  JSONText.parse (Crypto.bufferToString raw) = Some payload ->
  (isObject payload = false ->
   lemonWebhookHandler env req w =
     (Return (mkResponse 400 (MessageBody "Webhook payload format is invalid.")), w))
  /\ (forall items : list JSON,
        payload = JArr items ->
        lemonWebhookHandler env req w = (Return (mkResponse 200 (WebhookBody true)), w)).
Proof.
  intros Hb Hv Hp. rewrite (webhook_steps env req w raw payload Hb Hv Hp). split.
  - intros ->. reflexivity.
  - intros items ->. cbn [isObject negb readNestedString].
    rewrite array_has_no_word by reflexivity. reflexivity.
Qed.

(** A signed delivery whose body is the JSON number 42. *)
Lemma webhook_non_object_payload_witness :
  lemonWebhookHandler (Sample.localEnv Sample.configured)
    (Sample.signed "whsec" "42") Sample.exhausted
  = (Return (mkResponse 400 (MessageBody "Webhook payload format is invalid.")),
     Sample.exhausted).
Proof.
  refine (proj1 (webhook_non_object_payload (Sample.localEnv Sample.configured)
                   (Sample.signed "whsec" "42") Sample.exhausted
                   (Crypto.bufferFrom "42") (JNum 42 0) _ _ _) _);
    vm_compute; reflexivity.
Defined.

(** C9, counterexample.  The body [[]] is valid JSON and not a JSON
    object; the signed delivery is answered 200, not 400. *)
Lemma webhook_array_payload_accepted :
  JSONText.parse "[]" = Some (JArr [])
  /\ lemonWebhookHandler (Sample.localEnv Sample.configured)
       (Sample.signed "whsec" "[]") Sample.exhausted
     = (Return (mkResponse 200 (WebhookBody true)), Sample.exhausted)
  /\ status (mkResponse 200 (WebhookBody true)) <> 400.
Proof.
  repeat split; try (vm_compute; reflexivity). discriminate.
Qed.

(** *** The store: equations of the local backend *)

Lemma getOrCreateLocal_eq (env : Env) (u : string) (w : World) :
  getOrCreateLocalUsageRecord env u w =
    match localUsers w !! u with
    | Some existing => (Return existing, w)
    | None =>
        let created := defaultUsageRecord u (isoTime env (clockReads w)) in
        (Return created,
         mkWorld (FileStore (<[u := created]> (localUsers w))) (app_usage w)
                 (supabaseRequests w) (S (clockReads w)) (reveCalls w))
    end.
Proof.
  unfold getOrCreateLocalUsageRecord, localUsers. async.
  destruct w as [f t n c calls]; cbn [usageFile app_usage supabaseRequests clockReads reveCalls].
  destruct f as [| | users]; try (rewrite lookup_empty; reflexivity).
  destruct (users !! u); reflexivity.
Qed.

Lemma updateLocal_eq (env : Env) (u : string) (updater : UsageRecord -> UsageRecord)
    (w : World) :
  updateLocalUsageRecord env u updater w =
    match localUsers w !! u with
    | Some current =>
        let next := stampUpdatedAt (isoTime env (clockReads w)) (updater current) in
        (Return next,
         mkWorld (FileStore (<[u := next]> (localUsers w))) (app_usage w)
                 (supabaseRequests w) (S (clockReads w)) (reveCalls w))
    | None =>
        let current := defaultUsageRecord u (isoTime env (clockReads w)) in
        let next := stampUpdatedAt (isoTime env (S (clockReads w))) (updater current) in
        (Return next,
         mkWorld (FileStore (<[u := next]> (localUsers w))) (app_usage w)
                 (supabaseRequests w) (S (S (clockReads w))) (reveCalls w))
    end.
Proof.
  unfold updateLocalUsageRecord, localUsers. async.
  destruct w as [f t n c calls]; cbn [usageFile app_usage supabaseRequests clockReads reveCalls].
  destruct f as [| | users]; try (rewrite lookup_empty; reflexivity).
  destruct (users !! u); reflexivity.
Qed.

(** *** The store: equations of the remote backend *)

Lemma getOrCreateSupabase_eq (env : Env) (u : string) (w : World) :
  supabase env = true ->
  getOrCreateSupabaseUsageRecord env u w =
    let n := supabaseRequests w in
    if supabaseError env n
    then (Throw PostgrestError,
          mkWorld (usageFile w) (app_usage w) (S n) (clockReads w) (reveCalls w))
    else
      match app_usage w !! u with
      | Some c =>
          (Return (Some (mapDbUsageRowToUsageRecord (rowOf u c))),
           mkWorld (usageFile w) (app_usage w) (S n) (clockReads w) (reveCalls w))
      | None =>
          let now := isoTime env (clockReads w) in
          if supabaseError env (S n)
          then (Throw PostgrestError,
                mkWorld (usageFile w) (app_usage w) (S (S n)) (S (clockReads w))
                        (reveCalls w))
          else (Return (Some (defaultUsageRecord u now)),
                mkWorld (usageFile w)
                        (<[u := columnsOf (newDbUsageRow u now)]> (app_usage w))
                        (S (S n)) (S (clockReads w)) (reveCalls w))
      end.
Proof.
  intros Hs. unfold getOrCreateSupabaseUsageRecord. rewrite Hs. cbn [negb].
  unfold selectUsageRow, insertUsageRow. async.
  destruct w as [f t n c calls]; cbn [usageFile app_usage supabaseRequests clockReads reveCalls].
  destruct (supabaseError env n); [reflexivity |].
  destruct (t !! u) as [cols |] eqn:E; cbn [fmap option_fmap option_map]; [reflexivity |].
  cbn [usageFile app_usage supabaseRequests clockReads reveCalls].
  destruct (supabaseError env (S n)); [reflexivity |].
  cbn [newDbUsageRow user_id]. rewrite E. reflexivity.
Qed.

Lemma getUsageRecord_local (env : Env) (u : string) (w : World) :
  supabase env = false ->
  getUsageRecord env u w = getOrCreateLocalUsageRecord env u w.
Proof. intros Hs. unfold getUsageRecord. rewrite Hs. reflexivity. Qed.

Lemma getUsageRecord_remote (env : Env) (u : string) (w : World) :
  supabase env = true ->
  getUsageRecord env u w =
    match getOrCreateSupabaseUsageRecord env u w with
    | (Return (Some record), w') => (Return record, w')
    | (Return None, w') | (Throw _, w') => getOrCreateLocalUsageRecord env u w'
    end.
Proof.
  intros Hs. unfold getUsageRecord. rewrite Hs. cbn [negb].
  unfold bind at 1. unfold tryCatch.
  destruct (getOrCreateSupabaseUsageRecord env u w) as [[[r |] | e] w']; reflexivity.
Qed.

Lemma updateUsageRecord_local (env : Env) (u : string)
    (updater : UsageRecord -> UsageRecord) (w : World) :
  supabase env = false ->
  updateUsageRecord env u updater w = updateLocalUsageRecord env u updater w.
Proof. intros Hs. unfold updateUsageRecord. rewrite Hs. reflexivity. Qed.

Lemma updateUsageRecord_remote (env : Env) (u : string)
    (updater : UsageRecord -> UsageRecord) (w : World) :
  supabase env = true ->
  updateUsageRecord env u updater w =
    match getUsageRecord env u w with
    | (Return current, w1) =>
        let next := stampUpdatedAt (isoTime env (clockReads w1)) (updater current) in
        let sent t :=
          mkWorld (usageFile w1) t (S (supabaseRequests w1)) (S (clockReads w1))
                  (reveCalls w1) in
        if supabaseError env (supabaseRequests w1)
        then updateLocalUsageRecord env u updater (sent (app_usage w1))
        else (Return (mapDbUsageRowToUsageRecord (dbUsageRowOf u next)),
              sent (<[u := columnsOf (dbUsageRowOf u next)]> (app_usage w1)))
    | (Throw e, w1) => updateLocalUsageRecord env u updater w1
    end.
Proof.
  intros Hs. unfold updateUsageRecord. rewrite Hs. cbn [negb].
  unfold tryCatch. unfold bind at 1.
  destruct (getUsageRecord env u w) as [[current | e] w1]; [| reflexivity].
  unfold upsertUsageRow. async.
  destruct w1 as [f t n c calls]; cbn [usageFile app_usage supabaseRequests clockReads reveCalls].
  destruct (supabaseError env n); reflexivity.
Qed.

(** *** Reads leave the counters alone *)

Lemma quiet_refl (w : World) : quiet w w.
Proof. repeat split. Qed.

Lemma quiet_trans (w1 w2 w3 : World) : quiet w1 w2 -> quiet w2 w3 -> quiet w1 w3.
Proof.
  intros (A1 & B1 & C1) (A2 & B2 & C2). repeat split.
  - congruence.
  - intros u. rewrite B2. apply B1.
  - intros u. rewrite C2. apply C1.
Qed.

Lemma quiet_counters (w : World) (n c : nat) :
  quiet w (mkWorld (usageFile w) (app_usage w) n c (reveCalls w)).
Proof. repeat split. Qed.

Lemma quiet_local_default (w : World) (u now : string) (n c : nat) :
  localUsers w !! u = None ->
  quiet w (mkWorld (FileStore (<[u := defaultUsageRecord u now]> (localUsers w)))
                   (app_usage w) n c (reveCalls w)).
Proof.
  intros H. repeat split. intros u'. unfold localCount.
  cbn [localUsers usageFile].
  destruct (decide (u = u')) as [<- | Hne].
  - rewrite lookup_insert_eq, H. reflexivity.
  - rewrite lookup_insert_ne by exact Hne. reflexivity.
Qed.

Lemma quiet_remote_default (w : World) (u now : string) (n c : nat) :
  app_usage w !! u = None ->
  quiet w (mkWorld (usageFile w)
                   (<[u := columnsOf (newDbUsageRow u now)]> (app_usage w))
                   n c (reveCalls w)).
Proof.
  intros H. repeat split. intros u'. unfold remoteCount. cbn [app_usage].
  destruct (decide (u = u')) as [<- | Hne].
  - rewrite lookup_insert_eq, H. reflexivity.
  - rewrite lookup_insert_ne by exact Hne. reflexivity.
Qed.

Lemma getOrCreateLocal_quiet (env : Env) (u : string) (w : World) :
  exists r w', getOrCreateLocalUsageRecord env u w = (Return r, w') /\ quiet w w'.
Proof.
  rewrite getOrCreateLocal_eq.
  destruct (localUsers w !! u) as [r |] eqn:E.
  - exists r, w. split; [reflexivity | apply quiet_refl].
  - eexists _, _. split; [reflexivity |]. apply quiet_local_default, E.
Qed.

Lemma getOrCreateSupabase_quiet (env : Env) (u : string) (w : World) :
  exists c w', getOrCreateSupabaseUsageRecord env u w = (c, w') /\ quiet w w'.
Proof.
  destruct (supabase env) eqn:Hs.
  - rewrite (getOrCreateSupabase_eq env u w Hs). cbv zeta.
    destruct (supabaseError env (supabaseRequests w)).
    { eexists _, _. split; [reflexivity | apply quiet_counters]. }
    destruct (app_usage w !! u) as [cols |] eqn:E.
    { eexists _, _. split; [reflexivity | apply quiet_counters]. }
    destruct (supabaseError env (S (supabaseRequests w))).
    { eexists _, _. split; [reflexivity | apply quiet_counters]. }
    eexists _, _. split; [reflexivity |]. apply quiet_remote_default, E.
  - unfold getOrCreateSupabaseUsageRecord. rewrite Hs.
    eexists _, _. split; [reflexivity | apply quiet_refl].
Qed.

(** A read never throws, whatever the remote store does, and is quiet. *)
Lemma getUsageRecord_quiet (env : Env) (u : string) (w : World) :
  exists r w', getUsageRecord env u w = (Return r, w') /\ quiet w w'.
Proof.
  destruct (supabase env) eqn:Hs.
  - rewrite (getUsageRecord_remote env u w Hs).
    destruct (getOrCreateSupabase_quiet env u w) as (c & w1 & -> & Q1).
    destruct c as [[r |] | e].
    + exists r, w1. split; [reflexivity | exact Q1].
    + destruct (getOrCreateLocal_quiet env u w1) as (r & w2 & -> & Q2).
      exists r, w2. split; [reflexivity | exact (quiet_trans _ _ _ Q1 Q2)].
    + destruct (getOrCreateLocal_quiet env u w1) as (r & w2 & -> & Q2).
      exists r, w2. split; [reflexivity | exact (quiet_trans _ _ _ Q1 Q2)].
  - rewrite (getUsageRecord_local env u w Hs). apply getOrCreateLocal_quiet.
Qed.

Lemma getUsageView_quiet (env : Env) (u : string) (w : World) :
  exists usage w', getUsageView env u w = (Return usage, w') /\ quiet w w'.
Proof.
  unfold getUsageView, bind.
  destruct (getUsageRecord_quiet env u w) as (r & w' & -> & Q).
  exists (buildUsageView r), w'. split; [reflexivity | exact Q].
Qed.

(** *** The store under each backend mode *)

Lemma getUsageRecord_mode (env : Env) (b : Backend) (u : string) (w : World) :
  backendMode env b ->
  exists w',
    getUsageRecord env u w = (Return (currentOrDefault env b w u), w')
    /\ storedRecord b w' u = Some (currentOrDefault env b w u)
    /\ (forall u', u' <> u -> storedRecord b w' u' = storedRecord b w u')
    /\ reveCalls w' = reveCalls w
    /\ (clockReads w <= clockReads w')%nat.
Proof.
  intros Hm. unfold currentOrDefault. destruct b; cbn [backendMode storedRecord] in *.
  - (* local only *)
    rewrite (getUsageRecord_local env u w Hm), getOrCreateLocal_eq.
    destruct (localUsers w !! u) as [r |] eqn:E.
    + exists w. repeat split; auto.
    + eexists. split; [reflexivity |]. world.
      repeat split; [apply lookup_insert_eq | | lia].
      intros u' Hne. apply lookup_insert_ne. congruence.
  - (* remote, healthy *)
    destruct Hm as [Hs He].
    rewrite (getUsageRecord_remote env u w Hs), (getOrCreateSupabase_eq env u w Hs).
    cbv zeta. rewrite He. unfold remoteRecord.
    destruct (app_usage w !! u) as [cols |] eqn:E; cbn [fmap option_fmap option_map].
    + eexists. split; [reflexivity |]. world. rewrite E.
      repeat split; auto.
    + rewrite He. eexists. split; [reflexivity |]. world.
      repeat split; [rewrite lookup_insert_eq; reflexivity | | lia].
      intros u' Hne. rewrite lookup_insert_ne by congruence. reflexivity.
  - (* remote, failing *)
    destruct Hm as [Hs He].
    rewrite (getUsageRecord_remote env u w Hs), (getOrCreateSupabase_eq env u w Hs).
    cbv zeta. rewrite He. rewrite getOrCreateLocal_eq. world.
    destruct (localUsers w !! u) as [r |] eqn:E.
    + eexists. split; [reflexivity |]. world.
      repeat split; auto.
    + eexists. split; [reflexivity |]. world.
      repeat split; [apply lookup_insert_eq | | lia].
      intros u' Hne. apply lookup_insert_ne. congruence.
Qed.

Lemma updateUsageRecord_mode (env : Env) (b : Backend) (u : string)
    (updater : UsageRecord -> UsageRecord) (w : World) :
  backendMode env b ->
  exists (w' : World) (k : nat),
    let next := stampUpdatedAt (isoTime env k) (updater (currentOrDefault env b w u)) in
    updateUsageRecord env u updater w = (Return (returned b u next), w')
    /\ storedRecord b w' u = Some (returned b u next)
    /\ (forall u', u' <> u -> storedRecord b w' u' = storedRecord b w u')
    /\ reveCalls w' = reveCalls w
    /\ (clockReads w <= k)%nat
    /\ clockReads w' = S k.
Proof.
  intros Hm. destruct b.
  - (* local only *)
    cbn [backendMode] in Hm. unfold currentOrDefault. cbn [storedRecord returned].
    rewrite (updateUsageRecord_local env u updater w Hm), updateLocal_eq.
    destruct (localUsers w !! u) as [r |] eqn:E; cbv zeta.
    + eexists _, _. split; [reflexivity |]. world.
      repeat split; [apply lookup_insert_eq | | lia].
      intros u' Hne. apply lookup_insert_ne. congruence.
    + eexists _, _. split; [reflexivity |]. world.
      repeat split; [apply lookup_insert_eq | | lia].
      intros u' Hne. apply lookup_insert_ne. congruence.
  - (* remote, healthy *)
    pose proof Hm as [Hs He].
    destruct (getUsageRecord_mode env RemoteHealthy u w Hm) as (w1 & Hg & _ & Ho & Hc & Hk).
    rewrite (updateUsageRecord_remote env u updater w Hs), Hg. cbv zeta. rewrite He.
    eexists _, _. split; [reflexivity |]. cbn [storedRecord returned]. unfold remoteRecord.
    world. repeat split; [rewrite lookup_insert_eq; reflexivity | | exact Hc | exact Hk].
    intros u' Hne. rewrite lookup_insert_ne by congruence.
    apply (Ho u' Hne).
  - (* remote, failing *)
    pose proof Hm as [Hs He].
    destruct (getUsageRecord_mode env RemoteFailing u w Hm) as (w1 & Hg & Hst & Ho & Hc & Hk).
    rewrite (updateUsageRecord_remote env u updater w Hs), Hg. cbv zeta. rewrite He.
    rewrite updateLocal_eq. cbn [storedRecord returned] in *. world.
    rewrite Hst. cbv zeta.
    eexists _, _. split; [reflexivity |]. world.
    repeat split; [apply lookup_insert_eq | | exact Hc | lia].
    intros u' Hne. rewrite lookup_insert_ne by congruence. apply (Ho u' Hne).
Qed.




(** *** The store under any behaviour of the remote backend *)

(** A read returns a record whose count is the one a backend holds. *)
Lemma getOrCreateLocal_reads (env : Env) (u : string) (w : World) :
  exists r w', getOrCreateLocalUsageRecord env u w = (Return r, w')
               /\ quiet w w' /\ generatedCount r = localCount w u.
Proof.
  rewrite getOrCreateLocal_eq. unfold localCount.
  destruct (localUsers w !! u) as [r |] eqn:E.
  - exists r, w. repeat split.
  - eexists _, _. split; [reflexivity |]. split; [| reflexivity].
    apply quiet_local_default, E.
Qed.

Lemma getUsageRecord_reads (env : Env) (u : string) (w : World) :
  exists r w', getUsageRecord env u w = (Return r, w')
               /\ quiet w w'
               /\ (generatedCount r = localCount w u \/ generatedCount r = remoteCount w u).
Proof.
  destruct (supabase env) eqn:Hs.
  2:{ rewrite (getUsageRecord_local env u w Hs).
      destruct (getOrCreateLocal_reads env u w) as (r & w' & H & Q & C).
      exists r, w'. auto. }
  rewrite (getUsageRecord_remote env u w Hs), (getOrCreateSupabase_eq env u w Hs).
  cbv zeta.
  assert (L : forall n c,
            exists r w', getOrCreateLocalUsageRecord env u
                           (mkWorld (usageFile w) (app_usage w) n c (reveCalls w))
                         = (Return r, w')
                         /\ quiet w w'
                         /\ (generatedCount r = localCount w u
                             \/ generatedCount r = remoteCount w u)).
  { intros n c.
    destruct (getOrCreateLocal_reads env u
                (mkWorld (usageFile w) (app_usage w) n c (reveCalls w)))
      as (r & w' & H & Q & C).
    exists r, w'. split; [exact H |]. split; [| left; exact C].
    exact (quiet_trans _ _ _ (quiet_counters w n c) Q). }
  destruct (supabaseError env (supabaseRequests w)); [apply L |].
  destruct (app_usage w !! u) as [cols |] eqn:E.
  - eexists _, _. split; [reflexivity |]. split; [apply quiet_counters |].
    right. unfold remoteCount. rewrite E. reflexivity.
  - destruct (supabaseError env (S (supabaseRequests w))); [apply L |].
    eexists _, _. split; [reflexivity |]. split; [apply quiet_remote_default, E |].
    right. unfold remoteCount. rewrite E. reflexivity.
Qed.

Lemma updateLocal_lands (env : Env) (u : string) (updater : UsageRecord -> UsageRecord)
    (w : World) :
  exists current k w',
    let result := stampUpdatedAt (isoTime env k) (updater current) in
    updateLocalUsageRecord env u updater w = (Return result, w')
    /\ reveCalls w' = reveCalls w
    /\ clockReads w' = S k
    /\ generatedCount current = localCount w u
    /\ landsLocally u w w' result.
Proof.
  rewrite updateLocal_eq. unfold landsLocally, localCount.
  destruct (localUsers w !! u) as [r |] eqn:E; cbv zeta.
  - exists r, (clockReads w). eexists. split; [reflexivity |]. world.
    repeat split; [apply lookup_insert_eq |].
    intros u' Hne. rewrite lookup_insert_ne by congruence. reflexivity.
  - exists (defaultUsageRecord u (isoTime env (clockReads w))), (S (clockReads w)).
    eexists. split; [reflexivity |]. world.
    repeat split; [apply lookup_insert_eq |].
    intros u' Hne. rewrite lookup_insert_ne by congruence. reflexivity.
Qed.

(** An update never throws; it stamps the mutator's result on a record
    read from one of the backends and lands in exactly one of them. *)
Lemma updateUsageRecord_any (env : Env) (u : string)
    (updater : UsageRecord -> UsageRecord) (w : World) :
  exists (current : UsageRecord) (k : nat) (result : UsageRecord) (w' : World),
    updateUsageRecord env u updater w = (Return result, w')
    /\ reveCalls w' = reveCalls w
    /\ clockReads w' = S k
    /\ updatedAt result = isoTime env k
    /\ generatedCount result = generatedCount (updater current)
    /\ billingStatus result = billingStatus (updater current)
    /\ lemonCustomerId result = lemonCustomerId (updater current)
    /\ lemonSubscriptionId result = lemonSubscriptionId (updater current)
    /\ ((generatedCount current = localCount w u /\ landsLocally u w w' result)
        \/ ((generatedCount current = localCount w u
             \/ generatedCount current = remoteCount w u)
            /\ landsRemotely u w w' result)).
Proof.
  assert (L : forall w0, quiet w w0 ->
            exists current k result w',
              updateLocalUsageRecord env u updater w0 = (Return result, w')
              /\ reveCalls w' = reveCalls w
              /\ clockReads w' = S k
              /\ updatedAt result = isoTime env k
              /\ generatedCount result = generatedCount (updater current)
              /\ billingStatus result = billingStatus (updater current)
              /\ lemonCustomerId result = lemonCustomerId (updater current)
              /\ lemonSubscriptionId result = lemonSubscriptionId (updater current)
              /\ ((generatedCount current = localCount w u /\ landsLocally u w w' result)
                  \/ ((generatedCount current = localCount w u
                       \/ generatedCount current = remoteCount w u)
                      /\ landsRemotely u w w' result))).
  { intros w0 (Q1 & Q2 & Q3).
    destruct (updateLocal_lands env u updater w0)
      as (cur & k & w' & H & C & K & G & (A1 & A2 & A3)).
    cbv zeta in *. exists cur, k. eexists _, w'.
    split; [exact H |]. split; [congruence |]. split; [exact K |].
    repeat (split; [reflexivity |]).
    left. split; [rewrite G; apply Q2 |]. repeat split.
    - exact A1.
    - intros u' Hne. rewrite (A2 u' Hne). apply Q2.
    - intros u'. rewrite A3. apply Q3. }
  destruct (supabase env) eqn:Hs.
  2:{ rewrite (updateUsageRecord_local env u updater w Hs). apply L, quiet_refl. }
  rewrite (updateUsageRecord_remote env u updater w Hs).
  destruct (getUsageRecord_reads env u w) as (cur & w1 & -> & Q & G). cbv zeta.
  destruct (supabaseError env (supabaseRequests w1)).
  { apply L. exact (quiet_trans _ _ _ Q (quiet_counters w1 _ _)). }
  destruct Q as (Q1 & Q2 & Q3).
  exists cur, (clockReads w1). eexists _, _. split; [reflexivity |]. world.
  split; [exact Q1 |]. repeat (split; [reflexivity |]).
  right. split; [exact G |]. unfold landsRemotely, remoteRecord, remoteCount. world.
  repeat split.
  - rewrite lookup_insert_eq. reflexivity.
  - intros u' Hne. cbn [dbUsageRowOf user_id]. rewrite lookup_insert_ne by congruence.
    apply (Q3 u').
  - intros u'. unfold localCount. world. apply Q2.
Qed.







(** *** Fallback to the local file *)

(** On a user id that names no inherited property, the lookup JavaScript
    performs is the lookup among the keys of the file. *)
Lemma usersAt_agrees (store : gmap string UsageRecord) (u : string) :
  Lookup.namesInherited u = false ->
  Lookup.usersAt store u = Lookup.IsRecord <$> store !! u.
Proof.
  intros H. unfold Lookup.usersAt. rewrite H. destruct (store !! u); reflexivity.
Qed.

Lemma getOrCreateLocal_agrees (env : Env) (u : string) (w : World) :
  Lookup.namesInherited u = false ->
  Lookup.getOrCreateLocalUsageRecord env u w
  = match getOrCreateLocalUsageRecord env u w with
    | (Return r, w') => (Return (Lookup.IsRecord r), w')
    | (Throw e, w') => (Throw e, w')
    end.
Proof.
  intros H. unfold Lookup.getOrCreateLocalUsageRecord, getOrCreateLocalUsageRecord.
  async.
  destruct w as [f t n c calls];
    cbn [usageFile app_usage supabaseRequests clockReads reveCalls].
  destruct f as [| | users]; rewrite (usersAt_agrees _ u H);
    try (rewrite lookup_empty; reflexivity).
  destruct (users !! u); reflexivity.
Qed.

Lemma getUsageRecord_agrees (env : Env) (u : string) (w : World) :
  Lookup.namesInherited u = false ->
  Lookup.getUsageRecord env u w
  = match getUsageRecord env u w with
    | (Return r, w') => (Return (Lookup.IsRecord r), w')
    | (Throw e, w') => (Throw e, w')
    end.
Proof.
  intros H. unfold Lookup.getUsageRecord, getUsageRecord.
  destruct (negb (supabase env)); [apply getOrCreateLocal_agrees, H |].
  unfold bind.
  destruct (tryCatch (getOrCreateSupabaseUsageRecord env u) (fun _ => ret None) w)
    as [[[r |] | e] w0]; [reflexivity | | reflexivity].
  apply getOrCreateLocal_agrees, H.
Qed.

(** On a user id that names an inherited property and is no key of the
    file, the local read returns the inherited value and writes nothing. *)
Lemma getOrCreateLocal_inherited (env : Env) (u : string) (w : World) :
  Lookup.namesInherited u = true ->
  localUsers w !! u = None ->
  exists w', Lookup.getOrCreateLocalUsageRecord env u w
             = (Return (Lookup.IsInherited u), w')
             /\ localUsers w' = localUsers w
             /\ clockReads w' = clockReads w.
Proof.
  intros H E. unfold Lookup.getOrCreateLocalUsageRecord, localUsers in *. async.
  destruct w as [f t n c calls];
    cbn [usageFile app_usage supabaseRequests clockReads reveCalls] in *.
  unfold Lookup.usersAt.
  destruct f as [| | users]; try (rewrite lookup_empty, H; eexists; repeat split).
  rewrite E, H. eexists. repeat split.
Qed.

(** C7, evaluated where the code leaves the claim.  Every request to the
    remote store fails and the user id is ["constructor"], a name under
    which every object inherits a function.  The lookup in the usage file
    finds that function, [getUsageRecord] returns it as the record, and the
    file holds no record for the user afterwards: no default record was
    created or persisted.  For the user id ["u1"] the same read creates
    the default record, persists it and returns it. *)
Lemma fallback_returns_inherited_value :
  let env := Sample.remoteEnv Sample.configured (fun _ => true) in
  Lookup.namesInherited "constructor" = true
  /\ (exists w',
        Lookup.getUsageRecord env "constructor" Sample.fresh
        = (Return (Lookup.IsInherited "constructor"), w')
        /\ localUsers w' !! "constructor" = None)
  /\ (exists w',
        Lookup.getUsageRecord env "u1" Sample.fresh
        = (Return (Lookup.IsRecord (defaultUsageRecord "u1" "0")), w')
        /\ localUsers w' !! "u1" = Some (defaultUsageRecord "u1" "0")).
Proof.
  intros env. split; [reflexivity |].
  split; eexists; (split; [vm_compute; reflexivity | reflexivity]).
Qed.

(** When every request to the remote store fails, and the user id names
    no inherited property, [getUsageRecord] and [updateUsageRecord] still
    return: the read returns the record the usage file holds for the
    user, or the default record (generatedCount 0, billingStatus free),
    and the file holds it afterwards; the update returns the mutator's
    result on that record, stamped, and the file holds it afterwards.
    Neither throws. *)
Theorem fallback_transparency (env : Env) (u : string)
    (updater : UsageRecord -> UsageRecord) (w : World) :
  Lookup.namesInherited u = false ->
  (forall n, supabaseError env n = true) ->
  let current :=
    match localUsers w !! u with
    | Some existing => existing
    | None => defaultUsageRecord u (isoTime env (clockReads w))
    end in
  (exists w', Lookup.getUsageRecord env u w = (Return (Lookup.IsRecord current), w')
              /\ getUsageRecord env u w = (Return current, w')
              /\ localUsers w' !! u = Some current)
  /\ (exists w' k,
        updateUsageRecord env u updater w
          = (Return (stampUpdatedAt (isoTime env k) (updater current)), w')
        /\ localUsers w' !! u = Some (stampUpdatedAt (isoTime env k) (updater current)))
  /\ (localUsers w !! u = None ->
      userId current = u /\ generatedCount current = 0 /\ billingStatus current = free).
Proof.
  intros Hi He current.
  assert (Hm : exists b, backendMode env b
                         /\ (forall w0 u0, storedRecord b w0 u0 = localUsers w0 !! u0)
                         /\ (forall u0 r, returned b u0 r = r)).
  { destruct (supabase env) eqn:Hs.
    - exists RemoteFailing. repeat split; auto.
    - exists LocalOnly. repeat split; auto. }
  destruct Hm as (b & Hm & Hst & Hret).
  assert (Hc : currentOrDefault env b w u = current).
  { unfold currentOrDefault. rewrite Hst. reflexivity. }
  split; [| split].
  - destruct (getUsageRecord_mode env b u w Hm) as (w' & Hg & Hs & _).
    exists w'. rewrite Hc, Hst in *.
    split; [rewrite (getUsageRecord_agrees env u w Hi), Hg; reflexivity |].
    split; assumption.
  - destruct (updateUsageRecord_mode env b u updater w Hm) as (w' & k & Hu & Hs & _).
    cbv zeta in Hu, Hs. exists w', k. rewrite Hc, Hret, Hst in *. split; assumption.
  - intros H. subst current. rewrite H. repeat split.
Qed.

(** A configured Supabase client whose every request fails, an absent
    usage file, a first generation recorded. *)
Lemma fallback_transparency_witness :
  (exists w', Lookup.getUsageRecord (Sample.remoteEnv Sample.configured (fun _ => true))
                "u1" Sample.fresh
              = (Return (Lookup.IsRecord (defaultUsageRecord "u1" "0")), w')
              /\ localUsers w' !! "u1" = Some (defaultUsageRecord "u1" "0"))
  /\ (exists w' k,
        updateUsageRecord (Sample.remoteEnv Sample.configured (fun _ => true)) "u1"
          incrementGenerated Sample.fresh
        = (Return (stampUpdatedAt (Sample.ticks k)
                     (incrementGenerated (defaultUsageRecord "u1" "0"))), w')
        /\ localUsers w' !! "u1"
           = Some (stampUpdatedAt (Sample.ticks k)
                     (incrementGenerated (defaultUsageRecord "u1" "0")))).
Proof.
  pose proof (fallback_transparency (Sample.remoteEnv Sample.configured (fun _ => true))
                "u1" incrementGenerated Sample.fresh eq_refl (fun _ => eq_refl))
    as ((w' & A1 & _ & A2) & B & _).
  split; [exists w'; split; [exact A1 | exact A2] | exact B].
Defined.

(** *** Billing events *)

Lemma setHas_cases (set : list string) (name : string) :
  setHas set name = true -> In name set.
Proof.
  unfold setHas. intros H. apply existsb_exists in H as (x & Hin & E).
  apply String.eqb_eq in E. subst x. exact Hin.
Qed.

Lemma eventTarget_cases (eventName : string) (st : BillingStatus) :
  eventTarget eventName = Some st ->
  JSString.truthy eventName = true
  /\ ((setHas activationEvents eventName = true
       /\ setHas deactivationEvents eventName = false /\ st = active)
      \/ (setHas activationEvents eventName = false
          /\ setHas deactivationEvents eventName = true /\ st = free)).
Proof.
  unfold eventTarget.
  destruct (setHas deactivationEvents eventName) eqn:D.
  - intros E. injection E as <-. apply setHas_cases in D.
    cbn [deactivationEvents In] in D.
    destruct D as [<- | [<- | [<- | [<- | []]]]]; split; try reflexivity;
      right; repeat split; reflexivity.
  - destruct (setHas activationEvents eventName) eqn:A; [| discriminate].
    intros E. injection E as <-. apply setHas_cases in A.
    cbn [activationEvents In] in A.
    destruct A as [<- | [<- | [<- | [<- | [<- | []]]]]]; split; try reflexivity;
      left; repeat split; reflexivity.
Qed.

(** A verified delivery of a recognized event for a user sets the status
    once and answers 200. *)
Lemma webhook_recognized (env : Env) (req : WebhookRequest) (w : World)
    (raw : list Z) (payload : JSON) (eventName u : string) (st : BillingStatus) :
  rawBody req = Some raw ->
  verifyLemonSignature (processEnv env) raw
    (if present (xSignature req) then xSignature req else None) = Return true ->
  JSONText.parse (Crypto.bufferToString raw) = Some payload ->
  readNestedString payload ["meta"; "event_name"] = Some eventName ->
  extractLemonUserId payload = Some u ->
  JSString.truthy u = true ->
  eventTarget eventName = Some st ->
  lemonWebhookHandler env req w =
    match setBillingStatus env u st w with
    | (Return _, w') => (Return (mkResponse 200 (WebhookBody false)), w')
    | (Throw e, w') => (Throw e, w')
    end.
Proof.
  intros Hb Hv Hp He Hu Ht Hst.
  rewrite (webhook_steps env req w raw payload Hb Hv Hp).
  assert (Ho : isObject payload = true).
  { destruct payload; try discriminate He; reflexivity. }
  rewrite Ho, He, Hu. cbn [negb].
  apply eventTarget_cases in Hst as [Hn [(A & D & ->) | (A & D & ->)]];
    rewrite Hn, Ht, A, D; cbn [negb orb]; unfold bind, ret;
    destruct (setBillingStatus env u _ w) as [[r | e] w']; reflexivity.
Qed.





(** *** What an update writes *)




(** *** Generation requests *)

Lemma createLemonCheckoutUrl_world (env : Env) (u : string) (email : option string)
    (w : World) :
  snd (createLemonCheckoutUrl env u email w) = w.
Proof.
  unfold createLemonCheckoutUrl.
  destruct (getLemonApiKey (processEnv env)), (getLemonStoreId (processEnv env)),
    (getLemonVariantId (processEnv env)); try reflexivity.
  destruct (lemonReply env) as [m | st | [[| c url] |]]; reflexivity.
Qed.

Lemma optimizePrompt_returns (env : Env) (p : string) (wf : Workflow)
    (op : option Operation) (w : World) :
  exists pr, optimizePromptWithLongcat env p wf op w = (Return pr, w).
Proof.
  unfold optimizePromptWithLongcat.
  destruct (getLongcatKey (processEnv env)); [| eexists; reflexivity].
  destruct (negb (JSString.truthy (clampPrompt p))); [eexists; reflexivity |].
  destruct (longcatReply env); eexists; reflexivity.
Qed.

Lemma callReve_fails (env : Env) (call : ReveCall) (w : World) :
  providerFails env ->
  exists e w', callReve env call w = (Throw e, w')
               /\ (w' = w \/ w' = sentTo call w).
Proof.
  unfold providerFails, callReve. async.
  destruct (getReveKey (processEnv env)) as [key | e].
  - destruct (reveReply env) as [m | m c | data]; intros H; [| | contradiction];
      eexists _, _; (split; [reflexivity | right; reflexivity]).
  - intros _. eexists _, _. split; [reflexivity | left; reflexivity].
Qed.

Lemma callReve_returns (env : Env) (call : ReveCall) (w : World) (data : ReveApiResponse) :
  providerReturns env data ->
  callReve env call w = (Return data, sentTo call w).
Proof.
  intros [[key Hk] Hr]. unfold callReve. async. rewrite Hk, Hr. reflexivity.
Qed.

Lemma quiet_after_failed_call (call : ReveCall) (w w1 w2 : World) :
  quiet w w1 -> w2 = w1 \/ w2 = sentTo call w1 ->
  (forall u, localCount w2 u = localCount w u)
  /\ (forall u, remoteCount w2 u = remoteCount w u).
Proof.
  intros (_ & L & R) [-> | ->]; split; assumption.
Qed.

(** A denied request: the handler asks for a checkout URL and answers
    with it; a checkout call that throws ends in the catch-all. *)
Lemma generation_denied (route : Route) (env : Env) (reqBody : JSON) (w w1 : World)
    (u : string) (usage : UsageView) :
  getClientUserId reqBody = Some u ->
  getUsageView env u w = (Return usage, w1) ->
  canGenerate usage = false ->
  generationHandler route env reqBody w =
    match createLemonCheckoutUrl env u None w1 with
    | (Return checkoutResult, w2) => (Return (upgradeRequired checkoutResult usage), w2)
    | (Throw e, w2) =>
        (Return (mkResponse 500 (MessageBody (errorMessage e (unexpectedMessage route)))), w2)
    end.
Proof.
  intros Hu Hv Hc.
  destruct route; cbn [generationHandler unexpectedMessage];
    [unfold createRemoveBgHandler | unfold enhanceHandler];
    rewrite Hu; unfold tryCatch; unfold bind at 1; rewrite Hv, Hc; cbn [negb];
    unfold bind, ret;
    destruct (createLemonCheckoutUrl env u None w1) as [[r | e] w2]; reflexivity.
Qed.

(** An admitted request that passes validation: the prompt is optimized,
    the provider called, and only then the usage marked and read back. *)
Lemma generation_admitted (route : Route) (env : Env) (reqBody : JSON) (w w1 : World)
    (u : string) (usage : UsageView) :
  getClientUserId reqBody = Some u ->
  getUsageView env u w = (Return usage, w1) ->
  canGenerate usage = true ->
  requiredFieldPresent route reqBody = true ->
  factorConverts route reqBody = true ->
  exists (call : ReveCall) (originalPrompt : string) (pr : PromptResult),
    generationHandler route env reqBody w =
      match callReve env call w1 with
      | (Return data, w2) =>
          match markGenerationUsage env u w2 with
          | (Return _, w3) =>
              match getUsageView env u w3 with
              | (Return usageAfter, w4) =>
                  (Return (mkResponse 200
                             (GeneratedBody (toClientResponse data) originalPrompt
                                (result_prompt pr) (result_optimized pr) (result_source pr)
                                usageAfter)), w4)
              | (Throw e, w4) =>
                  (Return (mkResponse 500
                             (MessageBody (errorMessage e (unexpectedMessage route)))), w4)
              end
          | (Throw e, w3) =>
              (Return (mkResponse 500
                         (MessageBody (errorMessage e (unexpectedMessage route)))), w3)
          end
      | (Throw e, w2) =>
          (Return (mkResponse 500
                     (MessageBody (errorMessage e (unexpectedMessage route)))), w2)
      end.
Proof.
  intros Hu Hv Hc Hf Hn.
  destruct route; cbn [generationHandler unexpectedMessage requiredFieldPresent
                         factorConverts] in *.
  - unfold createRemoveBgHandler. rewrite Hu. unfold tryCatch. unfold bind at 1.
    rewrite Hv, Hc. cbn [negb].
    destruct (JS.get reqBody "prompt") as [[| | | p | |] |]; try discriminate Hf.
    rewrite Hf. cbn [negb].
    destruct (optimizePrompt_returns env (JSString.trim p) workflow_create
                (Some op_remove_background) w1) as (pr & Hpr).
    eexists _, (JSString.trim p), pr.
    unfold bind at 1. rewrite Hpr. unfold bind at 1.
    match goal with
    | |- context [callReve env ?c w1] =>
        assert_fails (is_evar c);
        match goal with
        | |- context [callReve env ?ev w1] => is_evar ev; unify ev c
        end
    end.
    destruct (callReve env _ w1) as [[data | e] w2]; [| reflexivity].
    unfold bind at 1.
    destruct (markGenerationUsage env u w2) as [[r | e] w3]; [| reflexivity].
    unfold bind, ret.
    destruct (getUsageView env u w3) as [[usageAfter | e] w4]; reflexivity.
  - unfold enhanceHandler. rewrite Hu. unfold tryCatch. unfold bind at 1.
    rewrite Hv, Hc. cbn [negb].
    destruct (JS.get reqBody "referenceImageBase64") as [[| | | ref | |] |];
      try discriminate Hf.
    rewrite Hf. cbn [negb].
    destruct (sanitizeUpscaleFactor (JS.get reqBody "upscaleFactor")) as [factor | e];
      [| discriminate Hn].
    unfold bind at 1. unfold lift. cbv beta iota.
    match goal with
    | |- context [optimizePromptWithLongcat env ?p ?wf ?op] =>
        destruct (optimizePrompt_returns env p wf op w1) as (pr & Hpr);
        eexists _, p, pr
    end.
    unfold bind at 1. rewrite Hpr. unfold bind at 1.
    match goal with
    | |- context [callReve env ?c w1] =>
        assert_fails (is_evar c);
        match goal with
        | |- context [callReve env ?ev w1] => is_evar ev; unify ev c
        end
    end.
    destruct (callReve env _ w1) as [[data | e] w2]; [| reflexivity].
    unfold bind at 1.
    destruct (markGenerationUsage env u w2) as [[r | e] w3]; [| reflexivity].
    unfold bind, ret.
    destruct (getUsageView env u w3) as [[usageAfter | e] w4]; reflexivity.
Qed.

(** An admitted enhance request whose [upscaleFactor] does not convert:
    [sanitizeUpscaleFactor] throws before the prompt is optimized or
    anything is sent, and the catch-all answers. *)
Lemma generation_unconverted (route : Route) (env : Env) (reqBody : JSON) (w w1 : World)
    (u : string) (usage : UsageView) :
  getClientUserId reqBody = Some u ->
  getUsageView env u w = (Return usage, w1) ->
  canGenerate usage = true ->
  requiredFieldPresent route reqBody = true ->
  factorConverts route reqBody = false ->
  exists e,
    sanitizeUpscaleFactor (JS.get reqBody "upscaleFactor") = Throw e
    /\ generationHandler route env reqBody w
       = (Return (mkResponse 500
                    (MessageBody (errorMessage e (unexpectedMessage route)))), w1).
Proof.
  intros Hu Hv Hc Hf Hn.
  destruct route; cbn [generationHandler unexpectedMessage requiredFieldPresent
                         factorConverts] in *; [discriminate Hn |].
  unfold enhanceHandler. rewrite Hu. unfold tryCatch. unfold bind at 1.
  rewrite Hv, Hc. cbn [negb].
  destruct (JS.get reqBody "referenceImageBase64") as [[| | | ref | |] |];
    try discriminate Hf.
  rewrite Hf. cbn [negb].
  destruct (sanitizeUpscaleFactor (JS.get reqBody "upscaleFactor")) as [factor | e];
    [discriminate Hn |].
  exists e. split; [reflexivity |].
  unfold bind at 1. unfold lift. reflexivity.
Qed.

Lemma getUsageView_mode (env : Env) (b : Backend) (u : string) (w w1 : World)
    (usage : UsageView) :
  backendMode env b ->
  getUsageView env u w = (Return usage, w1) ->
  usage = buildUsageView (currentOrDefault env b w u)
  /\ storedRecord b w1 u = Some (currentOrDefault env b w u)
  /\ (forall u', u' <> u -> storedRecord b w1 u' = storedRecord b w u')
  /\ reveCalls w1 = reveCalls w.
Proof.
  intros Hm Hv.
  destruct (getUsageRecord_mode env b u w Hm) as (w' & Hg & Hs & Ho & Hc & _).
  unfold getUsageView, bind, ret in Hv. rewrite Hg in Hv.
  injection Hv as <- <-. repeat split; assumption.
Qed.

Lemma storedCount_current (env : Env) (b : Backend) (w : World) (u : string) :
  generatedCount (currentOrDefault env b w u) = storedCount b w u.
Proof.
  unfold currentOrDefault, storedCount. destruct (storedRecord b w u); reflexivity.
Qed.






(** *** Denied requests *)

(** What a denied request does: nothing is sent to the image provider,
    no counter moves, and the answer is the 402 built from the checkout
    result, or the catch-all's 500 when the checkout call throws. *)
Lemma denied_outcome (route : Route) (env : Env) (reqBody : JSON) (w w1 : World)
    (u : string) (usage : UsageView) :
  getClientUserId reqBody = Some u ->
  getUsageView env u w = (Return usage, w1) ->
  canGenerate usage = false ->
  exists (response : Response),
    generationHandler route env reqBody w = (Return response, w1)
    /\ quiet w w1
    /\ match fst (createLemonCheckoutUrl env u None w1) with
       | Return checkoutResult => response = upgradeRequired checkoutResult usage
       | Throw e =>
           response = mkResponse 500 (MessageBody (errorMessage e (unexpectedMessage route)))
       end.
Proof.
  intros Hu Hv Hc.
  rewrite (generation_denied route env reqBody w w1 u usage Hu Hv Hc).
  destruct (getUsageView_quiet env u w) as (usage' & w1' & Hq & Q).
  rewrite Hv in Hq. injection Hq as <- <-.
  pose proof (createLemonCheckoutUrl_world env u None w1) as Hw.
  destruct (createLemonCheckoutUrl env u None w1) as [[r | e] w2];
    cbn [fst snd] in *; subst w2; eexists; repeat split; apply Q.
Qed.

(** Admission before spend, as far as the image provider and the counters
    go: a denied request, on either generation route and whatever its
    body, sends nothing to the image provider and moves no stored
    [generatedCount]; when the checkout call returns, with a URL or
    without, the answer is the 402 carrying the current usage view. *)
Theorem denied_request_spends_nothing (route : Route) (env : Env) (reqBody : JSON)
    (w w1 : World) (u : string) (usage : UsageView) :
  getClientUserId reqBody = Some u ->
  getUsageView env u w = (Return usage, w1) ->
  canGenerate usage = false ->
  exists (response : Response) (w' : World),
    generationHandler route env reqBody w = (Return response, w')
    /\ reveCalls w' = reveCalls w
    /\ (forall u', localCount w' u' = localCount w u')
    /\ (forall u', remoteCount w' u' = remoteCount w u')
    /\ (forall checkoutResult : LemonCheckoutResult,
          fst (createLemonCheckoutUrl env u None w1) = Return checkoutResult ->
          response = upgradeRequired checkoutResult usage
          /\ status response = 402).
Proof.
  intros Hu Hv Hc.
  destruct (denied_outcome route env reqBody w w1 u usage Hu Hv Hc)
    as (response & Hh & (Q1 & Q2 & Q3) & Hr).
  exists response, w1.
  split; [exact Hh |]. split; [exact Q1 |]. split; [exact Q2 |]. split; [exact Q3 |].
  intros checkoutResult E. rewrite E in Hr. subst response. split; reflexivity.
Qed.

(** A user who has used the free generation asks for another; the
    checkout provider answers with a URL. *)
Lemma denied_request_spends_nothing_witness :
  let env := Sample.localEnv Sample.configured in
  exists (response : Response) (w' : World),
    generationHandler CreateRemoveBg env Sample.createBody Sample.exhausted
      = (Return response, w')
    /\ reveCalls w' = reveCalls Sample.exhausted
    /\ status response = 402.
Proof.
  intros env.
  destruct (denied_request_spends_nothing CreateRemoveBg env Sample.createBody
              Sample.exhausted Sample.exhausted "u1" (buildUsageView (Sample.spent "u1"))
              eq_refl eq_refl eq_refl)
    as (response & w' & H1 & H2 & _ & _ & H5).
  exists response, w'. repeat split; try assumption.
  exact (proj2 (H5 (CheckoutOk "https://pay.example/checkout") eq_refl)).
Defined.

(** Admission precedes validation: a denied request that lacks the
    field its route validates is never answered 400; when the checkout
    call returns, it is answered with the 402. *)
Theorem admission_precedes_validation (route : Route) (env : Env) (reqBody : JSON)
    (w w1 : World) (u : string) (usage : UsageView) :
  getClientUserId reqBody = Some u ->
  getUsageView env u w = (Return usage, w1) ->
  canGenerate usage = false ->
  requiredFieldPresent route reqBody = false ->
  exists (response : Response),
    fst (generationHandler route env reqBody w) = Return response
    /\ status response <> 400
    /\ (forall checkoutResult : LemonCheckoutResult,
          fst (createLemonCheckoutUrl env u None w1) = Return checkoutResult ->
          response = upgradeRequired checkoutResult usage).
Proof.
  intros Hu Hv Hc _.
  destruct (denied_outcome route env reqBody w w1 u usage Hu Hv Hc)
    as (response & Hh & _ & Hr).
  exists response. rewrite Hh. split; [reflexivity |]. split.
  - destruct (fst (createLemonCheckoutUrl env u None w1)); subst response; discriminate.
  - intros cr E. rewrite E in Hr. exact Hr.
Qed.

(** An enhance request without its reference image, from a user who has
    used the free generation. *)
Lemma admission_precedes_validation_witness :
  let env := Sample.localEnv Sample.configured in
  exists (response : Response),
    fst (generationHandler Enhance env Sample.enhanceBodyNoImage Sample.exhausted)
      = Return response
    /\ status response <> 400
    /\ response = upgradeRequired (CheckoutOk "https://pay.example/checkout")
                    (buildUsageView (Sample.spent "u1")).
Proof.
  intros env.
  destruct (admission_precedes_validation Enhance env Sample.enhanceBodyNoImage
              Sample.exhausted Sample.exhausted "u1" (buildUsageView (Sample.spent "u1"))
              eq_refl eq_refl eq_refl eq_refl)
    as (response & H1 & H2 & H3).
  exists response. repeat split; try assumption.
  exact (H3 (CheckoutOk "https://pay.example/checkout") eq_refl).
Defined.

(** C2, evaluated where the code leaves the claim.  The user has used the
    free generation, the Lemon keys are set, and the request to the
    checkout provider rejects: on both routes the answer is the
    catch-all's 500 with the rejection's message, not the 402 with the
    usage view.  The image provider is not called and the counter does not
    move. *)
Lemma denied_request_checkout_rejected :
  let env := Sample.withLemon (LemonRejected "fetch failed")
               (Sample.localEnv Sample.configured) in
  getUsageView env "u1" Sample.exhausted
    = (Return (buildUsageView (Sample.spent "u1")), Sample.exhausted)
  /\ canGenerate (buildUsageView (Sample.spent "u1")) = false
  /\ createRemoveBgHandler env Sample.createBody Sample.exhausted
     = (Return (mkResponse 500 (MessageBody "fetch failed")), Sample.exhausted)
  /\ enhanceHandler env Sample.enhanceBody Sample.exhausted
     = (Return (mkResponse 500 (MessageBody "fetch failed")), Sample.exhausted).
Proof. repeat split; vm_compute; reflexivity. Qed.

(** C8, evaluated where the code leaves the claim.  The same user and
    the same rejecting checkout provider, the request now lacking its
    prompt (create) or its reference image (enhance): the answer is the
    500 of the catch-all, neither the 402 nor a 400. *)
Lemma denied_request_missing_field_checkout_rejected :
  let env := Sample.withLemon (LemonRejected "fetch failed")
               (Sample.localEnv Sample.configured) in
  requiredFieldPresent CreateRemoveBg Sample.createBodyNoPrompt = false
  /\ requiredFieldPresent Enhance Sample.enhanceBodyNoImage = false
  /\ canGenerate (buildUsageView (Sample.spent "u1")) = false
  /\ createRemoveBgHandler env Sample.createBodyNoPrompt Sample.exhausted
     = (Return (mkResponse 500 (MessageBody "fetch failed")), Sample.exhausted)
  /\ enhanceHandler env Sample.enhanceBodyNoImage Sample.exhausted
     = (Return (mkResponse 500 (MessageBody "fetch failed")), Sample.exhausted).
Proof. repeat split; vm_compute; reflexivity. Qed.

(** *** Counters move on success only *)

Lemma generation_no_user (route : Route) (env : Env) (reqBody : JSON) (w : World) :
  getClientUserId reqBody = None ->
  generationHandler route env reqBody w
    = (Return (mkResponse 400 (MessageBody "clientUserId is required.")), w).
Proof.
  intros Hu. destruct route; cbn [generationHandler];
    [unfold createRemoveBgHandler | unfold enhanceHandler];
    rewrite Hu; reflexivity.
Qed.

Lemma generation_invalid (route : Route) (env : Env) (reqBody : JSON) (w w1 : World)
    (u : string) (usage : UsageView) :
  getClientUserId reqBody = Some u ->
  getUsageView env u w = (Return usage, w1) ->
  canGenerate usage = true ->
  requiredFieldPresent route reqBody = false ->
  generationHandler route env reqBody w
    = (Return (mkResponse 400
                 (MessageBody match route with
                              | CreateRemoveBg => "Prompt is required."
                              | Enhance => "referenceImageBase64 is required."
                              end)), w1).
Proof.
  intros Hu Hv Hc Hf.
  destruct route; cbn [generationHandler requiredFieldPresent] in *.
  - unfold createRemoveBgHandler. rewrite Hu. unfold tryCatch. unfold bind at 1.
    rewrite Hv, Hc. cbn [negb].
    destruct (JS.get reqBody "prompt") as [[| | | p | |] |];
      try reflexivity. rewrite Hf. reflexivity.
  - unfold enhanceHandler. rewrite Hu. unfold tryCatch. unfold bind at 1.
    rewrite Hv, Hc. cbn [negb].
    destruct (JS.get reqBody "referenceImageBase64") as [[| | | r | |] |];
      try reflexivity. rewrite Hf. reflexivity.
Qed.

Lemma provider_cases (env : Env) :
  providerFails env \/ exists data, providerReturns env data.
Proof.
  unfold providerFails, providerReturns.
  destruct (getReveKey (processEnv env)) as [key | e]; [| left; exact I].
  destruct (reveReply env) as [m | m c | data]; try (left; exact I).
  right. exists data. split; [exists key |]; reflexivity.
Qed.

(** Whatever the request, the environment and the world, a generation
    handler answers; an answer other than 200 has moved no stored
    [generatedCount] in either backend, and a 200 is answered only when the
    image provider returned, after exactly one call to it. *)
Theorem generation_counts_only_on_success (route : Route) (env : Env) (reqBody : JSON)
    (w : World) :
  exists (response : Response) (w' : World),
    generationHandler route env reqBody w = (Return response, w')
    /\ (status response = 200
        \/ ((forall u, localCount w' u = localCount w u)
            /\ (forall u, remoteCount w' u = remoteCount w u)))
    /\ (status response = 200 ->
        (exists data, providerReturns env data)
        /\ exists call, reveCalls w' = reveCalls w ++ [call]).
Proof.
  destruct (getClientUserId reqBody) as [u |] eqn:Hu.
  2:{ rewrite (generation_no_user route env reqBody w Hu).
      eexists _, _. split; [reflexivity |]. split; [right; split; reflexivity |].
      discriminate. }
  destruct (getUsageView_quiet env u w) as (usage & w1 & Hv & Q).
  destruct (canGenerate usage) eqn:Hc.
  2:{ destruct (denied_outcome route env reqBody w w1 u usage Hu Hv Hc)
        as (response & Hh & (_ & Ql & Qr) & Hr).
      exists response, w1. split; [exact Hh |].
      split; [right; split; assumption |].
      destruct (fst (createLemonCheckoutUrl env u None w1)); subst response; discriminate. }
  destruct (requiredFieldPresent route reqBody) eqn:Hf.
  2:{ rewrite (generation_invalid route env reqBody w w1 u usage Hu Hv Hc Hf).
      destruct Q as (_ & Ql & Qr).
      eexists _, _. split; [reflexivity |]. split; [right; split; assumption |].
      discriminate. }
  destruct (factorConverts route reqBody) eqn:Hn.
  2:{ destruct (generation_unconverted route env reqBody w w1 u usage Hu Hv Hc Hf Hn)
        as (e & _ & Hh).
      rewrite Hh. destruct Q as (_ & Ql & Qr).
      eexists _, _. split; [reflexivity |]. split; [right; split; assumption |].
      discriminate. }
  destruct (generation_admitted route env reqBody w w1 u usage Hu Hv Hc Hf Hn)
    as (call & original & pr & Hstep).
  destruct (provider_cases env) as [Hfail | [data Hret]].
  - destruct (callReve_fails env call w1 Hfail) as (e & w2 & Hcall & Hw2).
    rewrite Hcall in Hstep. eexists _, w2. split; [exact Hstep |].
    split; [right; exact (quiet_after_failed_call call w w1 w2 Q Hw2) | discriminate].
  - rewrite (callReve_returns env call w1 data Hret) in Hstep.
    destruct (updateUsageRecord_any env u incrementGenerated (sentTo call w1))
      as (cur & k & r3 & w3 & Hup & C3 & _).
    unfold markGenerationUsage in Hstep. rewrite Hup in Hstep.
    destruct (getUsageView_quiet env u w3) as (usageAfter & w4 & Hview & (Q4 & _)).
    rewrite Hview in Hstep. eexists _, w4. split; [exact Hstep |].
    split; [left; reflexivity |]. intros _.
    split; [exists data; exact Hret |]. exists call.
    rewrite Q4, C3. cbn [sentTo reveCalls]. destruct Q as (-> & _). reflexivity.
Qed.

(** *** Webhook deliveries that change nothing *)

(** A delivery whose body is no [Buffer], whose signature does not verify,
    or whose body is not JSON is answered 400, 401 and 400, and leaves the
    world as it was; so does a verified delivery naming an event that is
    not recognized, which is answered 200. *)
Theorem webhook_rejections_change_nothing (env : Env) (req : WebhookRequest) (w : World) :
  (rawBody req = None ->
   lemonWebhookHandler env req w
     = (Return (mkResponse 400 (MessageBody "Invalid webhook body.")), w))
  /\ (forall raw : list Z,
        rawBody req = Some raw ->
        verifyLemonSignature (processEnv env) raw
          (if present (xSignature req) then xSignature req else None) = Return false ->
        lemonWebhookHandler env req w
          = (Return (mkResponse 401 (MessageBody "Invalid webhook signature.")), w))
  /\ (forall raw : list Z,
        rawBody req = Some raw ->
        verifyLemonSignature (processEnv env) raw
          (if present (xSignature req) then xSignature req else None) = Return true ->
        JSONText.parse (Crypto.bufferToString raw) = None ->
        lemonWebhookHandler env req w
          = (Return (mkResponse 400 (MessageBody "Webhook payload is not valid JSON.")), w))
  /\ (forall (raw : list Z) (payload : JSON) (eventName u : string),
        rawBody req = Some raw ->
        verifyLemonSignature (processEnv env) raw
          (if present (xSignature req) then xSignature req else None) = Return true ->
        JSONText.parse (Crypto.bufferToString raw) = Some payload ->
        readNestedString payload ["meta"; "event_name"] = Some eventName ->
        extractLemonUserId payload = Some u ->
        eventTarget eventName = None ->
        exists ignored : bool,
          lemonWebhookHandler env req w = (Return (mkResponse 200 (WebhookBody ignored)), w)).
Proof.
  split; [| split; [| split]].
  - intros Hb. unfold lemonWebhookHandler. rewrite Hb. reflexivity.
  - intros raw Hb Hv. unfold lemonWebhookHandler. rewrite Hb.
    unfold bind, lift. rewrite Hv. reflexivity.
  - intros raw Hb Hv Hp. unfold lemonWebhookHandler. rewrite Hb.
    unfold bind, lift. rewrite Hv. cbn [negb]. rewrite Hp. reflexivity.
  - intros raw payload eventName u Hb Hv Hp He Hu Ht.
    rewrite (webhook_steps env req w raw payload Hb Hv Hp).
    assert (Ho : isObject payload = true).
    { destruct payload; try discriminate He; reflexivity. }
    rewrite Ho, He, Hu. cbn [negb].
    destruct (negb (JSString.truthy eventName) || negb (JSString.truthy u));
      [exists true; reflexivity |].
    unfold eventTarget in Ht.
    destruct (setHas deactivationEvents eventName); [discriminate |].
    destruct (setHas activationEvents eventName); [discriminate |].
    exists false. reflexivity.
Qed.

(** *** Upscale factor *)

Lemma pow10_pos (k : Z) : 0 <= k -> 0 < 10 ^ k.
Proof. intros H. apply Z.pow_pos_nonneg; lia. Qed.

(** No real is rounded both to 3 and to 4. *)
Lemma roundsTo_3_not_4 (m e : Z) : roundsTo 3 m e = true -> roundsTo 4 m e = false.
Proof.
  unfold roundsTo. change (3 =? 4) with false. change (4 =? 4) with true. cbv iota.
  set (p := 2 ^ 52). assert (Hp : p = 4503599627370496) by reflexivity.
  destruct (0 <=? e) eqn:He.
  - intros H. apply andb_true_iff in H as [_ H]. apply Z.leb_le in H.
    apply andb_false_iff. left. apply Z.leb_gt. lia.
  - apply Z.leb_gt in He. pose proof (pow10_pos (- e) ltac:(lia)) as Hs.
    intros H. apply andb_true_iff in H as [_ H]. apply Z.leb_le in H.
    apply andb_false_iff. left. apply Z.leb_gt. nia.
Qed.

(** A numeral that denotes [n] exactly is rounded to [n]. *)
Lemma roundsTo_exact (n m e : Z) :
  n = 3 \/ n = 4 ->
  (if 0 <=? e then m * 10 ^ e = n else m = n * 10 ^ (- e)) ->
  roundsTo n m e = true.
Proof.
  intros Hn. unfold roundsTo.
  set (p := 2 ^ 52). assert (Hp : p = 4503599627370496) by reflexivity.
  destruct (0 <=? e) eqn:He.
  - intros ->. apply andb_true_iff.
    split; apply Z.leb_le; destruct (n =? 4); lia.
  - apply Z.leb_gt in He. pose proof (pow10_pos (- e) ltac:(lia)) as Hs.
    intros ->. apply andb_true_iff.
    split; apply Z.leb_le; destruct (n =? 4); nia.
Qed.

(** What [sanitizeUpscaleFactor] returns is 2, 3 or 4. *)
Lemma sanitizeUpscaleFactor_bounds (value : option JSON) (factor : Z) :
  sanitizeUpscaleFactor value = Return factor -> 2 <= factor <= 4.
Proof.
  unfold sanitizeUpscaleFactor. destruct value as [v |]; [| intros [= <-]; lia].
  destruct (negb (toPrimitiveReturns v)); [discriminate |].
  destruct (numberIs 3 v); [intros [= <-]; lia |].
  destruct (numberIs 4 v); intros [= <-]; lia.
Qed.

(** The upscale factor of a request.  [sanitizeUpscaleFactor] throws a
    [TypeError] exactly on a value that cannot be converted to a
    primitive: an object with a [toString] property of its own, or an
    array that holds one at any depth.  On every other value, and on an
    absent one, it returns 2, 3 or 4: 3 exactly when [Number] maps the
    value to 3, 4 exactly when to 4.  A number literal that denotes 3 or 4
    is honoured, whatever its exponent; every other integer gives 2; and
    so does a literal within the rounding of a double of 3, which
    JavaScript does not tell from 3. *)
Theorem sanitizeUpscaleFactor_range :
  (forall value : option JSON,
     match sanitizeUpscaleFactor value with
     | Throw e =>
         e = Error "Cannot convert object to primitive value"
         /\ exists v, value = Some v /\ toPrimitiveReturns v = false
     | Return n =>
         (n = 2 \/ n = 3 \/ n = 4)
         /\ (forall v, value = Some v -> toPrimitiveReturns v = true)
         /\ (n = 3 <-> exists v, value = Some v /\ numberIs 3 v = true)
         /\ (n = 4 <-> exists v, value = Some v /\ numberIs 4 v = true)
     end)
  /\ (forall members : list (string * JSON),
        sanitizeUpscaleFactor (Some (JObj members))
        = match JS.member "toString" members with
          | Some _ => Throw (Error "Cannot convert object to primitive value")
          | None => Return 2
          end)
  /\ sanitizeUpscaleFactor None = Return 2
  /\ (forall n m e : Z,
        n = 3 \/ n = 4 ->
        (if 0 <=? e then m * 10 ^ e = n else m = n * 10 ^ (- e)) ->
        sanitizeUpscaleFactor (Some (JNum m e)) = Return n)
  /\ (forall k : Z,
        sanitizeUpscaleFactor (Some (JNum k 0))
        = Return (if k =? 3 then 3 else if k =? 4 then 4 else 2))
  /\ sanitizeUpscaleFactor (Some (JNum 30000000000000001 (-16))) = Return 3
  /\ sanitizeUpscaleFactor (Some (JNum 3000000000000001 (-15))) = Return 2.
Proof.
  split; [| split; [| split; [| split; [| split; [| split]]]]].
  - intros value. unfold sanitizeUpscaleFactor. destruct value as [v |].
    + destruct (toPrimitiveReturns v) eqn:Ep; cbn [negb].
      * destruct (numberIs 3 v) eqn:E3; [| destruct (numberIs 4 v) eqn:E4].
        -- split; [auto |]. split; [intros ? [= <-]; exact Ep |].
           split; [split; [intros _; exists v; auto | reflexivity] |].
           split; [discriminate |]. intros (v' & [= <-] & H4).
           unfold numberIs in E3, H4. destruct (toNumber v) as [[m e] |]; [| discriminate].
           rewrite (roundsTo_3_not_4 m e E3) in H4. discriminate.
        -- split; [auto |]. split; [intros ? [= <-]; exact Ep |].
           split; [split; [discriminate | intros (v' & [= <-] & H3); congruence] |].
           split; [intros _; exists v; auto | reflexivity].
        -- split; [auto |]. split; [intros ? [= <-]; exact Ep |].
           split; (split; [discriminate | intros (v' & [= <-] & H); congruence]).
      * split; [reflexivity |]. exists v. auto.
    + split; [auto |]. split; [discriminate |].
      split; (split; [discriminate | intros (v' & Hv & _); discriminate]).
  - intros members. unfold sanitizeUpscaleFactor. cbn [toPrimitiveReturns].
    destruct (JS.member "toString" members); reflexivity.
  - reflexivity.
  - intros n m e Hn Hv. unfold sanitizeUpscaleFactor. cbn [toPrimitiveReturns negb].
    unfold numberIs. cbn [toNumber].
    destruct Hn as [-> | ->].
    + rewrite (roundsTo_exact 3 m e (or_introl eq_refl) Hv). reflexivity.
    + pose proof (roundsTo_exact 4 m e (or_intror eq_refl) Hv) as H4.
      destruct (roundsTo 3 m e) eqn:E3.
      * rewrite (roundsTo_3_not_4 m e E3) in H4. discriminate.
      * rewrite H4. reflexivity.
  - intros k. unfold sanitizeUpscaleFactor. cbn [toPrimitiveReturns negb].
    unfold numberIs. cbn [toNumber]. unfold roundsTo.
    change (0 <=? 0) with true. change (3 =? 4) with false. change (4 =? 4) with true.
    cbv iota. change (10 ^ 0) with 1.
    set (p := 2 ^ 52). assert (Hp : p = 4503599627370496) by reflexivity.
    destruct (k =? 3) eqn:K3; [apply Z.eqb_eq in K3 | apply Z.eqb_neq in K3].
    + subst k. replace ((3 * p - 1 <=? 3 * 1 * p) && (3 * 1 * p <=? 3 * p + 1)) with true;
        [reflexivity |].
      symmetry. apply andb_true_iff. split; apply Z.leb_le; lia.
    + replace ((3 * p - 1 <=? k * 1 * p) && (k * 1 * p <=? 3 * p + 1)) with false.
      2:{ symmetry. apply andb_false_iff.
          destruct (Z_lt_le_dec k 3); [left | right]; apply Z.leb_gt; lia. }
      destruct (k =? 4) eqn:K4; [apply Z.eqb_eq in K4 | apply Z.eqb_neq in K4].
      * subst k.
        replace ((4 * p - 1 <=? 4 * 1 * p) && (4 * 1 * p <=? 4 * p + 2)) with true;
          [reflexivity |].
        symmetry. apply andb_true_iff. split; apply Z.leb_le; lia.
      * replace ((4 * p - 1 <=? k * 1 * p) && (k * 1 * p <=? 4 * p + 2)) with false;
          [reflexivity |].
        symmetry. apply andb_false_iff.
        destruct (Z_lt_le_dec k 4); [left | right]; apply Z.leb_gt; lia.
  - vm_compute. reflexivity.
  - vm_compute. reflexivity.
Qed.

(** *** Trimming *)

Module JSStringFacts.
Import JSString.

Lemma append_cons (a : ascii) (p r : string) :
  String.append (String a p) r = String a (String.append p r).
Proof. reflexivity. Qed.

Lemma append_length (a b : string) :
  String.length (String.append a b) = (String.length a + String.length b)%nat.
Proof. induction a as [| c a IH]; [reflexivity |]. rewrite append_cons. cbn. now rewrite IH. Qed.

Lemma append_assoc (a b c : string) :
  String.append (String.append a b) c = String.append a (String.append b c).
Proof. induction a as [| x a IH]; [reflexivity |]. rewrite !append_cons. now rewrite IH. Qed.

Lemma append_empty (a : string) : String.append a EmptyString = a.
Proof. induction a as [| x a IH]; [reflexivity |]. rewrite append_cons. now rewrite IH. Qed.

Lemma dropPrefix_append (p s r : string) :
  dropPrefix p s = Some r -> s = String.append p r.
Proof.
  revert s; induction p as [| a p IH]; intros s H; cbn [dropPrefix] in H.
  - injection H as <-. reflexivity.
  - destruct s as [| b s]; [discriminate |].
    destruct (Ascii.eqb a b) eqn:E; [| discriminate].
    apply Ascii.eqb_eq in E. subst b. rewrite append_cons. f_equal. now apply IH.
Qed.

(** A prefix found in a text is found in every extension of the text. *)
Lemma dropPrefix_extend (p s r x : string) :
  dropPrefix p s = Some r -> dropPrefix p (String.append s x) = Some (String.append r x).
Proof.
  revert s; induction p as [| a p IH]; intros s H; cbn [dropPrefix] in H.
  - injection H as <-. reflexivity.
  - destruct s as [| b s]; [discriminate |]. rewrite append_cons. cbn [dropPrefix].
    destruct (Ascii.eqb a b); [now apply IH | discriminate].
Qed.

Lemma dropOneOf_extend (ps : list string) (s r x : string) :
  dropOneOf ps s = Some r ->
  exists r', dropOneOf ps (String.append s x) = Some r'.
Proof.
  induction ps as [| p ps IH]; cbn [dropOneOf]; [discriminate |].
  destruct (dropPrefix p s) as [r0 |] eqn:E.
  - intros _. rewrite (dropPrefix_extend p s r0 x E). eauto.
  - intros H. destruct (dropPrefix p (String.append s x)); eauto.
Qed.

Lemma dropOneOf_shorter (ps : list string) (s r : string) :
  forallb truthy ps = true -> dropOneOf ps s = Some r ->
  (String.length r < String.length s)%nat /\ exists p, s = String.append p r.
Proof.
  induction ps as [| p ps IH]; cbn [dropOneOf forallb]; [discriminate |].
  intros Hne H. apply andb_true_iff in Hne as [Hp Hps].
  destruct (dropPrefix p s) as [r0 |] eqn:E.
  - injection H as <-. pose proof (dropPrefix_append p s r0 E) as ->.
    split; [| eauto]. rewrite append_length.
    destruct p; [discriminate Hp | cbn; lia].
  - now apply IH.
Qed.

Lemma dropOneOf_empty (ps : list string) :
  forallb truthy ps = true -> dropOneOf ps EmptyString = None.
Proof.
  induction ps as [| p ps IH]; cbn [dropOneOf forallb]; [reflexivity |].
  intros Hne. apply andb_true_iff in Hne as [Hp Hps].
  destruct p; [discriminate Hp |]. cbn. now apply IH.
Qed.

Lemma dropAll_fixed (ps : list string) (fuel : nat) (s : string) :
  dropOneOf ps s = None -> dropAll ps fuel s = s.
Proof. destruct fuel; cbn [dropAll]; [reflexivity |]. now intros ->. Qed.

(** With fuel for every character, nothing is left to drop. *)
Lemma dropAll_stripped (ps : list string) (fuel : nat) (s : string) :
  forallb truthy ps = true -> (String.length s <= fuel)%nat ->
  dropOneOf ps (dropAll ps fuel s) = None.
Proof.
  intros Hne. revert s; induction fuel as [| fuel IH]; intros s Hl; cbn [dropAll].
  - destruct s; [now apply dropOneOf_empty | cbn in Hl; lia].
  - destruct (dropOneOf ps s) as [r |] eqn:E; [| exact E].
    apply IH. apply (dropOneOf_shorter ps s r Hne) in E as [E _]. lia.
Qed.

Lemma dropAll_suffix (ps : list string) (fuel : nat) (s : string) :
  forallb truthy ps = true ->
  exists p, s = String.append p (dropAll ps fuel s).
Proof.
  intros Hne. revert s; induction fuel as [| fuel IH]; intros s; cbn [dropAll].
  - now exists EmptyString.
  - destruct (dropOneOf ps s) as [r |] eqn:E; [| now exists EmptyString].
    apply (dropOneOf_shorter ps s r Hne) in E as [_ [p ->]].
    destruct (IH r) as [q Hq]. exists (String.append p q).
    rewrite append_assoc. now rewrite <- Hq.
Qed.

Lemma list_of_append (a b : string) :
  list_ascii_of_string (String.append a b)
  = list_ascii_of_string a ++ list_ascii_of_string b.
Proof.
  induction a as [| c a IH]; [reflexivity |].
  rewrite append_cons. cbn [list_ascii_of_string]. now rewrite IH.
Qed.

Lemma string_of_app (a b : list ascii) :
  string_of_list_ascii (a ++ b)
  = String.append (string_of_list_ascii a) (string_of_list_ascii b).
Proof.
  induction a as [| c a IH]; [reflexivity |].
  cbn [app string_of_list_ascii]. now rewrite append_cons, IH.
Qed.

Lemma reverse_involutive (s : string) : reverse (reverse s) = s.
Proof.
  unfold reverse. rewrite list_ascii_of_string_of_list_ascii, rev_involutive.
  apply string_of_list_ascii_of_string.
Qed.

Lemma reverse_append (a b : string) :
  reverse (String.append a b) = String.append (reverse b) (reverse a).
Proof. unfold reverse. now rewrite list_of_append, rev_app_distr, string_of_app. Qed.

Lemma length_string_of (l : list ascii) :
  String.length (string_of_list_ascii l) = length l.
Proof. induction l; cbn; congruence. Qed.

Lemma length_list_of (s : string) :
  length (list_ascii_of_string s) = String.length s.
Proof. induction s; cbn; congruence. Qed.

Lemma reverse_length (s : string) : String.length (reverse s) = String.length s.
Proof. unfold reverse. now rewrite length_string_of, length_rev, length_list_of. Qed.

Lemma whiteSpace_truthy : forallb truthy whiteSpace = true.
Proof. reflexivity. Qed.

Lemma reversed_whiteSpace_truthy : forallb truthy (map reverse whiteSpace) = true.
Proof. reflexivity. Qed.

(** What [trimStart] returns starts with no white space, and a text that
    starts with none is returned as it is. *)
Lemma trimStart_stripped (s : string) : dropOneOf whiteSpace (trimStart s) = None.
Proof. apply dropAll_stripped; [reflexivity | lia]. Qed.

Lemma trimStart_fixed (s : string) :
  dropOneOf whiteSpace s = None -> trimStart s = s.
Proof. apply dropAll_fixed. Qed.

Lemma trimEnd_stripped (s : string) :
  dropOneOf (map reverse whiteSpace) (reverse (trimEnd s)) = None.
Proof.
  unfold trimEnd. rewrite reverse_involutive.
  apply dropAll_stripped; [reflexivity | rewrite reverse_length; lia].
Qed.

Lemma trimEnd_fixed (s : string) :
  dropOneOf (map reverse whiteSpace) (reverse s) = None -> trimEnd s = s.
Proof.
  intros H. unfold trimEnd. rewrite dropAll_fixed by exact H.
  apply reverse_involutive.
Qed.

(** [trimEnd] returns a prefix of its text. *)
Lemma trimEnd_prefix (s : string) : exists x, s = String.append (trimEnd s) x.
Proof.
  unfold trimEnd.
  destruct (dropAll_suffix (map reverse whiteSpace) (String.length s) (reverse s)
              reversed_whiteSpace_truthy) as [p Hp].
  exists (reverse p).
  rewrite <- reverse_append, <- Hp. symmetry. apply reverse_involutive.
Qed.

Lemma trimStart_suffix (s : string) : exists p, s = String.append p (trimStart s).
Proof. apply dropAll_suffix. reflexivity. Qed.

(** A trimmed text starts and ends with no white space. *)
Lemma trim_stripped (s : string) :
  dropOneOf whiteSpace (trim s) = None
  /\ dropOneOf (map reverse whiteSpace) (reverse (trim s)) = None.
Proof.
  split; [| apply trimEnd_stripped].
  unfold trim. destruct (trimEnd_prefix (trimStart s)) as [x Hx].
  destruct (dropOneOf whiteSpace (trimEnd (trimStart s))) as [r |] eqn:E; [| reflexivity].
  destruct (dropOneOf_extend whiteSpace _ r x E) as [r' Hr].
  rewrite <- Hx, trimStart_stripped in Hr. discriminate Hr.
Qed.

Lemma trim_fixed (s : string) :
  dropOneOf whiteSpace s = None ->
  dropOneOf (map reverse whiteSpace) (reverse s) = None ->
  trim s = s.
Proof.
  intros H1 H2. unfold trim. rewrite (trimStart_fixed s H1). now apply trimEnd_fixed.
Qed.

(** [s.trim().trim() === s.trim()] *)
Lemma trim_idempotent (s : string) : trim (trim s) = trim s.
Proof. destruct (trim_stripped s). now apply trim_fixed. Qed.

Lemma trim_length (s : string) : (String.length (trim s) <= String.length s)%nat.
Proof.
  unfold trim.
  destruct (trimEnd_prefix (trimStart s)) as [x Hx].
  destruct (trimStart_suffix s) as [p Hp].
  rewrite Hp at 2. rewrite Hx at 2. rewrite !append_length. lia.
Qed.

End JSStringFacts.

(** *** Data URLs *)

Module DataUrlFacts.
Import JSString JSStringFacts.

(** A token that does not hold the character [c] matches a text that
    ends before [c] as it matches the text alone. *)
Lemma dropPrefix_before (c : ascii) (tok a b : string) :
  existsb (Ascii.eqb c) (list_ascii_of_string tok) = false ->
  dropPrefix tok (String.append a (String c b))
  = option_map (fun r => String.append r (String c b)) (dropPrefix tok a).
Proof.
  revert a; induction tok as [| t tok IH]; intros a H; [reflexivity |].
  cbn [list_ascii_of_string existsb] in H. apply orb_false_iff in H as [Ht H].
  destruct a as [| x a].
  - change (String.append EmptyString (String c b)) with (String c b).
    cbn [dropPrefix]. rewrite Ascii.eqb_sym, Ht. reflexivity.
  - rewrite append_cons. cbn [dropPrefix].
    destruct (Ascii.eqb t x); [now apply IH | reflexivity].
Qed.

Lemma dropOneOf_before (c : ascii) (ps : list string) (a b : string) :
  forallb (fun tok => negb (existsb (Ascii.eqb c) (list_ascii_of_string tok))) ps = true ->
  dropOneOf ps (String.append a (String c b))
  = option_map (fun r => String.append r (String c b)) (dropOneOf ps a).
Proof.
  induction ps as [| p ps IH]; cbn [forallb dropOneOf]; [reflexivity |].
  intros H. apply andb_true_iff in H as [Hp H]. apply negb_true_iff in Hp.
  rewrite (dropPrefix_before c p a b Hp).
  destruct (dropPrefix p a); [reflexivity | now apply IH].
Qed.

Lemma dropAll_before (c : ascii) (ps : list string) (fuel : nat) (a b : string) :
  forallb (fun tok => negb (existsb (Ascii.eqb c) (list_ascii_of_string tok))) ps = true ->
  dropAll ps fuel (String.append a (String c b))
  = String.append (dropAll ps fuel a) (String c b).
Proof.
  intros H. revert a; induction fuel as [| fuel IH]; intros a; cbn [dropAll];
    [reflexivity |].
  rewrite (dropOneOf_before c ps a b H).
  destruct (dropOneOf ps a); cbn [option_map]; [apply IH | reflexivity].
Qed.

(** Fuel beyond the length of the text changes nothing. *)
Lemma dropAll_fuel (ps : list string) (fuel fuel' : nat) (s : string) :
  forallb truthy ps = true ->
  (String.length s <= fuel)%nat -> (fuel <= fuel')%nat ->
  dropAll ps fuel' s = dropAll ps fuel s.
Proof.
  intros Hne. revert fuel' s; induction fuel as [| fuel IH]; intros fuel' s Hl Hf.
  - destruct s; [| cbn in Hl; lia].
    rewrite !dropAll_fixed by (now apply dropOneOf_empty). reflexivity.
  - destruct fuel' as [| fuel']; [lia |]. cbn [dropAll].
    destruct (dropOneOf ps s) as [r |] eqn:E; [| reflexivity].
    apply IH; [| lia]. apply (dropOneOf_shorter ps s r Hne) in E as [E _]. lia.
Qed.

Lemma comma_in_no_whiteSpace :
  forallb (fun tok => negb (existsb (Ascii.eqb ","%char) (list_ascii_of_string tok)))
          (map reverse whiteSpace) = true.
Proof. reflexivity. Qed.

(** White space is trimmed off the end of what follows a comma, never off
    the comma. *)
Lemma trimEnd_after_comma (p s : string) :
  trimEnd (String.append p (String ","%char s))
  = String.append p (String ","%char (trimEnd s)).
Proof.
  unfold trimEnd.
  change (String ","%char s) with (String.append (String ","%char EmptyString) s).
  rewrite <- append_assoc, reverse_append, reverse_append.
  change (reverse (String ","%char EmptyString)) with (String ","%char EmptyString).
  rewrite append_cons. change (String.append EmptyString (reverse p)) with (reverse p).
  rewrite (dropAll_before _ _ _ _ _ comma_in_no_whiteSpace).
  rewrite (dropAll_fuel _ (String.length s) _ (reverse s) reversed_whiteSpace_truthy).
  - rewrite reverse_append.
    change (String ","%char (reverse p))
      with (String.append (String ","%char EmptyString) (reverse p)).
    rewrite reverse_append, reverse_involutive.
    change (reverse (String ","%char EmptyString)) with (String ","%char EmptyString).
    rewrite append_assoc. reflexivity.
  - rewrite reverse_length. lia.
  - rewrite !append_length. cbn [String.length]. lia.
Qed.

Lemma afterFirst_skips (c : ascii) (head rest : string) :
  existsb (Ascii.eqb c) (list_ascii_of_string head) = false ->
  afterFirst c (String.append head (String c rest)) = Some rest.
Proof.
  induction head as [| x head IH]; intros H.
  - change (String.append EmptyString (String c rest)) with (String c rest).
    cbn [afterFirst]. now rewrite Ascii.eqb_refl.
  - cbn [list_ascii_of_string existsb] in H. apply orb_false_iff in H as [Hx H].
    rewrite append_cons. cbn [afterFirst]. rewrite Ascii.eqb_sym, Hx. now apply IH.
Qed.

End DataUrlFacts.

(** [normalizeBase64] on a data URL whose media type holds no comma
    returns the payload, the text after the first comma, trimmed at its
    end; a text that is no data URL is only trimmed; and the data URL
    [toClientResponse] builds for an image is normalized back to the
    image. *)
Theorem normalizeBase64_data_url :
  (forall mediaType payload : string,
     existsb (Ascii.eqb ","%char) (list_ascii_of_string mediaType) = false ->
     normalizeBase64
       (String.append "data:" (String.append mediaType (String ","%char payload)))
     = JSString.trimEnd payload)
  /\ (forall value : string,
        JSString.startsWith "data:" (JSString.trim value) = false ->
        normalizeBase64 value = JSString.trim value)
  /\ (forall data : ReveApiResponse,
        normalizeBase64 (imageDataUrl (toClientResponse data))
        = JSString.trimEnd (image data)).
Proof.
  assert (G : forall m p,
            existsb (Ascii.eqb ","%char) (list_ascii_of_string m) = false ->
            normalizeBase64 (String.append "data:" (String.append m (String ","%char p)))
            = JSString.trimEnd p).
  { intros m p H. unfold normalizeBase64, JSString.trim.
    rewrite JSStringFacts.trimStart_fixed by reflexivity.
    rewrite <- JSStringFacts.append_assoc, DataUrlFacts.trimEnd_after_comma.
    rewrite JSStringFacts.append_assoc.
    change (String.append "data:" (String.append m (String ","%char (JSString.trimEnd p))))
      with (String "d" (String "a" (String "t" (String "a" (String ":"
              (String.append m (String ","%char (JSString.trimEnd p)))))))).
    cbn [JSString.afterFirst Ascii.eqb Bool.eqb].
    rewrite (DataUrlFacts.afterFirst_skips _ _ _ H). reflexivity. }
  split; [exact G |]. split.
  - intros value H. unfold normalizeBase64. rewrite H.
    destruct (JSString.afterFirst _ _); reflexivity.
  - intros data. cbn [toClientResponse imageDataUrl].
    exact (G "image/png;base64" (image data) eq_refl).
Qed.

(** *** User ids of requests *)

(** The user id a request body names is never empty and carries no white
    space at either end: it is the trimmed [clientUserId], and a body
    that carries the id as returned names the same user. *)
Theorem getClientUserId_canonical (payload : JSON) (u : string) :
  getClientUserId payload = Some u ->
  JSString.truthy u = true
  /\ JSString.trim u = u
  /\ (exists raw : string,
        JS.get payload "clientUserId" = Some (JStr raw) /\ u = JSString.trim raw)
  /\ getClientUserId (JObj [("clientUserId", JStr u)]) = Some u.
Proof.
  unfold getClientUserId.
  destruct (isObject payload); cbn [negb]; [| discriminate].
  destruct (JS.get payload "clientUserId") as [[| | | raw | |] |]; try discriminate.
  destruct (JSString.truthy (JSString.trim raw)) eqn:T; [| discriminate].
  intros E. injection E as <-.
  split; [exact T |]. split; [apply JSStringFacts.trim_idempotent |].
  split; [exists raw; split; reflexivity |].
  cbn [isObject negb JS.get JS.member String.eqb Ascii.eqb Bool.eqb].
  rewrite JSStringFacts.trim_idempotent, T. reflexivity.
Qed.

(** A body whose id is padded with blanks. *)
Lemma getClientUserId_canonical_witness :
  JSString.truthy "u1" = true
  /\ JSString.trim "u1" = "u1"
  /\ (exists raw : string,
        JS.get (JObj [("clientUserId", JStr "  u1 ")]) "clientUserId" = Some (JStr raw)
        /\ "u1" = JSString.trim raw)
  /\ getClientUserId (JObj [("clientUserId", JStr "u1")]) = Some "u1".
Proof.
  exact (getClientUserId_canonical (JObj [("clientUserId", JStr "  u1 ")]) "u1" eq_refl).
Defined.


(** *** Prompt optimization *)

Lemma slice0_truthy (n : nat) (s : string) :
  JSString.truthy s = true -> JSString.truthy (JSString.slice0 (S n) s) = true.
Proof. destruct s; [discriminate | reflexivity]. Qed.

Lemma clampPrompt_trimmed (p : string) :
  JSString.truthy (JSString.trim p) = true ->
  JSString.truthy (clampPrompt (JSString.trim p)) = true.
Proof.
  intros H. unfold clampPrompt. rewrite JSStringFacts.trim_idempotent.
  now apply slice0_truthy.
Qed.

(** What [optimizePromptWithLongcat] returns, whatever the optimizer
    does. *)
Lemma optimizePrompt_result (env : Env) (prompt : string) (wf : Workflow)
    (op : option Operation) (w : World) :
  exists pr : PromptResult,
    optimizePromptWithLongcat env prompt wf op w = (Return pr, w)
    /\ result_optimized pr
       = negb (String.eqb (result_prompt pr) (clampPrompt prompt))
    /\ (result_source pr = original -> result_prompt pr = clampPrompt prompt)
    /\ (result_source pr = longcat ->
        exists (key : string) (content : option string),
          getLongcatKey (processEnv env) = Some key
          /\ longcatReply env = LongcatOk content)
    /\ (JSString.truthy (clampPrompt prompt) = true ->
        JSString.truthy (result_prompt pr) = true).
Proof.
  unfold optimizePromptWithLongcat.
  set (o := clampPrompt prompt).
  assert (U : exists pr : PromptResult,
            (Return (mkPromptResult o false original), w) = (Return pr, w)
            /\ result_optimized pr = negb (String.eqb (result_prompt pr) o)
            /\ (result_source pr = original -> result_prompt pr = o)
            /\ (result_source pr = longcat ->
                exists (key : string) (content : option string),
                  getLongcatKey (processEnv env) = Some key
                  /\ longcatReply env = LongcatOk content)
            /\ (JSString.truthy o = true -> JSString.truthy (result_prompt pr) = true)).
  { eexists. split; [reflexivity |]. cbn [result_optimized result_prompt result_source].
    rewrite String.eqb_refl. repeat split; auto. discriminate. }
  destruct (getLongcatKey (processEnv env)) as [key |]; [| exact U].
  destruct (JSString.truthy o) eqn:To; cbn [negb]; [| exact U].
  destruct (longcatReply env) as [| | content] eqn:R; try exact U.
  unfold ret. eexists. split; [reflexivity |].
  cbn [result_optimized result_prompt result_source].
  destruct (JSString.truthy (clampPrompt (orElse content o))) eqn:T;
    cbn [andb]; [| rewrite String.eqb_refl];
    repeat split; auto; try discriminate; intros _; exists key, content; auto.
Qed.

(** The flag [promptOptimized] tells exactly whether the prompt sent on
    differs from the clamped original; a result attributed to the original
    is the clamped original; the optimizer's text is used only with a key
    and an ok answer; a non-empty clamped original never becomes an empty
    prompt; the call never throws and leaves the world as it is. *)
Theorem optimizePromptWithLongcat_flag (env : Env) (prompt : string) (wf : Workflow)
    (op : option Operation) (w : World) :
  exists pr : PromptResult,
    optimizePromptWithLongcat env prompt wf op w = (Return pr, w)
    /\ (result_optimized pr = true <-> result_prompt pr <> clampPrompt prompt)
    /\ (result_source pr = original ->
        result_prompt pr = clampPrompt prompt /\ result_optimized pr = false)
    /\ (result_source pr = longcat ->
        exists (key : string) (content : option string),
          getLongcatKey (processEnv env) = Some key
          /\ longcatReply env = LongcatOk content)
    /\ (JSString.truthy (clampPrompt prompt) = true ->
        JSString.truthy (result_prompt pr) = true).
Proof.
  destruct (optimizePrompt_result env prompt wf op w) as (pr & H & F & O & L & T).
  exists pr. split; [exact H |]. split; [| split; [| split]]; try assumption.
  - rewrite F, negb_true_iff. split.
    + intros E Heq. rewrite Heq, String.eqb_refl in E. discriminate E.
    + intros Hne. destruct (String.eqb _ _) eqn:E; [| reflexivity].
      apply String.eqb_eq in E. contradiction.
  - intros Ho. split; [now apply O |]. rewrite F, (O Ho), String.eqb_refl. reflexivity.
Qed.

(** *** What is sent to the image provider *)

(** An admitted request that passes validation, with the call it makes. *)
Lemma generation_admitted_call (route : Route) (env : Env) (reqBody : JSON) (w w1 : World)
    (u : string) (usage : UsageView) :
  getClientUserId reqBody = Some u ->
  getUsageView env u w = (Return usage, w1) ->
  canGenerate usage = true ->
  requiredFieldPresent route reqBody = true ->
  factorConverts route reqBody = true ->
  exists (call : ReveCall) (originalPrompt : string) (pr : PromptResult),
    wellFormedCall route call
    /\ generationHandler route env reqBody w =
      match callReve env call w1 with
      | (Return data, w2) =>
          match markGenerationUsage env u w2 with
          | (Return _, w3) =>
              match getUsageView env u w3 with
              | (Return usageAfter, w4) =>
                  (Return (mkResponse 200
                             (GeneratedBody (toClientResponse data) originalPrompt
                                (result_prompt pr) (result_optimized pr) (result_source pr)
                                usageAfter)), w4)
              | (Throw e, w4) =>
                  (Return (mkResponse 500
                             (MessageBody (errorMessage e (unexpectedMessage route)))), w4)
              end
          | (Throw e, w3) =>
              (Return (mkResponse 500
                         (MessageBody (errorMessage e (unexpectedMessage route)))), w3)
          end
      | (Throw e, w2) =>
          (Return (mkResponse 500
                     (MessageBody (errorMessage e (unexpectedMessage route)))), w2)
      end.
Proof.
  intros Hu Hv Hc Hf Hn.
  destruct route; cbn [generationHandler unexpectedMessage requiredFieldPresent
                         factorConverts] in *.
  - unfold createRemoveBgHandler. rewrite Hu. unfold tryCatch. unfold bind at 1.
    rewrite Hv, Hc. cbn [negb].
    destruct (JS.get reqBody "prompt") as [[| | | p | |] |]; try discriminate Hf.
    rewrite Hf. cbn [negb].
    destruct (optimizePrompt_result env (JSString.trim p) workflow_create
                (Some op_remove_background) w1) as (pr & Hpr & _ & _ & _ & Ht).
    exists (mkReveCall create (result_prompt pr) None [remove_background]),
      (JSString.trim p), pr.
    split.
    { split; [apply Ht, clampPrompt_trimmed, Hf | repeat split]. }
    unfold bind at 1. rewrite Hpr. unfold bind at 1.
    destruct (callReve env _ w1) as [[data | e] w2]; [| reflexivity].
    unfold bind at 1.
    destruct (markGenerationUsage env u w2) as [[r | e] w3]; [| reflexivity].
    unfold bind, ret.
    destruct (getUsageView env u w3) as [[usageAfter | e] w4]; reflexivity.
  - unfold enhanceHandler. rewrite Hu. unfold tryCatch. unfold bind at 1.
    rewrite Hv, Hc. cbn [negb].
    destruct (JS.get reqBody "referenceImageBase64") as [[| | | ref | |] |];
      try discriminate Hf.
    rewrite Hf. cbn [negb].
    destruct (sanitizeUpscaleFactor (JS.get reqBody "upscaleFactor")) as [factor | e]
      eqn:Es; [| discriminate Hn].
    unfold bind at 1. unfold lift. cbv beta iota.
    set (prompt := match JS.get reqBody "prompt" with
                   | Some (JStr p) =>
                       if JSString.truthy (JSString.trim p) then JSString.trim p
                       else "Enhance this image quality while preserving natural details."
                   | _ => "Enhance this image quality while preserving natural details."
                   end).
    assert (Hp : JSString.truthy (clampPrompt prompt) = true).
    { subst prompt.
      destruct (JS.get reqBody "prompt") as [[| | | p | |] |]; try reflexivity.
      destruct (JSString.truthy (JSString.trim p)) eqn:T; [| reflexivity].
      now apply clampPrompt_trimmed. }
    set (operation := match JS.get reqBody "operation" with
                      | Some (JStr o) =>
                          if String.eqb o "remove_background"
                          then op_remove_background else op_upscale
                      | _ => op_upscale
                      end).
    destruct (optimizePrompt_result env prompt workflow_enhance (Some operation) w1)
      as (pr & Hpr & _ & _ & _ & Ht).
    exists (mkReveCall edit (result_prompt pr) (Some (normalizeBase64 ref))
              match operation with
              | op_remove_background => [remove_background]
              | op_upscale => [upscale factor]
              end), prompt, pr.
    split.
    { split; [apply Ht, Hp |]. split; [reflexivity |]. split; [eexists; reflexivity |].
      cbn [postprocessing]. destruct operation; [right | left; reflexivity].
      eexists. split; [reflexivity | exact (sanitizeUpscaleFactor_bounds _ _ Es)]. }
    unfold bind at 1. rewrite Hpr. unfold bind at 1.
    destruct (callReve env _ w1) as [[data | e] w2]; [| reflexivity].
    unfold bind at 1.
    destruct (markGenerationUsage env u w2) as [[r | e] w3]; [| reflexivity].
    unfold bind, ret.
    destruct (getUsageView env u w3) as [[usageAfter | e] w4]; reflexivity.
Qed.

Lemma callReve_cases (env : Env) (call : ReveCall) (w : World) :
  (exists e, getReveKey (processEnv env) = Throw e
             /\ callReve env call w = (Throw e, w))
  \/ (exists key c, getReveKey (processEnv env) = Return key
                    /\ callReve env call w = (c, sentTo call w)).
Proof.
  unfold callReve. async.
  destruct (getReveKey (processEnv env)) as [key | e].
  - right. exists key. destruct (reveReply env); eexists; split; reflexivity.
  - left. exists e. split; reflexivity.
Qed.

(** On either generation route, whatever the request and the
    environment, at most one request goes to the image provider, and one
    that goes is well formed; nothing goes without [REVE_API_KEY]. *)
Theorem provider_request_wellformed (route : Route) (env : Env) (reqBody : JSON)
    (w : World) :
  exists (response : Response) (w' : World),
    generationHandler route env reqBody w = (Return response, w')
    /\ (reveCalls w' = reveCalls w
        \/ exists (call : ReveCall) (key : string),
             reveCalls w' = reveCalls w ++ [call]
             /\ wellFormedCall route call
             /\ getReveKey (processEnv env) = Return key).
Proof.
  destruct (getClientUserId reqBody) as [u |] eqn:Hu.
  2:{ rewrite (generation_no_user route env reqBody w Hu).
      eexists _, _. split; [reflexivity | left; reflexivity]. }
  destruct (getUsageView_quiet env u w) as (usage & w1 & Hv & (Q & _)).
  destruct (canGenerate usage) eqn:Hc.
  2:{ destruct (denied_outcome route env reqBody w w1 u usage Hu Hv Hc)
        as (response & Hh & _ & _).
      exists response, w1. split; [exact Hh | left; exact Q]. }
  destruct (requiredFieldPresent route reqBody) eqn:Hf.
  2:{ rewrite (generation_invalid route env reqBody w w1 u usage Hu Hv Hc Hf).
      eexists _, _. split; [reflexivity | left; exact Q]. }
  destruct (factorConverts route reqBody) eqn:Hn.
  2:{ destruct (generation_unconverted route env reqBody w w1 u usage Hu Hv Hc Hf Hn)
        as (e & _ & Hh).
      rewrite Hh. eexists _, _. split; [reflexivity | left; exact Q]. }
  destruct (generation_admitted_call route env reqBody w w1 u usage Hu Hv Hc Hf Hn)
    as (call & original & pr & Hwf & Hstep).
  destruct (callReve_cases env call w1) as [(e & Hk & Hcall) | (key & c & Hk & Hcall)];
    rewrite Hcall in Hstep.
  { eexists _, _. split; [exact Hstep | left; exact Q]. }
  assert (S : reveCalls (sentTo call w1) = reveCalls w ++ [call])
    by (cbn [sentTo reveCalls]; now rewrite Q).
  destruct c as [data | e].
  2:{ eexists _, _. split; [exact Hstep |]. right. exists call, key. auto. }
  destruct (updateUsageRecord_any env u incrementGenerated (sentTo call w1))
    as (cur & k & r3 & w3 & Hup & C3 & _).
  unfold markGenerationUsage in Hstep. rewrite Hup in Hstep.
  destruct (getUsageView_quiet env u w3) as (usageAfter & w4 & Hview & (Q4 & _)).
  rewrite Hview in Hstep. eexists _, w4. split; [exact Hstep |].
  right. exists call, key. rewrite Q4, C3. auto.
Qed.

(** *** The answer to a denied request *)

Lemma generation_steps_admitted (route : Route) (env : Env) (reqBody : JSON)
    (w w1 : World) (u : string) (usage : UsageView) :
  getClientUserId reqBody = Some u ->
  getUsageView env u w = (Return usage, w1) ->
  canGenerate usage = true ->
  exists (response : Response) (w' : World),
    generationHandler route env reqBody w = (Return response, w')
    /\ status response <> 402.
Proof.
  intros Hu Hv Hc.
  destruct (requiredFieldPresent route reqBody) eqn:Hf.
  2:{ rewrite (generation_invalid route env reqBody w w1 u usage Hu Hv Hc Hf).
      eexists _, _. split; [reflexivity | discriminate]. }
  destruct (factorConverts route reqBody) eqn:Hn.
  2:{ destruct (generation_unconverted route env reqBody w w1 u usage Hu Hv Hc Hf Hn)
        as (e & _ & Hh).
      rewrite Hh. eexists _, _. split; [reflexivity | discriminate]. }
  destruct (generation_admitted route env reqBody w w1 u usage Hu Hv Hc Hf Hn)
    as (call & original & pr & Hstep).
  destruct (callReve env call w1) as [[data | e] w2];
    [| eexists _, _; split; [exact Hstep | discriminate]].
  destruct (updateUsageRecord_any env u incrementGenerated w2)
    as (cur & k & r3 & w3 & Hup & _).
  unfold markGenerationUsage in Hstep. rewrite Hup in Hstep.
  destruct (getUsageView_quiet env u w3) as (usageAfter & w4 & Hview & _).
  rewrite Hview in Hstep. eexists _, _. split; [exact Hstep | discriminate].
Qed.

(** On either generation route a 402 is the answer to a denied request
    only: its usage view cannot generate, its code is [upgrade_required],
    and it carries either a checkout URL that is not empty or a billing
    message, never both and never neither. *)
Theorem upgrade_response_contract (route : Route) (env : Env) (reqBody : JSON)
    (w : World) :
  exists (response : Response) (w' : World),
    generationHandler route env reqBody w = (Return response, w')
    /\ (status response = 402 ->
        exists (message : string) (checkoutUrl billingMessage : option string)
               (usage : UsageView),
          body response
          = UpgradeBody message "upgrade_required" checkoutUrl billingMessage usage
          /\ canGenerate usage = false
          /\ ((exists url, checkoutUrl = Some url /\ JSString.truthy url = true
                           /\ billingMessage = None
                           /\ lemonReply env = LemonOk (Some url))
              \/ (checkoutUrl = None /\ exists reason, billingMessage = Some reason))).
Proof.
  destruct (getClientUserId reqBody) as [u |] eqn:Hu.
  2:{ rewrite (generation_no_user route env reqBody w Hu).
      eexists _, _. split; [reflexivity | discriminate]. }
  destruct (getUsageView_quiet env u w) as (usage & w1 & Hv & _).
  destruct (canGenerate usage) eqn:Hc.
  - destruct (generation_steps_admitted route env reqBody w w1 u usage Hu Hv Hc)
      as (response & w' & H & Hs).
    exists response, w'. split; [exact H |]. intros E. contradiction.
  - destruct (denied_outcome route env reqBody w w1 u usage Hu Hv Hc)
      as (response & Hh & _ & Hr).
    exists response, w1. split; [exact Hh |]. intros E.
    unfold createLemonCheckoutUrl in Hr.
    destruct (getLemonApiKey (processEnv env)), (getLemonStoreId (processEnv env)),
      (getLemonVariantId (processEnv env));
      try (cbn [fst ret] in Hr; subst response; cbn [upgradeRequired body];
           eexists _, _, _, _; split; [reflexivity |]; split; [exact Hc |];
           right; split; [reflexivity | eexists; reflexivity]).
    destruct (lemonReply env) as [m | st | [[| c url] |]]; cbn [fst ret throw] in Hr;
      subst response; try discriminate E; cbn [upgradeRequired body];
      eexists _, _, _, _; (split; [reflexivity |]); (split; [exact Hc |]);
      try (right; split; [reflexivity | eexists; reflexivity]).
    left. eexists. repeat split; reflexivity.
Qed.

(** *** Only the request's user is touched, and the store stays well formed *)

Lemma untouched_refl (u : option string) (w : World) : untouched u w w.
Proof. intros u' _. split; reflexivity. Qed.

Lemma untouched_trans (u : option string) (w1 w2 w3 : World) :
  untouched u w1 w2 -> untouched u w2 w3 -> untouched u w1 w3.
Proof.
  intros H1 H2 u' Hne. destruct (H1 u' Hne) as [A B], (H2 u' Hne) as [C D].
  split; congruence.
Qed.

Lemma untouched_counters (u : option string) (w : World) (n c : nat) (l : list ReveCall) :
  untouched u w (mkWorld (usageFile w) (app_usage w) n c l).
Proof. intros u' _. split; reflexivity. Qed.

Lemma untouched_none (u : option string) (w w' : World) :
  untouched None w w' -> untouched u w w'.
Proof. intros H u' _. apply H. discriminate. Qed.

Lemma wellFormed_counters (w : World) (n c : nat) (l : list ReveCall) :
  wellFormedStore w -> wellFormedStore (mkWorld (usageFile w) (app_usage w) n c l).
Proof. intros H. exact H. Qed.

Lemma untouched_local (u : string) (w : World) (r : UsageRecord) (n c : nat)
    (l : list ReveCall) :
  untouched (Some u) w
    (mkWorld (FileStore (<[u := r]> (localUsers w))) (app_usage w) n c l).
Proof.
  intros u' Hne. split; [| reflexivity]. world.
  apply lookup_insert_ne. congruence.
Qed.

Lemma untouched_remote (u : string) (w : World) (cols : AppUsageColumns) (n c : nat)
    (l : list ReveCall) :
  untouched (Some u) w (mkWorld (usageFile w) (<[u := cols]> (app_usage w)) n c l).
Proof.
  intros u' Hne. split; [reflexivity |]. world.
  apply lookup_insert_ne. congruence.
Qed.

Lemma wellFormed_local (u : string) (w : World) (r : UsageRecord) (n c : nat)
    (l : list ReveCall) :
  wellFormedStore w -> userId r = u -> 0 <= generatedCount r ->
  wellFormedStore (mkWorld (FileStore (<[u := r]> (localUsers w))) (app_usage w) n c l).
Proof.
  intros [L R] Hu Hc. split; [| exact R].
  intros k r'. world. destruct (decide (u = k)) as [<- | Hne].
  - rewrite lookup_insert_eq. intros E. injection E as <-. auto.
  - rewrite lookup_insert_ne by exact Hne. apply L.
Qed.

Lemma wellFormed_remote (u : string) (w : World) (cols : AppUsageColumns) (n c : nat)
    (l : list ReveCall) :
  wellFormedStore w -> 0 <= col_generated_count cols ->
  wellFormedStore (mkWorld (usageFile w) (<[u := cols]> (app_usage w)) n c l).
Proof.
  intros [L R] Hc. split; [exact L |].
  intros k c'. world. destruct (decide (u = k)) as [<- | Hne].
  - rewrite lookup_insert_eq. intros E. injection E as <-. exact Hc.
  - rewrite lookup_insert_ne by exact Hne. apply R.
Qed.

Lemma getOrCreateLocal_frame (env : Env) (u : string) (w : World) :
  exists r w', getOrCreateLocalUsageRecord env u w = (Return r, w')
               /\ reveCalls w' = reveCalls w
               /\ untouched (Some u) w w'
               /\ (wellFormedStore w -> sound u r w').
Proof.
  rewrite getOrCreateLocal_eq.
  destruct (localUsers w !! u) as [r |] eqn:E.
  - exists r, w. split; [reflexivity |]. split; [reflexivity |].
    split; [apply untouched_refl |]. intros Hw. split; [exact Hw |].
    apply (proj1 Hw), E.
  - eexists _, _. split; [reflexivity |]. split; [reflexivity |].
    split; [apply untouched_local |]. intros Hw.
    split; [apply wellFormed_local; [exact Hw | reflexivity | reflexivity] |].
    split; reflexivity.
Qed.

Lemma getUsageRecord_frame (env : Env) (u : string) (w : World) :
  exists r w', getUsageRecord env u w = (Return r, w')
               /\ reveCalls w' = reveCalls w
               /\ untouched (Some u) w w'
               /\ (wellFormedStore w -> sound u r w').
Proof.
  destruct (supabase env) eqn:Hs.
  2:{ rewrite (getUsageRecord_local env u w Hs). apply getOrCreateLocal_frame. }
  rewrite (getUsageRecord_remote env u w Hs), (getOrCreateSupabase_eq env u w Hs).
  cbv zeta.
  assert (L : forall n c,
            exists r w', getOrCreateLocalUsageRecord env u
                           (mkWorld (usageFile w) (app_usage w) n c (reveCalls w))
                         = (Return r, w')
                         /\ reveCalls w' = reveCalls w
                         /\ untouched (Some u) w w'
                         /\ (wellFormedStore w -> sound u r w')).
  { intros n c.
    destruct (getOrCreateLocal_frame env u
                (mkWorld (usageFile w) (app_usage w) n c (reveCalls w)))
      as (r & w' & H & C & U & S).
    exists r, w'. split; [exact H |]. split; [exact C |].
    split; [exact (untouched_trans _ _ _ _ (untouched_counters _ w n c _) U) |].
    intros Hw. apply S, wellFormed_counters, Hw. }
  destruct (supabaseError env (supabaseRequests w)); [apply L |].
  destruct (app_usage w !! u) as [cols |] eqn:E.
  - eexists _, _. split; [reflexivity |]. split; [reflexivity |].
    split; [apply untouched_counters |]. intros Hw.
    split; [apply wellFormed_counters, Hw |]. split; [reflexivity |].
    apply (proj2 Hw u cols E).
  - destruct (supabaseError env (S (supabaseRequests w))); [apply L |].
    eexists _, _. split; [reflexivity |]. split; [reflexivity |].
    split; [apply untouched_remote |]. intros Hw.
    split; [apply wellFormed_remote; [exact Hw | reflexivity] |].
    split; reflexivity.
Qed.

Lemma updateLocal_frame (env : Env) (u : string) (updater : UsageRecord -> UsageRecord)
    (w : World) :
  keepsShape updater ->
  exists r w', updateLocalUsageRecord env u updater w = (Return r, w')
               /\ reveCalls w' = reveCalls w
               /\ untouched (Some u) w w'
               /\ (wellFormedStore w -> sound u r w').
Proof.
  intros Hk. rewrite updateLocal_eq.
  destruct (localUsers w !! u) as [cur |] eqn:E; cbv zeta.
  - eexists _, _. split; [reflexivity |]. split; [reflexivity |].
    split; [apply untouched_local |]. intros Hw.
    destruct (proj1 Hw u cur E) as [Hu Hc]. destruct (Hk cur) as [Ku Kc].
    assert (A : userId (stampUpdatedAt (isoTime env (clockReads w)) (updater cur)) = u)
      by (cbn; congruence).
    assert (B : 0 <= generatedCount
                       (stampUpdatedAt (isoTime env (clockReads w)) (updater cur)))
      by (cbn; auto).
    split; [apply wellFormed_local; assumption |]. split; assumption.
  - eexists _, _. split; [reflexivity |]. split; [reflexivity |].
    split; [apply untouched_local |]. intros Hw.
    destruct (Hk (defaultUsageRecord u (isoTime env (clockReads w)))) as [Ku Kc].
    cbn [defaultUsageRecord userId generatedCount] in Ku, Kc.
    split; [apply wellFormed_local; [exact Hw | exact Ku | apply Kc; lia] |].
    split; [exact Ku | apply Kc; lia].
Qed.

Lemma updateUsageRecord_frame (env : Env) (u : string)
    (updater : UsageRecord -> UsageRecord) (w : World) :
  keepsShape updater ->
  exists r w', updateUsageRecord env u updater w = (Return r, w')
               /\ reveCalls w' = reveCalls w
               /\ untouched (Some u) w w'
               /\ (wellFormedStore w -> sound u r w').
Proof.
  intros Hk.
  destruct (supabase env) eqn:Hs.
  2:{ rewrite (updateUsageRecord_local env u updater w Hs). now apply updateLocal_frame. }
  rewrite (updateUsageRecord_remote env u updater w Hs).
  destruct (getUsageRecord_frame env u w) as (cur & w1 & -> & C1 & U1 & S1). cbv zeta.
  destruct (supabaseError env (supabaseRequests w1)).
  - destruct (updateLocal_frame env u updater
                (mkWorld (usageFile w1) (app_usage w1) (S (supabaseRequests w1))
                   (S (clockReads w1)) (reveCalls w1)) Hk)
      as (r & w' & H & C & U & S).
    exists r, w'. split; [exact H |]. split; [cbn in C; congruence |].
    split.
    + exact (untouched_trans _ _ _ _ U1
               (untouched_trans _ _ _ _ (untouched_counters _ w1 _ _ _) U)).
    + intros Hw. apply S, wellFormed_counters, S1, Hw.
  - eexists _, _. split; [reflexivity |]. split; [exact C1 |].
    split; [exact (untouched_trans _ _ _ _ U1 (untouched_remote u w1 _ _ _ _)) |].
    intros Hw. destruct (S1 Hw) as (W1 & Hu & Hc). destruct (Hk cur) as [Ku Kc].
    split; [apply wellFormed_remote; [exact W1 | cbn; auto] |].
    split; [reflexivity | cbn; auto].
Qed.

Lemma keepsShape_increment : keepsShape incrementGenerated.
Proof. intros r. split; [reflexivity | cbn; lia]. Qed.

Lemma keepsShape_status (st : BillingStatus) : keepsShape (withBillingStatus st).
Proof. intros r. split; [reflexivity | cbn; auto]. Qed.

Lemma buildUsageView_sound (u : string) (r : UsageRecord) :
  userId r = u -> 0 <= generatedCount r -> soundView u (buildUsageView r).
Proof.
  intros Hu Hc. unfold soundView, buildUsageView, FREE_IMAGE_LIMIT. cbn.
  repeat split; try assumption; lia.
Qed.

Lemma getUsageView_frame (env : Env) (u : string) (w : World) :
  exists usage w', getUsageView env u w = (Return usage, w')
                   /\ reveCalls w' = reveCalls w
                   /\ untouched (Some u) w w'
                   /\ (wellFormedStore w -> wellFormedStore w' /\ soundView u usage).
Proof.
  unfold getUsageView, bind, ret.
  destruct (getUsageRecord_frame env u w) as (r & w' & -> & C & U & S).
  exists (buildUsageView r), w'. split; [reflexivity |]. split; [exact C |].
  split; [exact U |]. intros Hw. destruct (S Hw) as (W & Hu & Hc).
  split; [exact W | now apply buildUsageView_sound].
Qed.

Lemma verifyLemonSignature_returns (p : ProcessEnv) (raw : list Z) (sig : option string) :
  exists ok : bool, verifyLemonSignature p raw sig = Return ok.
Proof.
  destruct (getLemonWebhookSecret p) as [secret |] eqn:Hs.
  - destruct sig as [header |].
    + destruct (verify_with_header p raw secret header Hs) as [[H _] | [H _]];
        rewrite H; eauto.
    + unfold verifyLemonSignature. rewrite Hs. eauto.
  - unfold verifyLemonSignature. rewrite Hs. eauto.
Qed.

(** A delivery either leaves the world as it is and carries no usage, or
    names a user and a status and sets it. *)
Lemma webhook_outcome (env : Env) (req : WebhookRequest) (w : World) :
  (exists response,
     lemonWebhookHandler env req w = (Return response, w)
     /\ responseUsage response = None)
  \/ (exists u st,
        billingEvent req = Some (u, st)
        /\ lemonWebhookHandler env req w =
           match setBillingStatus env u st w with
           | (Return _, w') => (Return (mkResponse 200 (WebhookBody false)), w')
           | (Throw e, w') => (Throw e, w')
           end).
Proof.
  unfold billingEvent.
  destruct (rawBody req) as [raw |] eqn:Hb.
  2:{ left. unfold lemonWebhookHandler. rewrite Hb. eexists. split; reflexivity. }
  destruct (verifyLemonSignature_returns (processEnv env) raw
              (if present (xSignature req) then xSignature req else None)) as [ok Hv].
  destruct ok.
  2:{ left. unfold lemonWebhookHandler. rewrite Hb. unfold bind, lift. rewrite Hv.
      eexists. split; reflexivity. }
  destruct (JSONText.parse (Crypto.bufferToString raw)) as [payload |] eqn:Hp.
  2:{ left. unfold lemonWebhookHandler. rewrite Hb. unfold bind, lift. rewrite Hv.
      cbn [negb]. rewrite Hp. eexists. split; reflexivity. }
  pose proof (webhook_steps env req w raw payload Hb Hv Hp) as Hstep.
  destruct (readNestedString payload ["meta"; "event_name"]) as [eventName |] eqn:He.
  2:{ left. rewrite Hstep. destruct (isObject payload); eexists; split; reflexivity. }
  destruct (extractLemonUserId payload) as [u |] eqn:Hu.
  2:{ left. rewrite Hstep. destruct (isObject payload); eexists; split; reflexivity. }
  destruct (JSString.truthy u) eqn:Tu.
  2:{ left. rewrite Hstep. rewrite orb_true_r.
      destruct (isObject payload); eexists; split; reflexivity. }
  destruct (eventTarget eventName) as [st |] eqn:Ht.
  - right. exists u, st. split; [reflexivity |].
    exact (webhook_recognized env req w raw payload eventName u st Hb Hv Hp He Hu Tu Ht).
  - left. rewrite Hstep.
    destruct (isObject payload); [| eexists; split; reflexivity]. cbn [negb].
    destruct (JSString.truthy eventName); cbn [negb orb];
      [| eexists; split; reflexivity].
    unfold eventTarget in Ht.
    destruct (setHas deactivationEvents eventName); [discriminate |].
    destruct (setHas activationEvents eventName); [discriminate |].
    eexists. split; reflexivity.
Qed.

Lemma untouched_sentTo (u : option string) (call : ReveCall) (w : World) :
  untouched u w (sentTo call w).
Proof. intros u' _. split; reflexivity. Qed.

Lemma generation_frame (route : Route) (env : Env) (reqBody : JSON) (w : World) :
  exists (response : Response) (w' : World),
    generationHandler route env reqBody w = (Return response, w')
    /\ untouched (getClientUserId reqBody) w w'
    /\ (wellFormedStore w ->
        wellFormedStore w'
        /\ forall usage, responseUsage response = Some usage ->
             exists u, getClientUserId reqBody = Some u /\ soundView u usage).
Proof.
  destruct (getClientUserId reqBody) as [u |] eqn:Hu.
  2:{ rewrite (generation_no_user route env reqBody w Hu).
      eexists _, _. split; [reflexivity |]. split; [apply untouched_refl |].
      intros Hw. split; [exact Hw | discriminate]. }
  destruct (getUsageView_frame env u w) as (usage & w1 & Hv & _ & U1 & S1).
  destruct (canGenerate usage) eqn:Hc.
  2:{ destruct (denied_outcome route env reqBody w w1 u usage Hu Hv Hc)
        as (response & Hh & _ & Hr).
      exists response, w1. split; [exact Hh |]. split; [exact U1 |].
      intros Hw. destruct (S1 Hw) as [W1 V1]. split; [exact W1 |].
      intros usage' E.
      destruct (fst (createLemonCheckoutUrl env u None w1)); subst response;
        [| discriminate E].
      injection E as <-. eauto. }
  destruct (requiredFieldPresent route reqBody) eqn:Hf.
  2:{ rewrite (generation_invalid route env reqBody w w1 u usage Hu Hv Hc Hf).
      eexists _, _. split; [reflexivity |]. split; [exact U1 |].
      intros Hw. split; [apply (S1 Hw) | discriminate]. }
  destruct (factorConverts route reqBody) eqn:Hn.
  2:{ destruct (generation_unconverted route env reqBody w w1 u usage Hu Hv Hc Hf Hn)
        as (e & _ & Hh).
      rewrite Hh. eexists _, _. split; [reflexivity |]. split; [exact U1 |].
      intros Hw. split; [apply (S1 Hw) | discriminate]. }
  destruct (generation_admitted route env reqBody w w1 u usage Hu Hv Hc Hf Hn)
    as (call & original & pr & Hstep).
  destruct (callReve_cases env call w1) as [(e & Hk & Hcall) | (key & c & Hk & Hcall)];
    rewrite Hcall in Hstep.
  { eexists _, _. split; [exact Hstep |]. split; [exact U1 |].
    intros Hw. split; [apply (S1 Hw) | discriminate]. }
  destruct c as [data | e].
  2:{ eexists _, _. split; [exact Hstep |].
      split; [exact (untouched_trans _ _ _ _ U1 (untouched_sentTo _ call w1)) |].
      intros Hw. split; [apply (S1 Hw) | discriminate]. }
  destruct (updateUsageRecord_frame env u incrementGenerated (sentTo call w1)
              keepsShape_increment) as (r3 & w3 & Hup & _ & U3 & S3).
  unfold markGenerationUsage in Hstep. rewrite Hup in Hstep.
  destruct (getUsageView_frame env u w3) as (usageAfter & w4 & Hview & _ & U4 & S4).
  rewrite Hview in Hstep. eexists _, w4. split; [exact Hstep |].
  split.
  { exact (untouched_trans _ _ _ _ U1
             (untouched_trans _ _ _ _ (untouched_sentTo _ call w1)
                (untouched_trans _ _ _ _ U3 U4))). }
  intros Hw. destruct (S1 Hw) as [W1 _].
  destruct (S3 W1) as (W3 & _). destruct (S4 W3) as [W4 V4].
  split; [exact W4 |]. intros usage' E. injection E as <-. eauto.
Qed.

(** One request, whatever the environment: the handler answers; the
    records of every user but the request's are left as they were. *)
Lemma handle_frame (env : Env) (request : Request) (w : World) :
  exists (response : Response) (w' : World),
    handle env request w = (Return response, w')
    /\ untouched (subject request) w w'
    /\ (wellFormedStore w ->
        wellFormedStore w'
        /\ forall usage, responseUsage response = Some usage ->
             exists u, subject request = Some u /\ soundView u usage).
Proof.
  destruct request as [param | reqBody | req | reqBody | reqBody];
    cbn [handle subject].
  - (* status *)
    unfold billingStatusHandler, tryCatch.
    set (userId := match param with Some s => JSString.trim s | None => "" end).
    destruct (JSString.truthy userId) eqn:T; cbn [negb].
    + unfold bind, ret.
      destruct (getUsageView_frame env userId w) as (usage & w' & -> & _ & U & S).
      eexists _, w'. split; [reflexivity |]. split; [exact U |].
      intros Hw. destruct (S Hw) as [W V]. split; [exact W |].
      intros usage' E. injection E as <-. eauto.
    + eexists _, w. split; [reflexivity |]. split; [apply untouched_refl |].
      intros Hw. split; [exact Hw | discriminate].
  - (* checkout *)
    unfold createCheckoutHandler, tryCatch.
    destruct (getClientUserId reqBody) as [u |].
    2:{ eexists _, w. split; [reflexivity |]. split; [apply untouched_refl |].
        intros Hw. split; [exact Hw | discriminate]. }
    unfold bind, ret.
    match goal with
    | |- context [createLemonCheckoutUrl env u ?email w] =>
        pose proof (createLemonCheckoutUrl_world env u email w) as Hw';
        destruct (createLemonCheckoutUrl env u email w) as [[[url | m st] | e] w']
    end; cbn [snd] in Hw'; subst w';
      (eexists _, w; split; [reflexivity |]; split; [apply untouched_refl |];
       intros Hw; split; [exact Hw | discriminate]).
  - (* webhook *)
    destruct (webhook_outcome env req w) as [(response & H & N) | (u & st & Hev & H)].
    + exists response, w. split; [exact H |]. split; [apply untouched_refl |].
      intros Hw. split; [exact Hw |]. intros usage E. rewrite N in E. discriminate E.
    + rewrite Hev. cbn [fmap option_fmap option_map fst].
      destruct (updateUsageRecord_frame env u (withBillingStatus st) w
                  (keepsShape_status st)) as (r & w' & Hup & _ & U & S).
      unfold setBillingStatus in H. rewrite Hup in H.
      eexists _, w'. split; [exact H |]. split; [exact U |].
      intros Hw. split; [apply (S Hw) | discriminate].
  - apply (generation_frame CreateRemoveBg).
  - apply (generation_frame Enhance).
Qed.

(** *** Requests one after the other, under a steady backend *)

Lemma storedRecord_sentTo (b : Backend) (call : ReveCall) (w : World) (u : string) :
  storedRecord b (sentTo call w) u = storedRecord b w u.
Proof. destruct b; reflexivity. Qed.

Lemma keeps_refl (b : Backend) (w : World) : keeps b w w.
Proof. intros u. split; reflexivity. Qed.

Lemma keeps_trans (b : Backend) (w1 w2 w3 : World) :
  keeps b w1 w2 -> keeps b w2 w3 -> keeps b w1 w3.
Proof.
  intros H1 H2 u. destruct (H1 u) as [A B], (H2 u) as [C D]. split; congruence.
Qed.

Lemma keeps_sentTo (b : Backend) (call : ReveCall) (w : World) : keeps b w (sentTo call w).
Proof.
  intros u. unfold storedCount, storedStatus. rewrite storedRecord_sentTo.
  split; reflexivity.
Qed.

(** A read under a steady backend keeps every count and status: the
    record it may create is the default one. *)
Lemma read_keeps (env : Env) (b : Backend) (w w1 : World) (v : string) :
  storedRecord b w1 v = Some (currentOrDefault env b w v) ->
  (forall u', u' <> v -> storedRecord b w1 u' = storedRecord b w u') ->
  keeps b w w1.
Proof.
  intros Hv Ho u. unfold storedCount, storedStatus.
  destruct (decide (u = v)) as [-> | Hne].
  - rewrite Hv. unfold currentOrDefault.
    destruct (storedRecord b w v); split; reflexivity.
  - rewrite (Ho u Hne). split; reflexivity.
Qed.

Lemma getUsageView_steady (env : Env) (b : Backend) (v : string) (w : World) :
  backendMode env b ->
  exists w1,
    getUsageView env v w = (Return (buildUsageView (currentOrDefault env b w v)), w1)
    /\ storedRecord b w1 v = Some (currentOrDefault env b w v)
    /\ keeps b w w1.
Proof.
  intros Hm.
  destruct (getUsageRecord_mode env b v w Hm) as (w1 & Hg & Hs & Ho & _).
  exists w1. unfold getUsageView, bind, ret. rewrite Hg.
  split; [reflexivity |]. split; [exact Hs |]. exact (read_keeps env b w w1 v Hs Ho).
Qed.

Lemma admitted_view (env : Env) (b : Backend) (w : World) (u : string) :
  canGenerate (buildUsageView (currentOrDefault env b w u)) = admitted b w u.
Proof.
  unfold admitted, storedStatus, storedCount, currentOrDefault, buildUsageView,
    FREE_IMAGE_LIMIT.
  destruct (storedRecord b w u) as [r |]; cbn.
  - f_equal. rewrite Z.gtb_ltb.
    destruct (Z.ltb_spec 0 (Z.max 0 (1 - generatedCount r))),
      (Z.ltb_spec (generatedCount r) 1); try reflexivity; lia.
  - reflexivity.
Qed.

Lemma update_steady (env : Env) (b : Backend) (v : string)
    (updater : UsageRecord -> UsageRecord) (w : World) :
  backendMode env b ->
  exists (r : UsageRecord) (w' : World),
    updateUsageRecord env v updater w = (Return r, w')
    /\ storedRecord b w' v = Some r
    /\ generatedCount r = generatedCount (updater (currentOrDefault env b w v))
    /\ billingStatus r = billingStatus (updater (currentOrDefault env b w v))
    /\ (forall u, u <> v ->
          storedCount b w' u = storedCount b w u
          /\ storedStatus b w' u = storedStatus b w u).
Proof.
  intros Hm.
  destruct (updateUsageRecord_mode env b v updater w Hm) as (w' & k & Hu & Hs & Ho & _).
  cbv zeta in Hu, Hs. eexists _, w'. split; [exact Hu |]. split; [exact Hs |].
  split; [destruct b; reflexivity |]. split; [destruct b; reflexivity |].
  intros u Hne. unfold storedCount, storedStatus. rewrite (Ho u Hne).
  split; reflexivity.
Qed.

Lemma currentOrDefault_status (env : Env) (b : Backend) (w : World) (u : string) :
  billingStatus (currentOrDefault env b w u) = storedStatus b w u.
Proof. unfold currentOrDefault, storedStatus. destruct (storedRecord b w u); reflexivity. Qed.

Lemma markGenerationUsage_steady (env : Env) (b : Backend) (v : string) (w : World) :
  backendMode env b ->
  exists (r : UsageRecord) (w' : World),
    markGenerationUsage env v w = (Return r, w') /\ bumps b v w w'.
Proof.
  intros Hm. destruct (update_steady env b v incrementGenerated w Hm)
    as (r & w' & Hu & Hs & Hc & Hb & Ho).
  exists r, w'. split; [exact Hu |].
  unfold bumps, storedCount, storedStatus. rewrite Hs.
  cbn [incrementGenerated generatedCount billingStatus] in Hc, Hb.
  rewrite storedCount_current in Hc. rewrite currentOrDefault_status in Hb.
  split; [exact Hc |]. split; [exact Hb |]. exact Ho.
Qed.

Lemma setBillingStatus_steady (env : Env) (b : Backend) (v : string) (st : BillingStatus)
    (w : World) :
  backendMode env b ->
  exists (r : UsageRecord) (w' : World),
    setBillingStatus env v st w = (Return r, w') /\ restates b v st w w'.
Proof.
  intros Hm. destruct (update_steady env b v (withBillingStatus st) w Hm)
    as (r & w' & Hu & Hs & Hc & Hb & Ho).
  exists r, w'. split; [exact Hu |].
  unfold restates, storedCount, storedStatus. rewrite Hs.
  cbn [withBillingStatus generatedCount billingStatus] in Hc, Hb.
  rewrite storedCount_current in Hc.
  split; [exact Hc |]. split; [exact Hb |]. exact Ho.
Qed.

Lemma bumps_after (b : Backend) (v : string) (w0 w1 w2 w3 : World) :
  keeps b w0 w1 -> bumps b v w1 w2 -> keeps b w2 w3 -> bumps b v w0 w3.
Proof.
  intros K1 (B1 & B2 & B3) K2. unfold bumps.
  destruct (K1 v) as [A1 A2], (K2 v) as [C1 C2].
  split; [congruence |]. split; [congruence |].
  intros u Hne. destruct (K1 u) as [D1 D2], (K2 u) as [E1 E2], (B3 u Hne) as [F1 F2].
  split; congruence.
Qed.

(** A generation request of user [v] under a steady backend: answered
    200 with the count moved by one, exactly when the stored record admits
    it and the request is valid and the provider returns; otherwise
    answered something else with no count or status moved, and 402 only
    when the record does not admit it. *)
Lemma generation_steady (route : Route) (env : Env) (b : Backend) (reqBody : JSON)
    (w : World) (v : string) :
  backendMode env b ->
  getClientUserId reqBody = Some v ->
  exists (response : Response) (w' : World),
    generationHandler route env reqBody w = (Return response, w')
    /\ ((status response = 200 /\ admitted b w v = true /\ bumps b v w w')
        \/ (status response <> 200 /\ keeps b w w'
            /\ (status response = 402 -> admitted b w v = false)
            /\ (admitted b w v = false -> status response = 402 \/ status response = 500))).
Proof.
  intros Hm Hu.
  destruct (getUsageView_steady env b v w Hm) as (w1 & Hv & Hs1 & K1).
  pose proof (admitted_view env b w v) as Ha.
  set (usage := buildUsageView (currentOrDefault env b w v)) in *.
  destruct (canGenerate usage) eqn:Hc.
  2:{ destruct (denied_outcome route env reqBody w w1 v usage Hu Hv Hc)
        as (response & Hh & _ & Hr).
      exists response, w1. split; [exact Hh |]. right.
      destruct (fst (createLemonCheckoutUrl env v None w1)); subst response;
        cbn [status upgradeRequired]; (split; [discriminate |]); (split; [exact K1 |]);
        auto. }
  destruct (requiredFieldPresent route reqBody) eqn:Hf.
  2:{ rewrite (generation_invalid route env reqBody w w1 v usage Hu Hv Hc Hf).
      eexists _, _. split; [reflexivity |]. right. cbn [status].
      split; [discriminate |]. split; [exact K1 |].
      split; [discriminate | congruence]. }
  destruct (factorConverts route reqBody) eqn:Hn.
  2:{ destruct (generation_unconverted route env reqBody w w1 v usage Hu Hv Hc Hf Hn)
        as (e & _ & Hh).
      rewrite Hh. eexists _, _. split; [reflexivity |]. right. cbn [status].
      split; [discriminate |]. split; [exact K1 |].
      split; [discriminate | congruence]. }
  destruct (generation_admitted route env reqBody w w1 v usage Hu Hv Hc Hf Hn)
    as (call & original & pr & Hstep).
  destruct (callReve_cases env call w1) as [(e & Hk & Hcall) | (key & c & Hk & Hcall)];
    rewrite Hcall in Hstep.
  { eexists _, _. split; [exact Hstep |]. right. cbn [status].
    split; [discriminate |]. split; [exact K1 |].
    split; [discriminate | congruence]. }
  destruct c as [data | e].
  2:{ eexists _, _. split; [exact Hstep |]. right. cbn [status].
      split; [discriminate |].
      split; [exact (keeps_trans _ _ _ _ K1 (keeps_sentTo b call w1)) |].
      split; [discriminate | congruence]. }
  destruct (markGenerationUsage_steady env b v (sentTo call w1) Hm)
    as (r3 & w3 & Hup & B3).
  rewrite Hup in Hstep.
  destruct (getUsageView_steady env b v w3 Hm) as (w4 & Hview & _ & K4).
  rewrite Hview in Hstep. eexists _, w4. split; [exact Hstep |]. left.
  split; [reflexivity |]. split; [congruence |].
  exact (bumps_after b v w w1 w3 w4
           K1 (bumps_after b v w1 (sentTo call w1) w3 w3
                 (keeps_sentTo b call w1) B3 (keeps_refl b w3)) K4).
Qed.

Lemma generationOf_user (u : string) (request : Request) :
  generationOf u request = true ->
  exists (route : Route) (reqBody : JSON),
    getClientUserId reqBody = Some u
    /\ forall env, handle env request = generationHandler route env reqBody.
Proof.
  destruct request as [p | reqBody | req | reqBody | reqBody]; cbn [generationOf];
    try discriminate.
  - destruct (getClientUserId reqBody) as [v |] eqn:E; [| discriminate].
    intros H. apply String.eqb_eq in H. subst v.
    exists CreateRemoveBg, reqBody. split; [exact E | reflexivity].
  - destruct (getClientUserId reqBody) as [v |] eqn:E; [| discriminate].
    intros H. apply String.eqb_eq in H. subst v.
    exists Enhance, reqBody. split; [exact E | reflexivity].
Qed.

Lemma generationOf_unique (u v : string) (request : Request) :
  generationOf u request = true -> generationOf v request = true -> u = v.
Proof.
  destruct request as [p | reqBody | req | reqBody | reqBody]; cbn [generationOf];
    try discriminate;
    destruct (getClientUserId reqBody) as [x |]; try discriminate;
    intros A B; apply String.eqb_eq in A, B; congruence.
Qed.

(** What one request does to the counts and statuses of a steady
    backend: nothing; or one more generation for the user who asked and
    was admitted; or a new status for the user a delivery names. *)
Lemma handle_steady (b : Backend) (env : Env) (request : Request) (w : World) :
  backendMode env b ->
  exists (response : Response) (w' : World),
    handle env request w = (Return response, w')
    /\ ((keeps b w w'
         /\ forall u, generationOf u request = true ->
              status response <> 200
              /\ (status response = 402 -> admitted b w u = false)
              /\ (admitted b w u = false ->
                  status response = 402 \/ status response = 500))
        \/ (exists v, generationOf v request = true /\ status response = 200
                      /\ admitted b w v = true /\ bumps b v w w')
        \/ (exists v st, namesStatus v st request /\ generationOf v request = false
                         /\ (forall u, generationOf u request = false)
                         /\ restates b v st w w')).
Proof.
  intros Hm.
  assert (G : forall route reqBody,
            (forall u, generationOf u
                         match route with
                         | CreateRemoveBg => PostCreateRemoveBg reqBody
                         | Enhance => PostEnhance reqBody
                         end = match getClientUserId reqBody with
                               | Some v => String.eqb v u
                               | None => false
                               end) ->
            exists (response : Response) (w' : World),
              generationHandler route env reqBody w = (Return response, w')
              /\ ((keeps b w w'
                   /\ forall u, match getClientUserId reqBody with
                                | Some v => String.eqb v u
                                | None => false
                                end = true ->
                        status response <> 200
                        /\ (status response = 402 -> admitted b w u = false)
                        /\ (admitted b w u = false ->
                            status response = 402 \/ status response = 500))
                  \/ (exists v, match getClientUserId reqBody with
                                | Some x => String.eqb x v
                                | None => false
                                end = true /\ status response = 200
                                /\ admitted b w v = true /\ bumps b v w w'))).
  { intros route reqBody _.
    destruct (getClientUserId reqBody) as [v |] eqn:Hu.
    - destruct (generation_steady route env b reqBody w v Hm Hu)
        as (response & w' & H & [(S & A & B) | (S & K & D & E)]).
      + exists response, w'. split; [exact H |]. right. exists v.
        rewrite String.eqb_refl. auto.
      + exists response, w'. split; [exact H |]. left. split; [exact K |].
        intros u Eu. apply String.eqb_eq in Eu. subst u. auto.
    - rewrite (generation_no_user route env reqBody w Hu).
      eexists _, _. split; [reflexivity |]. left. split; [apply keeps_refl |].
      discriminate. }
  destruct request as [param | reqBody | req | reqBody | reqBody]; cbn [handle].
  - (* status *)
    unfold billingStatusHandler, tryCatch.
    set (userId := match param with Some s => JSString.trim s | None => "" end).
    destruct (JSString.truthy userId); cbn [negb].
    + unfold bind, ret.
      destruct (getUsageView_steady env b userId w Hm) as (w1 & -> & _ & K).
      eexists _, w1. split; [reflexivity |]. left. split; [exact K | discriminate].
    + eexists _, w. split; [reflexivity |]. left. split; [apply keeps_refl | discriminate].
  - (* checkout *)
    destruct (handle_frame env (PostCreateCheckout reqBody) w) as (response & w' & H & U & _).
    cbn [handle subject] in H, U. exists response, w'. split; [exact H |]. left.
    split; [| discriminate].
    assert (E : w' = w).
    { unfold createCheckoutHandler, tryCatch in H.
      destruct (getClientUserId reqBody) as [u |]; [| now injection H].
      unfold bind, ret in H.
      match type of H with
      | context [createLemonCheckoutUrl env u ?email w] =>
          pose proof (createLemonCheckoutUrl_world env u email w) as Hw';
          destruct (createLemonCheckoutUrl env u email w) as [[[url | m st] | e] w'']
      end; cbn [snd] in Hw'; subst w''; now injection H. }
    subst w'. apply keeps_refl.
  - (* webhook *)
    destruct (webhook_outcome env req w) as [(response & H & _) | (v & st & Hev & H)].
    + exists response, w. split; [exact H |]. left.
      split; [apply keeps_refl | discriminate].
    + destruct (setBillingStatus_steady env b v st w Hm) as (r & w' & Hs & R).
      rewrite Hs in H. eexists _, w'. split; [exact H |]. right. right.
      exists v, st. split; [exact Hev |]. split; [reflexivity |].
      split; [reflexivity | exact R].
  - destruct (G CreateRemoveBg reqBody (fun _ => eq_refl))
      as (response & w' & H & [A | B]); exists response, w';
      (split; [exact H |]); [left | right; left]; assumption.
  - destruct (G Enhance reqBody (fun _ => eq_refl))
      as (response & w' & H & [A | B]); exists response, w';
      (split; [exact H |]); [left | right; left]; assumption.
Qed.

Lemma serve_cons (env : Env) (request : Request) (rest : list (Env * Request))
    (w w1 : World) (c : Completion Response) :
  handle env request w = (c, w1) ->
  serve ((env, request) :: rest) w
  = ((request, c) :: fst (serve rest w1), snd (serve rest w1)).
Proof.
  intros H. cbn [serve]. rewrite H. destruct (serve rest w1); reflexivity.
Qed.

Lemma generationsAnswered_cons (code : Z) (u : string) (request : Request)
    (c : Completion Response) (log : list (Request * Completion Response)) :
  generationsAnswered code u ((request, c) :: log)
  = if generationOf u request && answered code c
    then (request, c) :: generationsAnswered code u log
    else generationsAnswered code u log.
Proof. reflexivity. Qed.

(** Under a steady backend the stored count of a user moves with the
    generations served to the user, and with nothing else: after any
    requests it is the count before plus the number of the user's
    generation requests answered 200. *)
Theorem count_is_generations_served (b : Backend) (steps : list (Env * Request))
    (w : World) (u : string) :
  Forall (fun step => backendMode (fst step) b) steps ->
  storedCount b (snd (serve steps w)) u
  = storedCount b w u
    + Z.of_nat (length (generationsAnswered 200 u (fst (serve steps w)))).
Proof.
  revert w; induction steps as [| [env request] rest IH]; intros w Hm.
  - cbn. lia.
  - pose proof (Forall_inv Hm) as Hm1. pose proof (Forall_inv_tail Hm) as Hm2.
    cbn [fst] in Hm1.
    destruct (handle_steady b env request w Hm1) as (response & w1 & H & Hcase).
    rewrite (serve_cons env request rest w w1 _ H). cbn [fst snd].
    rewrite (IH w1 Hm2), generationsAnswered_cons. cbn [answered].
    destruct Hcase as [(K & D) | [(v & Gv & S & A & (B1 & B2 & B3))
                                 | (v & st & N & Gv & Gn & (R1 & R2 & R3))]].
    + destruct (K u) as [Kc _]. rewrite Kc.
      destruct (generationOf u request) eqn:Gu; cbn [andb]; [| lia].
      destruct (D u Gu) as (Hne & _).
      destruct (Z.eqb_spec (status response) 200); [contradiction | lia].
    + destruct (generationOf u request) eqn:Gu; cbn [andb].
      * pose proof (generationOf_unique u v request Gu Gv) as ->.
        rewrite S, B1, Z.eqb_refl. cbn [length]. lia.
      * assert (Hne : u <> v) by (intros ->; congruence).
        destruct (B3 u Hne) as [Bc _]. rewrite Bc. lia.
    + rewrite (Gn u). cbn [andb].
      destruct (decide (u = v)) as [-> | Hne]; [rewrite R1; lia |].
      destruct (R3 u Hne) as [Rc _]. rewrite Rc. lia.
Qed.

(** The visit of user u1, from a world that knows nobody. *)
Lemma count_is_generations_served_witness :
  storedCount LocalOnly (snd (serve Sample.visit Sample.fresh)) "u1"
  = storedCount LocalOnly Sample.fresh "u1"
    + Z.of_nat (length (generationsAnswered 200 "u1"
                          (fst (serve Sample.visit Sample.fresh)))).
Proof.
  apply (count_is_generations_served LocalOnly Sample.visit Sample.fresh "u1").
  repeat constructor.
Defined.

Lemma admitted_free (b : Backend) (w : World) (u : string) :
  storedStatus b w u = free ->
  admitted b w u = (storedCount b w u <? FREE_IMAGE_LIMIT).
Proof. unfold admitted. intros ->. reflexivity. Qed.

Lemma admitted_active (b : Backend) (w : World) (u : string) :
  storedStatus b w u = active -> admitted b w u = true.
Proof. unfold admitted. intros ->. reflexivity. Qed.

(** The free quota.  Under a steady backend, as long as no delivery names
    the user with an activating event, a user on the free plan stays on
    it, is served at most as many generations as the free limit leaves
    over the stored count, and, once the count has reached the limit, has
    every generation request answered 402 or 500. *)
Theorem free_quota_bound (b : Backend) (steps : list (Env * Request)) (w : World)
    (u : string) :
  Forall (fun step => backendMode (fst step) b) steps ->
  Forall (fun step => ~ namesStatus u active (snd step)) steps ->
  storedStatus b w u = free ->
  Z.of_nat (length (generationsAnswered 200 u (fst (serve steps w))))
    <= Z.max 0 (FREE_IMAGE_LIMIT - storedCount b w u)
  /\ storedStatus b (snd (serve steps w)) u = free
  /\ (FREE_IMAGE_LIMIT <= storedCount b w u ->
      forall request c,
        In (request, c) (fst (serve steps w)) -> generationOf u request = true ->
        answered 402 c || answered 500 c = true).
Proof.
  revert w; induction steps as [| [env request] rest IH]; intros w Hm Hn Hf.
  - cbn. split; [lia |]. split; [exact Hf |]. intros _ request c [].
  - pose proof (Forall_inv Hm) as Hm1. pose proof (Forall_inv_tail Hm) as Hm2.
    pose proof (Forall_inv Hn) as Hn1. pose proof (Forall_inv_tail Hn) as Hn2.
    cbn [fst snd] in Hm1, Hn1.
    destruct (handle_steady b env request w Hm1) as (response & w1 & H & Hcase).
    rewrite (serve_cons env request rest w w1 _ H). cbn [fst snd].
    rewrite generationsAnswered_cons. cbn [answered].
    pose proof (admitted_free b w u Hf) as Ha.
    destruct Hcase as [(K & D) | [(v & Gv & S & A & (B1 & B2 & B3))
                                 | (v & st & N & Gv & Gn & (R1 & R2 & R3))]].
    + destruct (K u) as [Kc Ks].
      destruct (IH w1 Hm2 Hn2 (eq_trans Ks Hf)) as (I1 & I2 & I3).
      rewrite Kc in I1, I3. split; [| split; [exact I2 |]].
      * destruct (generationOf u request) eqn:Gu; cbn [andb]; [| exact I1].
        destruct (D u Gu) as (Hne & _).
        destruct (Z.eqb_spec (status response) 200); [contradiction | exact I1].
      * intros Hl request' c [E | Hin] Gu.
        -- injection E as <- <-. destruct (D u Gu) as (_ & _ & Hd).
           cbn [answered].
           assert (Hna : admitted b w u = false)
             by (rewrite Ha; apply Z.ltb_ge; exact Hl).
           destruct (Hd Hna) as [-> | ->]; reflexivity.
        -- exact (I3 Hl request' c Hin Gu).
    + destruct (generationOf u request) eqn:Gu; cbn [andb].
      * pose proof (generationOf_unique u v request Gu Gv) as ->.
        destruct (IH w1 Hm2 Hn2 (eq_trans B2 Hf)) as (I1 & I2 & I3).
        rewrite B1 in I1. rewrite S, Z.eqb_refl. cbn [length].
        rewrite Ha in A. apply Z.ltb_lt in A.
        split; [lia |]. split; [exact I2 |]. intros Hl. lia.
      * assert (Hne : u <> v) by (intros ->; congruence).
        destruct (B3 u Hne) as [Bc Bs].
        destruct (IH w1 Hm2 Hn2 (eq_trans Bs Hf)) as (I1 & I2 & I3).
        rewrite Bc in I1, I3. split; [exact I1 |]. split; [exact I2 |].
        intros Hl request' c [E | Hin] Gu'.
        -- injection E as <- <-. congruence.
        -- exact (I3 Hl request' c Hin Gu').
    + rewrite (Gn u). cbn [andb].
      assert (Hs : storedStatus b w1 u = free /\ storedCount b w1 u = storedCount b w u).
      { destruct (decide (u = v)) as [-> | Hne].
        - split; [| exact R1]. rewrite R2. destruct st; [reflexivity | contradiction]. 
        - destruct (R3 u Hne) as [Rc Rs]. split; congruence. }
      destruct Hs as [Hs Hc].
      destruct (IH w1 Hm2 Hn2 Hs) as (I1 & I2 & I3).
      rewrite Hc in I1, I3. split; [exact I1 |]. split; [exact I2 |].
      intros Hl request' c [E | Hin] Gu'.
      -- injection E as <- <-. rewrite (Gn u) in Gu'. discriminate Gu'.
      -- exact (I3 Hl request' c Hin Gu').
Qed.

(** The same visit: one generation is served, and the user stays on the
    free plan. *)
Lemma free_quota_bound_witness :
  Z.of_nat (length (generationsAnswered 200 "u1" (fst (serve Sample.visit Sample.fresh))))
    <= Z.max 0 (FREE_IMAGE_LIMIT - storedCount LocalOnly Sample.fresh "u1")
  /\ storedStatus LocalOnly (snd (serve Sample.visit Sample.fresh)) "u1" = free.
Proof.
  destruct (free_quota_bound LocalOnly Sample.visit Sample.fresh "u1") as (A & B & _).
  - repeat constructor.
  - repeat constructor; intros [].
  - reflexivity.
  - split; [exact A | exact B].
Defined.

(** A subscriber is never asked to upgrade.  Under a steady backend, as
    long as no delivery names the user with a deactivating event, a user
    with an active subscription keeps it and has no generation request
    answered 402, whatever the stored count. *)
Theorem subscriber_never_denied (b : Backend) (steps : list (Env * Request)) (w : World)
    (u : string) :
  Forall (fun step => backendMode (fst step) b) steps ->
  Forall (fun step => ~ namesStatus u free (snd step)) steps ->
  storedStatus b w u = active ->
  generationsAnswered 402 u (fst (serve steps w)) = []
  /\ storedStatus b (snd (serve steps w)) u = active.
Proof.
  revert w; induction steps as [| [env request] rest IH]; intros w Hm Hn Hf.
  - cbn. split; [reflexivity | exact Hf].
  - pose proof (Forall_inv Hm) as Hm1. pose proof (Forall_inv_tail Hm) as Hm2.
    pose proof (Forall_inv Hn) as Hn1. pose proof (Forall_inv_tail Hn) as Hn2.
    cbn [fst snd] in Hm1, Hn1.
    destruct (handle_steady b env request w Hm1) as (response & w1 & H & Hcase).
    rewrite (serve_cons env request rest w w1 _ H). cbn [fst snd].
    rewrite generationsAnswered_cons. cbn [answered].
    pose proof (admitted_active b w u Hf) as Ha.
    destruct Hcase as [(K & D) | [(v & Gv & S & A & (B1 & B2 & B3))
                                 | (v & st & N & Gv & Gn & (R1 & R2 & R3))]].
    + destruct (K u) as [_ Ks].
      destruct (generationOf u request) eqn:Gu; cbn [andb];
        [| exact (IH w1 Hm2 Hn2 (eq_trans Ks Hf))].
      destruct (D u Gu) as (_ & Hd & _).
      destruct (Z.eqb_spec (status response) 402) as [E | _];
        [specialize (Hd E); congruence | exact (IH w1 Hm2 Hn2 (eq_trans Ks Hf))].
    + assert (Hs : storedStatus b w1 u = active).
      { destruct (decide (u = v)) as [-> | Hne]; [congruence |].
        destruct (B3 u Hne) as [_ Bs]. congruence. }
      rewrite S. change (200 =? 402) with false. rewrite andb_false_r.
      exact (IH w1 Hm2 Hn2 Hs).
    + rewrite (Gn u). cbn [andb].
      assert (Hs : storedStatus b w1 u = active).
      { destruct (decide (u = v)) as [-> | Hne].
        - rewrite R2. destruct st; [contradiction | reflexivity].
        - destruct (R3 u Hne) as [_ Rs]. congruence. }
      exact (IH w1 Hm2 Hn2 Hs).
Qed.

(** The same requests from a subscriber with five generations stored. *)
Lemma subscriber_never_denied_witness :
  generationsAnswered 402 "u1" (fst (serve Sample.visit Sample.subscribed)) = []
  /\ storedStatus LocalOnly (snd (serve Sample.visit Sample.subscribed)) "u1" = active.
Proof.
  apply (subscriber_never_denied LocalOnly Sample.visit Sample.subscribed "u1").
  - repeat constructor.
  - repeat constructor; intros [].
  - reflexivity.
Defined.

(** *** Requests one after the other, whatever the remote store does *)

(** A user's records, in the file and in the table, are changed only by
    requests that name the user: after any requests none of which does,
    whatever the environments, they are what they were. *)
Theorem requests_touch_only_their_user (steps : list (Env * Request)) (w : World)
    (u : string) :
  Forall (fun step => subject (snd step) <> Some u) steps ->
  localUsers (snd (serve steps w)) !! u = localUsers w !! u
  /\ app_usage (snd (serve steps w)) !! u = app_usage w !! u.
Proof.
  revert w; induction steps as [| [env request] rest IH]; intros w Hn.
  - cbn. split; reflexivity.
  - pose proof (Forall_inv Hn) as Hn1. pose proof (Forall_inv_tail Hn) as Hn2.
    cbn [snd] in Hn1.
    destruct (handle_frame env request w) as (response & w1 & H & U & _).
    rewrite (serve_cons env request rest w w1 _ H). cbn [snd].
    destruct (IH w1 Hn2) as [A B], (U u Hn1) as [C D]. split; congruence.
Qed.

(** The visit of user u1 leaves the record of user u2 alone. *)
Lemma requests_touch_only_their_user_witness :
  localUsers (snd (serve Sample.visit Sample.neighbour)) !! "u2"
  = localUsers Sample.neighbour !! "u2"
  /\ app_usage (snd (serve Sample.visit Sample.neighbour)) !! "u2"
     = app_usage Sample.neighbour !! "u2".
Proof.
  apply (requests_touch_only_their_user Sample.visit Sample.neighbour "u2").
  repeat constructor; vm_compute; discriminate.
Defined.

(** The store stays well formed.  If every record of the usage file is
    stored under its own user id and no stored count is negative, then
    after any requests, whatever the environments, the same holds; every
    request was answered; and every usage view an answer carries is the
    view of the request's user, with a count that is not negative and a
    remainder between zero and the free limit. *)
Theorem store_stays_well_formed (steps : list (Env * Request)) (w : World) :
  wellFormedStore w ->
  wellFormedStore (snd (serve steps w))
  /\ forall request c,
       In (request, c) (fst (serve steps w)) ->
       exists response,
         c = Return response
         /\ forall usage, responseUsage response = Some usage ->
              exists u, subject request = Some u /\ soundView u usage.
Proof.
  revert w; induction steps as [| [env request] rest IH]; intros w Hw.
  - cbn. split; [exact Hw |]. intros request c [].
  - destruct (handle_frame env request w) as (response & w1 & H & _ & S).
    rewrite (serve_cons env request rest w w1 _ H). cbn [fst snd].
    destruct (S Hw) as [W1 V1]. destruct (IH w1 W1) as [W2 V2].
    split; [exact W2 |]. intros request' c [E | Hin].
    + injection E as <- <-. exists response. split; [reflexivity | exact V1].
    + exact (V2 request' c Hin).
Qed.

(** The visit of user u1, from a usage file that holds the user's
    record. *)
Lemma store_stays_well_formed_witness :
  wellFormedStore (snd (serve Sample.visit Sample.exhausted)).
Proof.
  apply (store_stays_well_formed Sample.visit Sample.exhausted).
  split.
  - intros k r H.
    change (localUsers Sample.exhausted)
      with ({[ "u1" := Sample.spent "u1" ]} : gmap string UsageRecord) in H.
    apply lookup_singleton_Some in H as [<- <-]. split; [reflexivity | cbn; lia].
  - intros k c H.
    change (app_usage Sample.exhausted) with (∅ : gmap string AppUsageColumns) in H.
    rewrite lookup_empty in H. discriminate H.
Defined.

(** *** Reading the billing status *)

(** [GET /api/billing/status].  Without a user id (absent, not a string,
    or blank) the answer is 400 and nothing changes.  With one, the answer
    is 200 with a usage view; no count moves and nothing is sent to the
    image provider, whatever the remote store does.  Under a steady
    backend the view is that of the stored record, or of the default
    record for a user with none (count 0, free plan, one generation
    left), and a second read returns the same view and changes no
    record. *)
Theorem billing_status_read (env : Env) (userIdParam : option string) (w : World) :
  match subject (GetBillingStatus userIdParam) with
  | None =>
      billingStatusHandler env userIdParam w
      = (Return (mkResponse 400 (MessageBody "userId is required.")), w)
  | Some u =>
      exists (usage : UsageView) (w' : World),
        billingStatusHandler env userIdParam w
        = (Return (mkResponse 200 (UsageBody usage)), w')
        /\ quiet w w'
        /\ forall (b : Backend) (env' : Env),
             backendMode env b -> backendMode env' b ->
             usage = buildUsageView (currentOrDefault env b w u)
             /\ (storedRecord b w u = None ->
                 view_userId usage = u
                 /\ view_generatedCount usage = 0
                 /\ remainingFree usage = FREE_IMAGE_LIMIT
                 /\ view_billingStatus usage = free
                 /\ canGenerate usage = true)
             /\ exists w'' : World,
                  billingStatusHandler env' userIdParam w'
                  = (Return (mkResponse 200 (UsageBody usage)), w'')
                  /\ forall v, storedRecord b w'' v = storedRecord b w' v
  end.
Proof.
  cbn [subject]. unfold billingStatusHandler, tryCatch.
  set (userId := match userIdParam with Some s => JSString.trim s | None => "" end).
  destruct (JSString.truthy userId); cbn [negb]; [| reflexivity].
  unfold bind, ret.
  destruct (getUsageView_quiet env userId w) as (usage & w' & Hv & Q).
  rewrite Hv. exists usage, w'. split; [reflexivity |]. split; [exact Q |].
  intros b env' Hm Hm'.
  destruct (getUsageView_mode env b userId w w' usage Hm Hv) as (Hu & Hs & _).
  split; [exact Hu |]. split.
  - intros Hn. subst usage. unfold currentOrDefault. rewrite Hn. repeat split.
  - destruct (getUsageRecord_mode env' b userId w' Hm') as (w'' & Hg & Hs' & Ho & _).
    exists w''. unfold getUsageView, bind, ret. rewrite Hg.
    assert (Hc : currentOrDefault env' b w' userId = currentOrDefault env b w userId)
      by (unfold currentOrDefault at 1; rewrite Hs; reflexivity).
    rewrite Hc in *. rewrite <- Hu. split; [reflexivity |].
    intros v. destruct (decide (v = userId)) as [-> | Hne]; [congruence | auto].
Qed.

(** *** Creating a checkout *)

(** [POST /api/billing/create-checkout] never reads or writes a usage
    record: the world is left as it is.  It answers 400 exactly when the
    body names no user; 200 only with the three Lemon keys set and a
    checkout URL that the provider returned and that is not empty; 503
    with the code [billing_not_ready] when the checkout call returns
    without a URL; 500 only when the request to the provider rejects. *)
Theorem create_checkout_outcomes (env : Env) (reqBody : JSON) (w : World) :
  exists response : Response,
    createCheckoutHandler env reqBody w = (Return response, w)
    /\ (status response = 400 <-> getClientUserId reqBody = None)
    /\ (status response = 200 ->
        exists (url apiKey storeId variantId : string),
          body response = CheckoutBody url
          /\ JSString.truthy url = true
          /\ lemonReply env = LemonOk (Some url)
          /\ getLemonApiKey (processEnv env) = Some apiKey
          /\ getLemonStoreId (processEnv env) = Some storeId
          /\ getLemonVariantId (processEnv env) = Some variantId)
    /\ (status response = 500 ->
        exists message : string,
          lemonReply env = LemonRejected message
          /\ body response = MessageBody message)
    /\ (status response = 200 \/ status response = 400 \/ status response = 500
        \/ (status response = 503
            /\ exists (message : string) (lemonStatus : option Z),
                 body response = BillingNotReadyBody message "billing_not_ready" lemonStatus)).
Proof.
  unfold createCheckoutHandler, tryCatch.
  destruct (getClientUserId reqBody) as [u |].
  2:{ eexists. split; [reflexivity |]. cbn [status body].
      split; [split; reflexivity |]. split; [discriminate |]. split; [discriminate |].
      auto. }
  unfold bind at 1. unfold createLemonCheckoutUrl.
  destruct (getLemonApiKey (processEnv env)) as [k1 |],
           (getLemonStoreId (processEnv env)) as [k2 |],
           (getLemonVariantId (processEnv env)) as [k3 |];
    try (eexists; split; [reflexivity |]; cbn [status body];
         split; [split; discriminate |]; split; [discriminate |];
         split; [discriminate |]; right; right; right; split; [reflexivity |];
         eexists _, _; reflexivity).
  destruct (lemonReply env) as [m | st | [[| c url] |]];
    (eexists; split; [reflexivity |]; cbn [status body];
     split; [split; discriminate |]).
  - split; [discriminate |]. split; [intros _; exists m; auto |]. auto.
  - split; [discriminate |]. split; [discriminate |].
    right; right; right. split; [reflexivity |]. eexists _, _. reflexivity.
  - split; [discriminate |]. split; [discriminate |].
    right; right; right. split; [reflexivity |]. eexists _, _. reflexivity.
  - split; [| split; [discriminate | auto]].
    intros _. exists (String c url), k1, k2, k3. repeat split; reflexivity.
  - split; [discriminate |]. split; [discriminate |].
    right; right; right. split; [reflexivity |]. eexists _, _. reflexivity.
Qed.

(** *** Writing, then reading *)

(** Under a steady backend a record read after an update is the record
    the update returned, and the read changes no record; the update
    changes no other user's record, and the count and status it stores
    are those the mutator gives for the record stored before (the default
    record for a user with none). *)
Theorem update_then_read (env env' : Env) (b : Backend) (u : string)
    (updater : UsageRecord -> UsageRecord) (w : World) :
  backendMode env b -> backendMode env' b ->
  exists (r : UsageRecord) (w' w'' : World),
    updateUsageRecord env u updater w = (Return r, w')
    /\ getUsageRecord env' u w' = (Return r, w'')
    /\ storedRecord b w' u = Some r
    /\ (forall v, storedRecord b w'' v = storedRecord b w' v)
    /\ (forall v, v <> u -> storedRecord b w' v = storedRecord b w v)
    /\ generatedCount r = generatedCount (updater (currentOrDefault env b w u))
    /\ billingStatus r = billingStatus (updater (currentOrDefault env b w u))
    /\ lemonCustomerId r = lemonCustomerId (updater (currentOrDefault env b w u))
    /\ lemonSubscriptionId r = lemonSubscriptionId (updater (currentOrDefault env b w u)).
Proof.
  intros Hm Hm'.
  destruct (updateUsageRecord_mode env b u updater w Hm) as (w' & k & Hu & Hs & Ho & _).
  cbv zeta in Hu, Hs.
  destruct (getUsageRecord_mode env' b u w' Hm') as (w'' & Hg & Hs' & Ho' & _).
  assert (Hc : currentOrDefault env' b w' u
               = returned b u (stampUpdatedAt (isoTime env k)
                                 (updater (currentOrDefault env b w u))))
    by (unfold currentOrDefault at 1; rewrite Hs; reflexivity).
  rewrite Hc in *.
  eexists _, w', w''. split; [exact Hu |]. split; [exact Hg |]. split; [exact Hs |].
  split.
  { intros v. destruct (decide (v = u)) as [-> | Hne]; [congruence | auto]. }
  split; [exact Ho |].
  destruct b; repeat split; reflexivity.
Qed.

(** A second generation is counted for a user with one stored, and read
    back. *)
Lemma update_then_read_witness :
  let env := Sample.localEnv Sample.configured in
  exists (r : UsageRecord) (w' w'' : World),
    updateUsageRecord env "u1" incrementGenerated Sample.exhausted = (Return r, w')
    /\ getUsageRecord env "u1" w' = (Return r, w'')
    /\ generatedCount r = 2.
Proof.
  intros env.
  destruct (update_then_read env env LocalOnly "u1" incrementGenerated Sample.exhausted
              eq_refl eq_refl) as (r & w' & w'' & A & B & _ & _ & _ & C & _).
  exists r, w', w''. split; [exact A |]. split; [exact B | exact C].
Defined.

(** *** A billing event changes the status, and nothing else *)

Lemma billingEvent_inv (req : WebhookRequest) (u : string) (st : BillingStatus) :
  billingEvent req = Some (u, st) ->
  exists (raw : list Z) (payload : JSON) (eventName : string),
    rawBody req = Some raw
    /\ JSONText.parse (Crypto.bufferToString raw) = Some payload
    /\ readNestedString payload ["meta"; "event_name"] = Some eventName
    /\ extractLemonUserId payload = Some u
    /\ JSString.truthy u = true
    /\ eventTarget eventName = Some st.
Proof.
  unfold billingEvent.
  destruct (rawBody req) as [raw |] eqn:Hb; [| discriminate].
  destruct (JSONText.parse (Crypto.bufferToString raw)) as [payload |] eqn:Hp;
    [| discriminate].
  destruct (readNestedString payload ["meta"; "event_name"]) as [eventName |] eqn:He;
    [| discriminate].
  destruct (extractLemonUserId payload) as [v |] eqn:Hu; [| discriminate].
  destruct (JSString.truthy v) eqn:T; [| discriminate].
  destruct (eventTarget eventName) as [st' |] eqn:Ht; [| discriminate].
  intros E. injection E as -> ->. exists raw, payload, eventName.
  repeat split; assumption.
Qed.

(** A verified delivery of a recognized event for a user is answered 200
    and sends nothing to the image provider; whatever the remote store
    does, no other user's record changes; under a steady backend the
    user's stored status is the event's, the user's stored count is what it
    was, and no other user's count or status moved. *)
Theorem billing_event_changes_status_only (env : Env) (req : WebhookRequest) (w : World)
    (raw : list Z) (u : string) (st : BillingStatus) :
  rawBody req = Some raw ->
  verifyLemonSignature (processEnv env) raw
    (if present (xSignature req) then xSignature req else None) = Return true ->
  billingEvent req = Some (u, st) ->
  exists w' : World,
    lemonWebhookHandler env req w = (Return (mkResponse 200 (WebhookBody false)), w')
    /\ reveCalls w' = reveCalls w
    /\ untouched (Some u) w w'
    /\ forall b : Backend,
         backendMode env b ->
         storedStatus b w' u = st
         /\ storedCount b w' u = storedCount b w u
         /\ forall v, v <> u ->
              storedCount b w' v = storedCount b w v
              /\ storedStatus b w' v = storedStatus b w v.
Proof.
  intros Hb Hv Hev.
  destruct (billingEvent_inv req u st Hev) as (raw' & payload & eventName & Hb' & Hp & He
                                               & Hu & Tu & Ht).
  rewrite Hb in Hb'. injection Hb' as <-.
  pose proof (webhook_recognized env req w raw payload eventName u st Hb Hv Hp He Hu Tu Ht)
    as H.
  destruct (updateUsageRecord_frame env u (withBillingStatus st) w (keepsShape_status st))
    as (r & w' & Hup & C & U & _).
  unfold setBillingStatus in H. rewrite Hup in H.
  exists w'. split; [exact H |]. split; [exact C |]. split; [exact U |].
  intros b Hm.
  destruct (setBillingStatus_steady env b u st w Hm) as (r' & w'' & Hs & (R1 & R2 & R3)).
  unfold setBillingStatus in Hs. rewrite Hup in Hs. injection Hs as <- <-.
  auto.
Qed.

(** The subscription of user u1 is created: the status is active, the
    count is the one stored. *)
Lemma billing_event_changes_status_only_witness :
  let env := Sample.localEnv Sample.configured in
  let req := Sample.signed "whsec" Sample.subscriptionCreated in
  exists w' : World,
    lemonWebhookHandler env req Sample.exhausted
      = (Return (mkResponse 200 (WebhookBody false)), w')
    /\ storedStatus LocalOnly w' "u1" = active
    /\ storedCount LocalOnly w' "u1" = storedCount LocalOnly Sample.exhausted "u1".
Proof.
  intros env req.
  destruct (billing_event_changes_status_only env req Sample.exhausted
              (Crypto.bufferFrom (JSONText.dq Sample.subscriptionCreated)) "u1" active)
    as (w' & A & _ & _ & B).
  - reflexivity.
  - vm_compute. reflexivity.
  - vm_compute. reflexivity.
  - destruct (B LocalOnly eq_refl) as (S & C & _).
    exists w'. split; [exact A |]. split; [exact S | exact C].
Defined.

(** *** A user both stores know as exhausted *)

Lemma bothHold_counters (P : BillingStatus -> Z -> Prop) (remote : bool) (w : World)
    (u : string) (n c : nat) (l : list ReveCall) :
  bothHold P remote w u ->
  bothHold P remote (mkWorld (usageFile w) (app_usage w) n c l) u.
Proof. intros H. exact H. Qed.

Lemma bothHold_untouched (P : BillingStatus -> Z -> Prop) (remote : bool) (w w' : World)
    (u : string) (v : option string) :
  untouched v w w' -> v <> Some u -> bothHold P remote w u -> bothHold P remote w' u.
Proof.
  intros U Hne [L R]. destruct (U u Hne) as [A B]. split.
  - rewrite A. exact L.
  - intros Hr. rewrite B. exact (R Hr).
Qed.

Lemma getOrCreateLocal_held (P : BillingStatus -> Z -> Prop) (env : Env) (remote : bool)
    (u : string) (w : World) :
  bothHold P remote w u ->
  exists r, getOrCreateLocalUsageRecord env u w = (Return r, w)
            /\ P (billingStatus r) (generatedCount r).
Proof.
  intros [(r & E & Hp) _]. rewrite getOrCreateLocal_eq, E. eauto.
Qed.

(** A read of a user both stores hold with [P] returns a record with
    [P], whichever store answers. *)
Lemma getUsageRecord_held (P : BillingStatus -> Z -> Prop) (env : Env) (u : string)
    (w : World) :
  bothHold P (supabase env) w u ->
  exists r w', getUsageRecord env u w = (Return r, w')
               /\ P (billingStatus r) (generatedCount r)
               /\ usageFile w' = usageFile w /\ app_usage w' = app_usage w
               /\ reveCalls w' = reveCalls w.
Proof.
  intros H. destruct (supabase env) eqn:Hs.
  2:{ rewrite (getUsageRecord_local env u w Hs).
      destruct (getOrCreateLocal_held P env false u w H) as (r & E & Hp).
      exists r, w. auto. }
  rewrite (getUsageRecord_remote env u w Hs), (getOrCreateSupabase_eq env u w Hs).
  cbv zeta. destruct (supabaseError env (supabaseRequests w)).
  - destruct (getOrCreateLocal_held P env true u _
                (bothHold_counters P true w u (S (supabaseRequests w)) (clockReads w)
                   (reveCalls w) H)) as (r & E & Hp).
    rewrite E. eexists _, _. split; [reflexivity |]. auto.
  - destruct H as [_ R]. destruct (R eq_refl) as (c & E & Hp). rewrite E.
    eexists _, _. split; [reflexivity |]. auto.
Qed.

(** An update of such a user by a mutator that keeps [P] leaves both
    stores holding the user with [P]. *)
Lemma updateUsageRecord_held (P : BillingStatus -> Z -> Prop) (env : Env) (u : string)
    (updater : UsageRecord -> UsageRecord) (w : World) :
  (forall r, P (billingStatus r) (generatedCount r) ->
             P (billingStatus (updater r)) (generatedCount (updater r))) ->
  bothHold P (supabase env) w u ->
  exists r w', updateUsageRecord env u updater w = (Return r, w')
               /\ bothHold P (supabase env) w' u.
Proof.
  intros Hk H.
  assert (L : forall w0, bothHold P (supabase env) w0 u ->
            exists r w', updateLocalUsageRecord env u updater w0 = (Return r, w')
                         /\ bothHold P (supabase env) w' u).
  { intros w0 [(r & E & Hp) R]. rewrite updateLocal_eq, E. cbv zeta.
    eexists _, _. split; [reflexivity |]. split.
    - world. rewrite lookup_insert_eq. eexists. split; [reflexivity |].
      exact (Hk r Hp).
    - exact R. }
  destruct (supabase env) eqn:Hs.
  2:{ rewrite (updateUsageRecord_local env u updater w Hs). apply L, H. }
  rewrite (updateUsageRecord_remote env u updater w Hs).
  pose proof H as H0. rewrite <- Hs in H0.
  destruct (getUsageRecord_held P env u w H0) as (cur & w1 & -> & Hp & Ef & Et & _).
  cbv zeta.
  assert (H1 : bothHold P true w1 u).
  { destruct H as [(r & E & Hr) R]. split.
    - exists r. unfold localUsers in *. rewrite Ef. auto.
    - intros _. rewrite Et. exact (R eq_refl). }
  destruct (supabaseError env (supabaseRequests w1)).
  - apply L. exact (bothHold_counters P true w1 u _ _ _ H1).
  - eexists _, _. split; [reflexivity |]. destruct H1 as [L1 _]. split; [exact L1 |].
    intros _. world. rewrite lookup_insert_eq. eexists. split; [reflexivity |].
    exact (Hk cur Hp).
Qed.

Lemma exhausted_denies (r : UsageRecord) :
  exhaustedPlan (billingStatus r) (generatedCount r) ->
  canGenerate (buildUsageView r) = false.
Proof.
  unfold exhaustedPlan. intros [Hs Hc].
  unfold buildUsageView, FREE_IMAGE_LIMIT in *. cbn. rewrite Hs. cbn.
  rewrite Z.gtb_ltb. apply Z.ltb_ge. lia.
Qed.

(** One request, for a user both stores know as exhausted, in a
    deployment whose remote store may fail at any request. *)
Lemma handle_exhausted (env : Env) (request : Request) (w : World) (u : string) :
  ~ namesStatus u active request ->
  bothHold exhaustedPlan (supabase env) w u ->
  exists (response : Response) (w' : World),
    handle env request w = (Return response, w')
    /\ bothHold exhaustedPlan (supabase env) w' u
    /\ (generationOf u request = true ->
        reveCalls w' = reveCalls w
        /\ (status response = 402 \/ status response = 500)).
Proof.
  intros Hn H.
  destruct (decide (subject request = Some u)) as [Hsub | Hsub].
  2:{ destruct (handle_frame env request w) as (response & w' & Hh & U & _).
      exists response, w'. split; [exact Hh |].
      split; [exact (bothHold_untouched _ _ w w' u _ U Hsub H) |].
      intros G. exfalso. apply Hsub.
      destruct request as [p | reqBody | req | reqBody | reqBody];
        cbn [generationOf subject] in *; try discriminate G;
        destruct (getClientUserId reqBody) as [v |]; try discriminate G;
        apply String.eqb_eq in G; congruence. }
  assert (V : exists usage w1,
            getUsageView env u w = (Return usage, w1)
            /\ canGenerate usage = false
            /\ bothHold exhaustedPlan (supabase env) w1 u
            /\ reveCalls w1 = reveCalls w).
  { destruct (getUsageRecord_held exhaustedPlan env u w H)
      as (r & w1 & Hg & Hp & Ef & Et & Hc).
    exists (buildUsageView r), w1. unfold getUsageView, bind, ret. rewrite Hg.
    split; [reflexivity |]. split; [now apply exhausted_denies |].
    split; [| exact Hc]. destruct H as [(r0 & E & Hr) R]. split.
    - exists r0. unfold localUsers in *. rewrite Ef. auto.
    - intros Hs. rewrite Et. exact (R Hs). }
  destruct V as (usage & w1 & Hv & Hd & H1 & Hc).
  assert (G : forall route reqBody,
            getClientUserId reqBody = Some u ->
            exists (response : Response) (w' : World),
              generationHandler route env reqBody w = (Return response, w')
              /\ bothHold exhaustedPlan (supabase env) w' u
              /\ (reveCalls w' = reveCalls w
                  /\ (status response = 402 \/ status response = 500))).
  { intros route reqBody Hu.
    destruct (denied_outcome route env reqBody w w1 u usage Hu Hv Hd)
      as (response & Hh & _ & Hr).
    exists response, w1. split; [exact Hh |]. split; [exact H1 |]. split; [exact Hc |].
    destruct (fst (createLemonCheckoutUrl env u None w1)); subst response; auto. }
  destruct request as [param | reqBody | req | reqBody | reqBody];
    cbn [handle subject generationOf namesStatus] in *.
  - (* status *)
    unfold billingStatusHandler, tryCatch.
    destruct (JSString.truthy _); [| discriminate Hsub]. injection Hsub as Hsub.
    rewrite Hsub. cbn [negb]. unfold bind, ret. rewrite Hv.
    eexists _, w1. split; [reflexivity |]. split; [exact H1 | discriminate].
  - discriminate Hsub.
  - (* webhook *)
    destruct (webhook_outcome env req w) as [(response & Hh & _) | (v & st & Hev & Hh)].
    + exists response, w. split; [exact Hh |]. split; [exact H | discriminate].
    + rewrite Hev in Hsub, Hn. cbn in Hsub. injection Hsub as ->.
      assert (st = free) as -> by (destruct st; [reflexivity | contradiction Hn; reflexivity]).
      destruct (updateUsageRecord_held exhaustedPlan env u (withBillingStatus free) w)
        as (r & w' & Hup & H'); [| exact H |].
      { intros r0 [_ Hc0]. split; [reflexivity | exact Hc0]. }
      unfold setBillingStatus in Hh. rewrite Hup in Hh.
      eexists _, w'. split; [exact Hh |]. split; [exact H' | discriminate].
  - destruct (G CreateRemoveBg reqBody Hsub) as (response & w' & A & B & C).
    exists response, w'. auto.
  - destruct (G Enhance reqBody Hsub) as (response & w' & A & B & C).
    exists response, w'. auto.
Qed.

(** No free generation beyond the limit, whatever the remote store does.
    In a deployment whose requests to the remote store may fail at any
    time, a user whom the usage file, and the table when there is a
    client, hold on the free plan with the free generations used is
    served no generation as long as no delivery names the user with an
    activating event: every generation request of the user is answered
    402 or 500, and the stores keep holding the user as exhausted. *)
Theorem exhausted_user_never_served (remote : bool) (steps : list (Env * Request))
    (w : World) (u : string) :
  Forall (fun step => supabase (fst step) = remote) steps ->
  Forall (fun step => ~ namesStatus u active (snd step)) steps ->
  bothHold exhaustedPlan remote w u ->
  bothHold exhaustedPlan remote (snd (serve steps w)) u
  /\ generationsAnswered 200 u (fst (serve steps w)) = []
  /\ forall request c,
       In (request, c) (fst (serve steps w)) -> generationOf u request = true ->
       answered 402 c || answered 500 c = true.
Proof.
  revert w; induction steps as [| [env request] rest IH]; intros w Hm Hn H.
  - cbn. split; [exact H |]. split; [reflexivity |]. intros request c [].
  - pose proof (Forall_inv Hm) as Hm1. pose proof (Forall_inv_tail Hm) as Hm2.
    pose proof (Forall_inv Hn) as Hn1. pose proof (Forall_inv_tail Hn) as Hn2.
    cbn [fst snd] in Hm1, Hn1. rewrite <- Hm1 in H.
    destruct (handle_exhausted env request w u Hn1 H) as (response & w1 & Hh & H1 & D).
    rewrite (serve_cons env request rest w w1 _ Hh). cbn [fst snd].
    rewrite Hm1 in H1. destruct (IH w1 Hm2 Hn2 H1) as (I1 & I2 & I3).
    split; [exact I1 |]. rewrite generationsAnswered_cons. cbn [answered]. split.
    + destruct (generationOf u request) eqn:G; cbn [andb]; [| exact I2].
      destruct (D eq_refl) as [_ [-> | ->]]; exact I2.
    + intros request' c [E | Hin] G.
      * injection E as <- <-. cbn [answered].
        destruct (D G) as [_ [-> | ->]]; reflexivity.
      * exact (I3 request' c Hin G).
Qed.

(** The visit of a user whom both stores know as exhausted, in a
    deployment whose every other request to Supabase fails: the reads
    and the checkout fall now on the table, now on the file. *)
Lemma exhausted_user_never_served_witness :
  bothHold exhaustedPlan true (snd (serve Sample.flakyVisit Sample.exhaustedInBoth)) "u1"
  /\ generationsAnswered 200 "u1" (fst (serve Sample.flakyVisit Sample.exhaustedInBoth))
     = [].
Proof.
  assert (H : bothHold exhaustedPlan true Sample.exhaustedInBoth "u1").
  { split.
    - exists (Sample.spent "u1"). split; [reflexivity |]. split; [reflexivity |].
      vm_compute. discriminate.
    - intros _.
      exists (mkAppUsageColumns 1 free None None "2026-01-01T00:00:00.000Z").
      split; [reflexivity |]. split; [reflexivity |]. vm_compute. discriminate. }
  destruct (exhausted_user_never_served true Sample.flakyVisit Sample.exhaustedInBoth "u1")
    as (A & B & _).
  - repeat constructor.
  - repeat constructor; intros [].
  - exact H.
  - split; [exact A | exact B].
Defined.

(* ===================================================================== *)
(** ** The embedding, run *)
(* ===================================================================== *)

(** *** Library functions against their published test vectors *)

(** FIPS 180-4, the one-block message [abc]. *)
Example sha256_abc :
  Crypto.hex (Crypto.sha256 (Crypto.bufferFrom "abc"))
  = "ba7816bf8f01cfea414140de5dae2223b00361a396177a9cb410ff61f20015ad".
Proof. vm_compute. reflexivity. Qed.

(** FIPS 180-4, the two-block message. *)
Example sha256_two_blocks :
  Crypto.hex (Crypto.sha256
    (Crypto.bufferFrom "abcdbcdecdefdefgefghfghighijhijkijkljklmklmnlmnomnopnopq"))
  = "248d6a61d20638b8e5c026930c3e6039a33ce45964ff2167f6ecedd419db06c1".
Proof. vm_compute. reflexivity. Qed.

(** RFC 4231, test case 2. *)
Example hmac_rfc4231_case2 :
  Crypto.hmacSha256Hex "Jefe" (Crypto.bufferFrom "what do ya want for nothing?")
  = "5bdcc146bf60754e6a042426089575c75a003f089d2739839dec58b964ec3843".
Proof. vm_compute. reflexivity. Qed.

(** RFC 4231, test case 6: a key longer than one block is hashed first. *)
Example hmac_rfc4231_case6 :
  Crypto.hex (Crypto.hmacSha256 (repeat 170 131)
    (Crypto.bufferFrom "Test Using Larger Than Block-Size Key - Hash Key First"))
  = "60e431591ee0b67f0d8a26aacbf5b77f8e0bc6213728c5140546040f0ee37f54".
Proof. vm_compute. reflexivity. Qed.

Example parse_nested :
  JSONText.parse (JSONText.dq "{ 'a' : [1, -2.50e3, true, null, 'xA\n'], 'a' : {} }")
  = Some (JObj [("a", JArr [JNum 1 0; JNum (-250) 1; JBool true; JNull;
                             JStr (String "x" (String "A" (String (ascii_of_nat 10) "")))]);
                ("a", JObj [])]).
Proof. vm_compute. reflexivity. Qed.

Example parse_refuses :
  map JSONText.parse ["01"; "[1,]"; "{"; "nul"; "1 2"; "-"; "1.e3"; ""]
  = [None; None; None; None; None; None; None; None].
Proof. vm_compute. reflexivity. Qed.

Example trim_example :
  JSString.trim (JSString.bytes [32; 9; 117; 49; 32; 194; 160; 10]%nat) = "u1".
Proof. vm_compute. reflexivity. Qed.

(** *** The scenarios of the specification, with [FREE_IMAGE_LIMIT = 1] *)

(** Scenario A: a fresh user's status. *)
Example scenario_A :
  fst (billingStatusHandler (Sample.localEnv Sample.configured) (Some "u1") Sample.fresh)
  = Return (mkResponse 200 (UsageBody (mkUsageView "u1" 0 1 1 free false true))).
Proof. vm_compute. reflexivity. Qed.

(** Scenario B: the status after one successful generation. *)
Example scenario_B :
  let env := Sample.localEnv Sample.configured in
  let w1 := snd (createRemoveBgHandler env Sample.createBody Sample.fresh) in
  fst (billingStatusHandler env (Some "u1") w1)
  = Return (mkResponse 200 (UsageBody (mkUsageView "u1" 1 1 0 free false false))).
Proof. vm_compute. reflexivity. Qed.

(** Scenario C: the next attempt is answered 402 with a checkout URL when
    checkout is configured, with a billing message when it is not. *)
Example scenario_C :
  let usage := mkUsageView "u1" 1 1 0 free false false in
  fst (createRemoveBgHandler (Sample.localEnv Sample.configured) Sample.createBody
         Sample.exhausted)
  = Return (mkResponse 402
              (UpgradeBody "Free plan limit reached (1 image). Upgrade to continue generating."
                 "upgrade_required" (Some "https://pay.example/checkout") None usage))
  /\ fst (createRemoveBgHandler
            (Sample.localEnv (mkProcessEnv (Some "reve-key") None None None None None))
            Sample.createBody Sample.exhausted)
     = Return (mkResponse 402
                 (UpgradeBody "Free plan limit reached (1 image). Upgrade to continue generating."
                    "upgrade_required" None
                    (Some "Missing Lemon configuration. Set LEMON_SQUEEZY_API_KEY, LEMON_SQUEEZY_STORE_ID, and LEMON_SQUEEZY_VARIANT_ID.")
                    usage)).
Proof. split; vm_compute; reflexivity. Qed.

(** Scenario D: [subscription_created] activates the user, and the next
    generation is admitted over the free limit. *)
Example scenario_D :
  let env := Sample.localEnv Sample.configured in
  let w1 := snd (lemonWebhookHandler env (Sample.signed "whsec" Sample.subscriptionCreated)
                   Sample.exhausted) in
  billingStatus <$> localUsers w1 !! "u1" = Some active
  /\ status <$> match fst (enhanceHandler env Sample.enhanceBody w1) with
                | Return r => Some r
                | Throw _ => None
                end = Some 200
  /\ localCount (snd (enhanceHandler env Sample.enhanceBody w1)) "u1" = 2.
Proof. repeat split; vm_compute; reflexivity. Qed.

(** Scenario E: a wrong signature is answered 401 and changes nothing. *)
Example scenario_E :
  lemonWebhookHandler (Sample.localEnv Sample.configured)
    (Sample.webhook Sample.subscriptionCreated (Some "deadbeef")) Sample.exhausted
  = (Return (mkResponse 401 (MessageBody "Invalid webhook signature.")), Sample.exhausted).
Proof. vm_compute. reflexivity. Qed.

(** Scenario F: the upscale factor 7 reaches the provider as 2. *)
Example scenario_F :
  let env := Sample.localEnv Sample.configured in
  map postprocessing (reveCalls (snd (enhanceHandler env Sample.enhanceBody Sample.fresh)))
  = [[upscale 2]].
Proof. vm_compute. reflexivity. Qed.

(** The remote backend fails on the delivery and answers afterwards: the
    file holds the new status, the table does not, and a read served by
    the table creates a free record there. *)
Example fallback_leaves_the_table_behind :
  let fails n := (n <? 2)%nat in
  let env := Sample.remoteEnv Sample.configured fails in
  let w1 := snd (lemonWebhookHandler env (Sample.signed "whsec" Sample.subscriptionCreated)
                   Sample.fresh) in
  billingStatus <$> localUsers w1 !! "u1" = Some active
  /\ remoteRecord w1 "u1" = None
  /\ view_billingStatus <$> match fst (getUsageView env "u1" w1) with
                            | Return v => Some v
                            | Throw _ => None
                            end = Some free.
Proof. repeat split; vm_compute; reflexivity. Qed.

(** Without a webhook secret a delivery with no signature header is
    trusted and applied. *)
Example unsigned_delivery_is_trusted :
  let env := Sample.localEnv Sample.unsigned in
  let out := lemonWebhookHandler env (Sample.webhook Sample.subscriptionCreated None)
               Sample.exhausted in
  fst out = Return (mkResponse 200 (WebhookBody false))
  /\ billingStatus <$> localUsers (snd out) !! "u1" = Some active.
Proof. split; vm_compute; reflexivity. Qed.

(** The provider answers not-ok: the request ends in a 500 carrying the
    provider's message and error code, the call was made, the count is
    where it was. *)
Example provider_not_ok :
  let env := Sample.withReve (ReveNotOk (Some "Prompt rejected") (Some "CONTENT_POLICY"))
               (Sample.localEnv Sample.configured) in
  let out := createRemoveBgHandler env Sample.createBody Sample.fresh in
  fst out = Return (mkResponse 500 (MessageBody "Prompt rejected (CONTENT_POLICY)"))
  /\ length (reveCalls (snd out)) = 1%nat
  /\ localCount (snd out) "u1" = 0.
Proof. repeat split; vm_compute; reflexivity. Qed.

(** An enhance request whose upscale factor is an object with a
    [toString] member: the conversion to a number throws, the catch-all
    answers 500, nothing is sent to the image provider and no count
    moves. *)
Example upscale_factor_not_convertible :
  let body := JObj [("clientUserId", JStr "u1");
                    ("referenceImageBase64", JStr "data:image/png;base64,AAAA");
                    ("upscaleFactor", JObj [("toString", JNum 1 0)])] in
  exists w',
    enhanceHandler (Sample.localEnv Sample.configured) body Sample.fresh
    = (Return (mkResponse 500 (MessageBody "Cannot convert object to primitive value")), w')
    /\ reveCalls w' = []
    /\ localCount w' "u1" = 0.
Proof.
  intros body. eexists. split; [vm_compute; reflexivity |]. split; reflexivity.
Qed.

(** Upscale factors as requests write them: the number 3, the string
    [" 4 "], the array [[3]] and the hexadecimal ["0x4"] are honoured; 7,
    ["three"], [true] and an empty object give 2. *)
Example upscale_factors :
  map (fun v => sanitizeUpscaleFactor (Some v))
      [ JNum 3 0; JStr " 4 "; JArr [JNum 3 0]; JStr "0x4"; JNum 30 (-1);
        JNum 7 0; JStr "three"; JBool true; JObj [] ]
  = map Return [3; 4; 3; 4; 3; 2; 2; 2; 2].
Proof. vm_compute. reflexivity. Qed.

(** *** Requests one after the other *)

(** The visit of user u1 from a world that knows nobody: a generation, the
    status, and a second attempt that is asked to upgrade. *)
Example visit_answers :
  map (fun entry => match snd entry with
                    | Return response => status response
                    | Throw _ => 0
                    end)
      (fst (serve Sample.visit Sample.fresh))
  = [200; 200; 402].
Proof. vm_compute. reflexivity. Qed.

(** Why both stores must hold the user as exhausted: the table holds user
    u1 with the free generation used, the usage file does not know the
    user, and every request to the remote store fails; the read falls
    back to the file, creates the default record there, and the request
    is served. *)
Example outage_serves_from_the_file :
  let env := Sample.remoteEnv Sample.configured (fun _ => true) in
  let w := mkWorld FileMissing
             {[ "u1" := mkAppUsageColumns 1 free None None "2026-01-01" ]} 0 0 [] in
  remoteCount w "u1" = 1
  /\ (exists response w',
        createRemoveBgHandler env Sample.createBody w = (Return response, w')
        /\ status response = 200
        /\ localCount w' "u1" = 1
        /\ remoteCount w' "u1" = 1).
Proof.
  intros env w. split; [reflexivity |].
  eexists _, _. split; [vm_compute; reflexivity |].
  split; [reflexivity |]. split; reflexivity.
Qed.
